(** * Cooldowns: a shallow embedding of [src/util/Cooldowns.ts]

    The class [Cooldowns] keeps a map from derived keys to expiry dates
    (the field [_cooldowns]) and mirrors the long windows into a
    collection of the database ([cooldownSchema]).  This file embeds its
    methods as functions over an explicit state, together with the part
    of the JavaScript run time they rely on (numbers, dates, a few
    string methods), and proves properties of them.

    Conventions of the embedding:
    - a JavaScript string is a [string]; the character of code [n] stands
      for the UTF-16 code unit [n], so the strings of the model are those
      whose code units are below 256;
    - a JavaScript number is a [number]: [NaN], the two infinities, or a
      finite value held as a rational.  The sum, the product and the
      conversion of a string round to the nearest double ([round64]):
      they are what the parsing of a duration and the date of [start]
      are made of.  The difference, the quotient and the remainder,
      which the class applies to time values only (the time that is
      left), are exact; the negative zero is not modelled;
    - a [Date] is its time value: an integer count of milliseconds, or
      nothing for an invalid date;
    - what the class takes from its host is a [host]: the offset of the
      local time zone, which [getSeconds] and [setSeconds] go through,
      and whether an operation of the database resolves or fails;
    - [new Date()] is an explicit argument [now] of every method that
      reads the clock;
    - a promise that resolves is the returned value, a rejected one and
      a thrown [Error] are [Throw]. *)

From Stdlib Require Import ZArith QArith Qround Qcanon String Ascii List Lia.
From stdpp Require Import gmap strings list fin_maps pretty.

Local Open Scope string_scope.
Local Open Scope Z_scope.

(** ** JavaScript numbers *)

Inductive number : Type :=
| NaN
| Infinity (negative : bool)
| Finite (q : Q).

Definition num (z : Z) : number := Finite (inject_Z z).

Definition Qneg_bool (q : Q) : bool := negb (Qle_bool 0 q).
Definition Qzero_bool (q : Q) : bool := Qeq_bool q 0.

Definition number_neg (a : number) : number :=
  match a with
  | NaN => NaN
  | Infinity s => Infinity (negb s)
  | Finite q => Finite (Qred (- q))
  end.

(** *** Rounding to the nearest double

    [round64 q] is the double nearest to the rational [q], the one with
    an even mantissa when two are as near: 53 bits of mantissa, the
    least exponent [-1074] (below it the doubles are the multiples of
    [2^-1074]), and [Infinity] from [2^1024 - 2^970] on. *)

(** [floor (log2 (n / d))] *)
Definition log2_floor (n d : positive) : Z :=
  let l := Z.log2 (Zpos n) - Z.log2 (Zpos d) in
  if (if 0 <=? l then Zpos d * 2 ^ l <=? Zpos n else Zpos d <=? Zpos n * 2 ^ (- l))
  then l else l - 1.

(** The integer nearest to [p / r], the even one of two as near. *)
Definition nearest_even (p : Z) (r : positive) : Z :=
  let fl := p / Zpos r in
  match 2 * (p mod Zpos r) ?= Zpos r with
  | Lt => fl
  | Gt => fl + 1
  | Eq => if Z.even fl then fl else fl + 1
  end.

(** The double nearest to [n / d] as a mantissa [m] and an exponent [e],
    for [m * 2^e]. *)
Definition round_magnitude (n d : positive) : Z * Z :=
  let e := Z.max (log2_floor n d - 52) (-1074) in
  let m :=
    if 0 <=? e then nearest_even (Zpos n) (d * Z.to_pos (2 ^ e))
    else nearest_even (Zpos n * 2 ^ (- e)) d in
  (m, e).

(** [m * 2^e] *)
Definition scale2 (m e : Z) : Q :=
  if 0 <=? e then inject_Z (m * 2 ^ e) else Qred (Qmake m (Z.to_pos (2 ^ (- e)))).

Definition round64 (q : Q) : number :=
  let q := Qred q in
  match Qnum q with
  | 0 => Finite 0
  | Zpos n =>
      let '(m, e) := round_magnitude n (Qden q) in
      if (0 <=? e) && (2 ^ 1024 <=? m * 2 ^ e) then Infinity false
      else Finite (scale2 m e)
  | Zneg n =>
      let '(m, e) := round_magnitude n (Qden q) in
      if (0 <=? e) && (2 ^ 1024 <=? m * 2 ^ e) then Infinity true
      else Finite (scale2 (- m) e)
  end.

(** [a + b] *)
Definition number_add (a b : number) : number :=
  match a, b with
  | NaN, _ | _, NaN => NaN
  | Infinity s, Infinity s' => if Bool.eqb s s' then Infinity s else NaN
  | Infinity s, Finite _ | Finite _, Infinity s => Infinity s
  | Finite p, Finite q => round64 (p + q)
  end.

(** [a - b], exact *)
Definition number_sub (a b : number) : number :=
  match a, b with
  | NaN, _ | _, NaN => NaN
  | Infinity s, Infinity s' => if Bool.eqb s s' then NaN else Infinity s
  | Infinity s, Finite _ => Infinity s
  | Finite _, Infinity s => Infinity (negb s)
  | Finite p, Finite q => Finite (Qred (p - q))
  end.

(** [a * b] *)
Definition number_mul (a b : number) : number :=
  match a, b with
  | NaN, _ | _, NaN => NaN
  | Infinity s, Infinity s' => Infinity (xorb s s')
  | Infinity s, Finite q | Finite q, Infinity s =>
      if Qzero_bool q then NaN else Infinity (xorb s (Qneg_bool q))
  | Finite p, Finite q => round64 (p * q)
  end.

(** [a / b], exact *)
Definition number_div (a b : number) : number :=
  match a, b with
  | NaN, _ | _, NaN => NaN
  | Infinity _, Infinity _ => NaN
  | Infinity s, Finite q => Infinity (xorb s (Qneg_bool q))
  | Finite _, Infinity _ => Finite 0
  | Finite p, Finite q =>
      if Qzero_bool q
      then if Qzero_bool p then NaN else Infinity (Qneg_bool p)
      else Finite (Qred (p / q))
  end.

(** The integer part of a rational, rounding towards zero. *)
Definition Qtruncate (q : Q) : Z :=
  if Qneg_bool q then Qceiling q else Qfloor q.

(** [a % b]: the remainder has the sign of the dividend; it is exact
    in doubles too. *)
Definition number_rem (a b : number) : number :=
  match a, b with
  | NaN, _ | _, NaN => NaN
  | Infinity _, _ => NaN
  | Finite p, Infinity _ => Finite p
  | Finite p, Finite q =>
      if Qzero_bool q then NaN
      else Finite (Qred (p - q * inject_Z (Qtruncate (p / q))))
  end.

(** [a < b]; every comparison with [NaN] is false. *)
Definition number_lt (a b : number) : bool :=
  match a, b with
  | NaN, _ | _, NaN => false
  | Infinity s, Infinity s' => s && negb s'
  | Infinity s, Finite _ => s
  | Finite _, Infinity s => negb s
  | Finite p, Finite q => negb (Qle_bool q p)
  end.

(** [a <= b] *)
Definition number_le (a b : number) : bool :=
  match a, b with
  | NaN, _ | _, NaN => false
  | Infinity s, Infinity s' => s || negb s'
  | Infinity s, Finite _ => s
  | Finite _, Infinity s => negb s
  | Finite p, Finite q => Qle_bool p q
  end.

(** [a > b] and [a >= b] *)
Definition number_gt (a b : number) : bool := number_lt b a.
Definition number_ge (a b : number) : bool := number_le b a.

(** The numbers that [Math.floor] returns: they have no fractional
    part, which is what makes their rendering a plain decimal numeral. *)
Inductive integral : Type :=
| INaN
| IInfinity (negative : bool)
| IInt (z : Z).

Definition Math_floor (a : number) : integral :=
  match a with
  | NaN => INaN
  | Infinity s => IInfinity s
  | Finite q => IInt (Qfloor q)
  end.

Definition number_of_integral (i : integral) : number :=
  match i with
  | INaN => NaN
  | IInfinity s => Infinity s
  | IInt z => num z
  end.

(** [`${i}`] for an integral number (below 10^21 in magnitude, beyond
    which JavaScript switches to the exponent notation). *)
Definition integral_toString (i : integral) : string :=
  match i with
  | INaN => "NaN"
  | IInfinity false => "Infinity"
  | IInfinity true => "-Infinity"
  | IInt z => pretty z
  end.

(** ToBoolean on a number: [0] and [NaN] are falsy. *)
Definition number_truthy (a : number) : bool :=
  match a with
  | NaN => false
  | Infinity _ => true
  | Finite q => negb (Qzero_bool q)
  end.

(** ** Dates

    A date is its time value in milliseconds since the epoch; [None] is
    the invalid date, whose time value is [NaN]. *)

Abbreviation Date := (option Z).

(** Modelled from the spec: the four operations of the collection
    behind [cooldownSchema]. *)
Inductive store_op : Type :=
| DeleteMany
| Find
| FindOneAndUpdate
| DeleteOne.

(** What the class meets in its host.  [LocalTZA t true] is the offset
    of the local time zone, in milliseconds, at the time value [t];
    [LocalTZA t false] is the offset that a local time [t] is read with
    (at a local time that the clock skips or shows twice, the offset
    from before the change).  [resolves op] tells whether the promise of
    the operation [op] of the database resolves; it is rejected
    otherwise. *)
Record host : Type := {
  LocalTZA : Z -> bool -> Z;
  resolves : store_op -> bool
}.

Definition LocalTime (h : host) (t : Z) : Z := t + LocalTZA h t true.
Definition UTC (h : host) (t : Z) : Z := t - LocalTZA h t false.

Definition msPerSecond : Z := 1000.
Definition msPerMinute : Z := 60000.
Definition msPerHour : Z := 3600000.
Definition msPerDay : Z := 86400000.

Definition Day (t : Z) : Z := t / msPerDay.
Definition HourFromTime (t : Z) : Z := (t / msPerHour) mod 24.
Definition MinFromTime (t : Z) : Z := (t / msPerMinute) mod 60.
Definition SecFromTime (t : Z) : Z := (t / msPerSecond) mod 60.
Definition msFromTime (t : Z) : Z := t mod msPerSecond.

Definition MakeTime (hour min sec ms : Z) : Z :=
  hour * msPerHour + min * msPerMinute + sec * msPerSecond + ms.

Definition MakeDate (day time : Z) : Z := day * msPerDay + time.

(** Time values beyond 8.64e15 milliseconds are not dates. *)
Definition TimeClip (t : Z) : Date :=
  if 8640000000000000 <? Z.abs t then None else Some t.

(** [d.getTime()] *)
Definition getTime (d : Date) : number :=
  match d with
  | Some t => num t
  | None => NaN
  end.

(** [d.getSeconds()]: the seconds of the local time. *)
Definition getSeconds (h : host) (d : Date) : number :=
  match d with
  | Some t => num (SecFromTime (LocalTime h t))
  | None => NaN
  end.

(** [d.setSeconds(sec)]: in the local time of the date, the seconds
    field is replaced by the integer part of [sec]; the date is rebuilt
    from the fields and read back as a local time.  A [sec] that is not
    finite makes the date invalid. *)
Definition setSeconds (h : host) (d : Date) (sec : number) : Date :=
  match d, sec with
  | Some t, Finite q =>
      let t := LocalTime h t in
      TimeClip (UTC h
                  (MakeDate (Day t)
                     (MakeTime (HourFromTime t) (MinFromTime t) (Qtruncate q)
                        (msFromTime t))))
  | _, _ => None
  end.

(** [a > b] on two dates compares their time values. *)
Definition Date_gt (a b : Date) : bool := number_gt (getTime a) (getTime b).

(** ** Strings *)

Definition code (c : ascii) : Z := Z.of_N (N_of_ascii c).

(** [s.split(sep)] for a separator of one character. *)
Fixpoint split (sep : ascii) (s : string) : list string :=
  match s with
  | EmptyString => [EmptyString]
  | String c s' =>
      if Ascii.eqb c sep then EmptyString :: split sep s'
      else match split sep s' with
           | [] => [String c EmptyString]
           | hd :: tl => String c hd :: tl
           end
  end.

(** One character of [s.toLowerCase()]: the letters A-Z and the
    capital letters of Latin-1 (U+00C0-U+00DE but the sign U+00D7). *)
Definition lower_char (c : ascii) : ascii :=
  let n := code c in
  if ((65 <=? n) && (n <=? 90))
     || ((192 <=? n) && (n <=? 222) && negb (n =? 215))
  then ascii_of_N (Z.to_N (n + 32))
  else c.

Fixpoint toLowerCase (s : string) : string :=
  match s with
  | EmptyString => EmptyString
  | String c s' => String (lower_char c) (toLowerCase s')
  end.

(** [strip_prefix p s] is what follows [p] in [s] when [s] starts with [p]. *)
Fixpoint strip_prefix (p s : string) : option string :=
  match p, s with
  | EmptyString, _ => Some s
  | String a p', String b s' =>
      if Ascii.eqb a b then strip_prefix p' s' else None
  | String _ _, EmptyString => None
  end.

(** [s.replace(pattern, replacement)] with a string pattern: the first
    occurrence only is replaced.  (The replacement is inserted as it is:
    the only caller passes a rendered time, which holds no [$].) *)
Fixpoint replace (pattern replacement s : string) : string :=
  match strip_prefix pattern s with
  | Some rest => replacement +:+ rest
  | None =>
      match s with
      | EmptyString => EmptyString
      | String c s' => String c (replace pattern replacement s')
      end
  end.

(** *** Conversion of a string to a number: [+s]

    The StringNumericLiteral grammar: white space around a signed decimal
    literal with optional fraction and exponent, or [Infinity], or an
    unsigned integer in base 16, 8 or 2; the empty string is 0 and
    anything else is [NaN].  The value of the literal is rounded to the
    nearest double. *)

Definition is_space (c : ascii) : bool :=
  let n := code c in
  ((9 <=? n) && (n <=? 13)) || (n =? 32) || (n =? 160).

Definition digit_value (c : ascii) : option Z :=
  let n := code c in
  if (48 <=? n) && (n <=? 57) then Some (n - 48)
  else if (97 <=? n) && (n <=? 102) then Some (n - 87)
  else if (65 <=? n) && (n <=? 70) then Some (n - 55)
  else None.

Definition is_digit (base : Z) (c : ascii) : bool :=
  match digit_value c with
  | Some v => v <? base
  | None => false
  end.

(** The longest prefix of characters that satisfy [p], and the rest. *)
Fixpoint span (p : ascii -> bool) (l : list ascii) : list ascii * list ascii :=
  match l with
  | [] => ([], [])
  | c :: l' =>
      if p c then let '(a, b) := span p l' in (c :: a, b) else ([], l)
  end.

Definition digits_value (base : Z) (l : list ascii) : Z :=
  fold_left (fun acc c => base * acc + default 0 (digit_value c)) l 0.

Definition trim (l : list ascii) : list ascii :=
  rev (snd (span is_space (rev (snd (span is_space l))))).

(** [m * 10^e] *)
Definition scale10 (m e : Z) : Q :=
  if 0 <=? e then inject_Z (m * 10 ^ e)
  else Qred (Qmake m (Z.to_pos (10 ^ (- e)))).

(** The exponent part: nothing, or [e] or [E], an optional sign and at
    least one digit, up to the end. *)
Definition ExponentPart (l : list ascii) : option Z :=
  match l with
  | [] => Some 0
  | c :: l' =>
      if Ascii.eqb c "e" || Ascii.eqb c "E" then
        let '(neg, ds) :=
          match l' with
          | s :: l'' =>
              if Ascii.eqb s "-" then (true, l'')
              else if Ascii.eqb s "+" then (false, l'')
              else (false, l')
          | [] => (false, l')
          end in
        match span (is_digit 10) ds with
        | ((_ :: _) as d, []) =>
            Some (if neg : bool then - digits_value 10 d else digits_value 10 d)
        | _ => None
        end
      else None
  end.

Definition StrUnsignedDecimalLiteral (l : list ascii) : number :=
  if String.eqb (string_of_list_ascii l) "Infinity" then Infinity false
  else
    let '(ip, r1) := span (is_digit 10) l in
    let '(fp, r2) :=
      match r1 with
      | c :: r => if Ascii.eqb c "." then span (is_digit 10) r else ([], r1)
      | [] => ([], r1)
      end in
    match (ip ++ fp)%list with
    | [] => NaN
    | ds =>
        match ExponentPart r2 with
        | Some e => round64 (scale10 (digits_value 10 ds) (e - Z.of_nat (length fp)))
        | None => NaN
        end
    end.

Definition NonDecimalIntegerLiteral (l : list ascii) : option number :=
  match l with
  | z :: x :: ((_ :: _) as ds) =>
      let base : Z :=
        if negb (Ascii.eqb z "0") then 0
        else if Ascii.eqb x "x" || Ascii.eqb x "X" then 16
        else if Ascii.eqb x "o" || Ascii.eqb x "O" then 8
        else if Ascii.eqb x "b" || Ascii.eqb x "B" then 2
        else 0 in
      if (0 <? base) && forallb (is_digit base) ds
      then Some (round64 (inject_Z (digits_value base ds)))
      else None
  | _ => None
  end.

Definition StringToNumber (s : string) : number :=
  match trim (list_ascii_of_string s) with
  | [] => num 0
  | (c :: l') as l =>
      match NonDecimalIntegerLiteral l with
      | Some n => n
      | None =>
          if Ascii.eqb c "-" then number_neg (StrUnsignedDecimalLiteral l')
          else if Ascii.eqb c "+" then StrUnsignedDecimalLiteral l'
          else StrUnsignedDecimalLiteral l
      end
  end.

(** ** Values, errors and completions *)

(** What reading a property of the table [cooldownDurations] can give:
    nothing, a number, or an object (a function counts as one). *)
Inductive value : Type :=
| VUndefined
| VNumber (n : number)
| VObject.

Definition ToBoolean (v : value) : bool :=
  match v with
  | VUndefined => false
  | VNumber n => number_truthy n
  | VObject => true
  end.

(** ToNumber: [undefined] is [NaN], and so is an object whose primitive
    value is a string that is no numeral (a function or a plain object). *)
Definition ToNumber (v : value) : number :=
  match v with
  | VNumber n => n
  | VUndefined | VObject => NaN
  end.

(** The [Error]s of the class, one constructor for each [throw], with
    the values that its message quotes; [TypeError] is what the run time
    raises when [split] is read from an [undefined] duration. *)
Inductive error : Type :=
| InvalidDuration (duration : string)
| UnknownDurationType (type : string)
| InvalidQuantity (quantity : number)
| UsedOutsideOfGuild (cooldownType : string)
| InvalidCooldownType (cooldownType : string)
| TypeError
| StoreError.

(** The kinds of error that the specification names. *)
Definition is_MalformedDurationError (e : error) : bool :=
  match e with
  | InvalidDuration _ | UnknownDurationType _ | InvalidQuantity _ => true
  | _ => false
  end.

Definition is_InvalidScopeError (e : error) : bool :=
  match e with
  | UsedOutsideOfGuild _ => true
  | _ => false
  end.

Definition is_UnknownScopeError (e : error) : bool :=
  match e with
  | InvalidCooldownType _ => true
  | _ => false
  end.

Inductive completion (A : Type) : Type :=
| Return (a : A)
| Throw (e : error).
Arguments Return {A} a.
Arguments Throw {A} e.

#[global] Instance completion_ret : MRet completion := @Return.
#[global] Instance completion_bind : MBind completion :=
  fun A B f c =>
    match c with
    | Return a => f a
    | Throw e => Throw e
    end.

Definition throws {A} (c : completion A) (p : error -> bool) : bool :=
  match c with
  | Return _ => false
  | Throw e => p e
  end.

(** ** The state: the cache and the collection *)

(** A key is a string, or [None] for the [undefined] that [getKey]
    returns on a type it does not know. *)
Abbreviation key := (option string).

(** [_cooldowns] is the map of the class; [collection] is the content of
    the database collection behind [cooldownSchema]. *)
Record state : Type := State {
  _cooldowns : gmap key Date;
  collection : gmap key Date
}.

Definition M (A : Type) : Type := state -> completion A * state.

#[global] Instance M_ret : MRet M := fun A a st => (Return a, st).
#[global] Instance M_bind : MBind M :=
  fun A B f m st =>
    match m st with
    | (Return a, st') => f a st'
    | (Throw e, st') => (Throw e, st')
    end.

Definition lift {A} (c : completion A) : M A := fun st => (c, st).
Definition throw {A} (e : error) : M A := lift (Throw e).

(** [this._cooldowns.get(k)], [.set(k, expires)] and [.delete(k)] *)
Definition cooldowns_get (k : key) : M (option Date) :=
  fun st => (Return (_cooldowns st !! k), st).

Definition cooldowns_set (k : key) (expires : Date) : M unit :=
  fun st => (Return tt, State (<[k := expires]> (_cooldowns st)) (collection st)).

Definition cooldowns_delete (k : key) : M unit :=
  fun st => (Return tt, State (delete k (_cooldowns st)) (collection st)).

(** Modelled from the spec: an operation of the database.  When its
    promise resolves, it has changed the collection; when the promise is
    rejected, the collection is as it was and the awaiting method
    throws. *)
Definition store (h : host) (op : store_op) {A} (run : M A) : M A :=
  if resolves h op then run else throw StoreError.

(** Modelled from the spec: the model [cooldownSchema] of
    [models/cooldown-schema], which is not among the sources.  The
    specification gives the collection as records of an id and an expiry
    with four operations: delete the records that expired before a time,
    find all, upsert by id and delete by id, and has the failure of an
    operation reach the caller.  This one is the first. *)
Definition deleteMany_expired (h : host) (now : Z) : M unit :=
  store h DeleteMany
    (fun st =>
       (Return tt,
        State (_cooldowns st)
          (filter (fun r => number_lt (getTime r.2) (num now) = false)
             (collection st)))).

(** Modelled from the spec: find-all on the collection of
    [models/cooldown-schema]. *)
Definition find_all (h : host) : M (list (key * Date)) :=
  store h Find (fun st => (Return (map_to_list (collection st)), st)).

(** Modelled from the spec: upsert-by-id on the collection of
    [models/cooldown-schema]. *)
Definition findOneAndUpdate_upsert (h : host) (k : key) (expires : Date) : M unit :=
  store h FindOneAndUpdate
    (fun st => (Return tt, State (_cooldowns st) (<[k := expires]> (collection st)))).

(** Modelled from the spec: delete-by-id on the collection of
    [models/cooldown-schema]; nothing happens when the id is absent. *)
Definition deleteOne (h : host) (k : key) : M unit :=
  store h DeleteOne
    (fun st => (Return tt, State (_cooldowns st) (delete k (collection st)))).

(** ** The class [Cooldowns] *)

(** An own property of an object literal. *)
Fixpoint own_property (o : list (string * number)) (name : string) : option number :=
  match o with
  | [] => None
  | (k, v) :: o' => if String.eqb k name then Some v else own_property o' name
  end.

(** The names that every object literal inherits from [Object.prototype];
    each of them holds a function, or the prototype itself. *)
Definition Object_prototype : list string :=
  ["constructor"; "__defineGetter__"; "__defineSetter__"; "hasOwnProperty";
   "__lookupGetter__"; "__lookupSetter__"; "isPrototypeOf";
   "propertyIsEnumerable"; "toString"; "valueOf"; "__proto__";
   "toLocaleString"].

(** [o[name]]: own properties first, then the prototype. *)
Definition get_property (o : list (string * number)) (name : string) : value :=
  match own_property o name with
  | Some n => VNumber n
  | None => if bool_decide (name ∈ Object_prototype) then VObject else VUndefined
  end.

Definition cooldownDurations : list (string * number) :=
  [("s", num 1); ("m", num 60); ("h", num (60 * 60)); ("d", num (60 * 60 * 24))].

Definition cooldownTypes : list string :=
  ["perUser"; "perUserPerGuild"; "perGuild"; "global"].

(** The fields of the object that its constructor fixes; [botOwners] is
    [this._instance.botOwners]. *)
Record Cooldowns : Type := {
  botOwners : list string;
  _errorMessage : string;
  _botOwnersBypass : bool;
  _dbRequired : number
}.

Record CooldownConfig : Type := {
  cfg_errorMessage : option string;
  cfg_botOwnersBypass : option bool;
  cfg_dbRequired : option number
}.

Definition constructor (instance_botOwners : list string)
    (cooldownConfig : CooldownConfig) : Cooldowns :=
  {| botOwners := instance_botOwners;
     _errorMessage :=
       default "Please wait {TIME} before doing that again."
         (cfg_errorMessage cooldownConfig);
     _botOwnersBypass := default false (cfg_botOwnersBypass cooldownConfig);
     _dbRequired := default (num 300) (cfg_dbRequired cooldownConfig) |}.

Inductive duration_t : Type :=
| DNumber (n : number)
| DString (s : string).

(** [InternalCooldownConfig], the argument of the public methods; an
    absent field is [None]. *)
Record InternalCooldownConfig : Type := {
  cooldownType : string;
  userId : string;
  actionId : string;
  guildId : option string;
  duration : option duration_t;
  errorMessage : option string
}.

(** What [canRunAction] returns: [true], or the message of a refusal. *)
Inductive outcome : Type :=
| Allowed
| Denied (message : string).

Definition loadCooldowns (h : host) (now : Z) : M unit :=
  deleteMany_expired h now ;;
  (results ← find_all h;
   foldl (fun (loop : M unit) result => loop ;; cooldowns_set result.1 result.2)
     (mret tt) results).

(** [`${guildId}`] *)
Definition template_of (guildId : option string) : string :=
  default "undefined" guildId.

(** [!guildId]: absent or empty. *)
Definition falsy (guildId : option string) : bool :=
  match guildId with
  | None => true
  | Some g => String.eqb g ""
  end.

Definition getKey (cooldownType userId actionId : string)
    (guildId : option string) : completion key :=
  let isPerUser := bool_decide (cooldownTypes !! 0%nat = Some cooldownType) in
  let isPerUserPerGuild := bool_decide (cooldownTypes !! 1%nat = Some cooldownType) in
  let isPerGuild := bool_decide (cooldownTypes !! 2%nat = Some cooldownType) in
  let isGlobal := bool_decide (cooldownTypes !! 3%nat = Some cooldownType) in
  if (isPerUserPerGuild || isPerGuild) && falsy guildId then
    Throw (UsedOutsideOfGuild cooldownType)
  else if isPerUser then
    Return (Some (userId +:+ "-" +:+ actionId))
  else if isPerUserPerGuild then
    Return (Some (userId +:+ "-" +:+ template_of guildId +:+ "-" +:+ actionId))
  else if isPerGuild then
    Return (Some (template_of guildId +:+ "-" +:+ actionId))
  else if isGlobal then
    Return (Some actionId)
  else Return None.

Definition getKeyFromCooldownUsage (cooldownUsage : InternalCooldownConfig)
    : completion key :=
  getKey (cooldownType cooldownUsage) (userId cooldownUsage)
    (actionId cooldownUsage) (guildId cooldownUsage).

Definition cancelCooldown (h : host) (cooldownUsage : InternalCooldownConfig)
    : M unit :=
  key ← lift (getKeyFromCooldownUsage cooldownUsage);
  cooldowns_delete key ;;
  deleteOne h key.

Definition updateCooldown (h : host) (this : Cooldowns) (now : Z)
    (cooldownUsage : InternalCooldownConfig) (expires : Date) : M unit :=
  key ← lift (getKeyFromCooldownUsage cooldownUsage);
  cooldowns_set key expires ;;
  let secondsDiff :=
    number_div (number_sub (getTime expires) (getTime (Some now))) (num 1000) in
  if number_gt secondsDiff (_dbRequired this)
  then findOneAndUpdate_upsert h key expires
  else mret tt.

Definition verifyCooldown (duration : duration_t) : completion number :=
  match duration with
  | DNumber n => Return n
  | DString duration =>
      match split " " duration with
      | [quantity; type] =>
          let quantity := StringToNumber quantity in
          let type := toLowerCase type in
          if negb (ToBoolean (get_property cooldownDurations type)) then
            Throw (UnknownDurationType type)
          else if number_le quantity (num 0) then
            Throw (InvalidQuantity quantity)
          else
            Return (number_mul quantity
                      (ToNumber (get_property cooldownDurations type)))
      | _ => Throw (InvalidDuration duration)
      end
  end.

Definition canBypass (this : Cooldowns) (userId : string) : bool :=
  _botOwnersBypass this && bool_decide (userId ∈ botOwners this).

Definition start (h : host) (this : Cooldowns) (now : Z)
    (cooldownUsage : InternalCooldownConfig) : M unit :=
  let guildId := default "" (guildId cooldownUsage) in
  if canBypass this (userId cooldownUsage) then mret tt
  else if negb (bool_decide (cooldownType cooldownUsage ∈ cooldownTypes)) then
    throw (InvalidCooldownType (cooldownType cooldownUsage))
  else
    seconds ← lift (match duration cooldownUsage with
                    | Some d => verifyCooldown d
                    | None => Throw TypeError
                    end);
    key ← lift (getKey (cooldownType cooldownUsage) (userId cooldownUsage)
                  (actionId cooldownUsage) (Some guildId));
    let expires :=
      setSeconds h (Some now) (number_add (getSeconds h (Some now)) seconds) in
    (if number_ge seconds (_dbRequired this)
     then findOneAndUpdate_upsert h key expires
     else mret tt) ;;
    cooldowns_set key expires.

(** The remaining time, as the last lines of [canRunAction] render it. *)
Definition remaining_time (now : Z) (expires : Date) : string :=
  let secondsDiff :=
    number_div (number_sub (getTime expires) (getTime (Some now))) (num 1000) in
  let d := Math_floor (number_div secondsDiff (num (3600 * 24))) in
  let h := Math_floor (number_div (number_rem secondsDiff (num (3600 * 24))) (num 3600)) in
  let m := Math_floor (number_div (number_rem secondsDiff (num 3600)) (num 60)) in
  let s := Math_floor (number_rem secondsDiff (num 60)) in
  let time := "" in
  let time :=
    if number_gt (number_of_integral d) (num 0)
    then time +:+ integral_toString d +:+ "d " else time in
  let time :=
    if number_gt (number_of_integral h) (num 0)
    then time +:+ integral_toString h +:+ "h " else time in
  let time :=
    if number_gt (number_of_integral m) (num 0)
    then time +:+ integral_toString m +:+ "m " else time in
  time +:+ integral_toString s +:+ "s".

Definition canRunAction (this : Cooldowns) (now : Z)
    (cooldownUsage : InternalCooldownConfig) : M outcome :=
  let guildId := default "" (guildId cooldownUsage) in
  let errorMessage := default (_errorMessage this) (errorMessage cooldownUsage) in
  if canBypass this (userId cooldownUsage) then mret Allowed
  else
    key ← lift (getKey (cooldownType cooldownUsage) (userId cooldownUsage)
                  (actionId cooldownUsage) (Some guildId));
    expires ← cooldowns_get key;
    match expires with
    | None => mret Allowed
    | Some expires =>
        if Date_gt (Some now) expires then
          cooldowns_delete key ;;
          mret Allowed
        else
          mret (Denied (replace "{TIME}" (remaining_time now expires) errorMessage))
    end.

(** ** The caller: [runCommand] of the class [CommandHandler] *)

(** The object [cooldowns] of a command: a duration under the name of a
    type, and the message of a refusal; each may be absent. *)
Record CooldownUsage : Type := {
  cu_perUser : option duration_t;
  cu_perUserPerGuild : option duration_t;
  cu_perGuild : option duration_t;
  cu_global : option duration_t;
  cu_errorMessage : option string
}.

(** [cooldowns[type]] *)
Definition CooldownUsage_get (cooldowns : CooldownUsage) (type : string)
    : option duration_t :=
  if String.eqb type "perUser" then cu_perUser cooldowns
  else if String.eqb type "perUserPerGuild" then cu_perUserPerGuild cooldowns
  else if String.eqb type "perGuild" then cu_perGuild cooldowns
  else if String.eqb type "global" then cu_global cooldowns
  else None.

(** ToBoolean on a duration that may be absent: [undefined], [0], [NaN]
    and the empty string are falsy. *)
Definition duration_truthy (d : option duration_t) : bool :=
  match d with
  | None => false
  | Some (DNumber n) => number_truthy n
  | Some (DString s) => negb (String.eqb s EmptyString)
  end.

(** The loop over [cooldownTypes] that stops at the first type with a
    truthy duration; [cooldownType] is the value of the variable when
    the loop is entered. *)
Fixpoint first_cooldownType (cooldowns : CooldownUsage) (types : list string)
    (cooldownType : string) : string :=
  match types with
  | [] => cooldownType
  | type :: types' =>
      if duration_truthy (CooldownUsage_get cooldowns type) then type
      else first_cooldownType cooldowns types' cooldownType
  end.

(** How a call of [runCommand] ends. *)
Inductive run_result (A : Type) : Type :=
| Skipped
| Refused (message : string)
| Called (a : A)
| Raised (e : error)
| UnknownCooldownType (cooldownType : string).
Arguments Skipped {A}.
Arguments Refused {A} message.
Arguments Called {A} a.
Arguments Raised {A} e.
Arguments UnknownCooldownType {A} cooldownType.

Definition run_callback {A} (m : M A) : state -> run_result A * state :=
  fun st =>
    match m st with
    | (Return a, st') => (Called a, st')
    | (Throw e, st') => (Raised e, st')
    end.

(** [runCommand].  What the method does before its cooldown block (the
    test of a legacy message on a slash command and the loop of the
    runtime validations, which live in other files) is the boolean
    [passed]: when it is false the method returns at once.  The callback
    of the command is a parameter; it receives the request that the
    hooks [cancelCooldown] and [updateCooldown] of its usage are bound
    to, if any.  [now_check] and [now_start] are the clock when
    [canRunAction] and [start] read it.  The instance has its object
    [Cooldowns], here [this] (the source reaches it through an optional
    chain). *)
Definition runCommand {A} (h : host) (this : Cooldowns) (passed : bool)
    (commandName : string) (cooldowns : option CooldownUsage)
    (user_id : string) (guild_id : option string) (now_check now_start : Z)
    (callback : option InternalCooldownConfig -> M A)
    : state -> run_result A * state :=
  fun st =>
    if negb passed then (Skipped, st)
    else
      match cooldowns with
      | None => run_callback (callback None) st
      | Some cooldowns =>
          let cooldownType := first_cooldownType cooldowns cooldownTypes "" in
          if String.eqb cooldownType "" then
            (UnknownCooldownType cooldownType, st)
          else
            let cooldownUsage :=
              {| cooldownType := cooldownType;
                 userId := user_id;
                 actionId := "command_" +:+ commandName;
                 guildId := guild_id;
                 duration := CooldownUsage_get cooldowns cooldownType;
                 errorMessage := cu_errorMessage cooldowns |} in
            match canRunAction this now_check cooldownUsage st with
            | (Throw e, st') => (Raised e, st')
            | (Return (Denied result), st') => (Refused result, st')
            | (Return Allowed, st') =>
                match start h this now_start cooldownUsage st' with
                | (Throw e, st'') => (Raised e, st'')
                | (Return _, st'') =>
                    run_callback (callback (Some cooldownUsage)) st''
                end
            end
      end.

(** ** Definitions for the statements *)

(** The remaining time as the statements word it: the whole seconds of
    [ms] milliseconds are decomposed by floor division into days, hours,
    minutes and seconds; a unit of days, hours or minutes is written
    only when it is not zero, the seconds always. *)
Definition render_remaining (ms : Z) : string :=
  let seconds := ms / 1000 in
  let d := seconds / 86400 in
  let h := (seconds mod 86400) / 3600 in
  let m := (seconds mod 3600) / 60 in
  let s := seconds mod 60 in
  (if 0 <? d then pretty d +:+ "d " else "")
  +:+ (if 0 <? h then pretty h +:+ "h " else "")
  +:+ (if 0 <? m then pretty m +:+ "m " else "")
  +:+ pretty s +:+ "s".

(** Whether a string holds the character [c]. *)
Fixpoint has_char (c : ascii) (s : string) : bool :=
  match s with
  | EmptyString => false
  | String x s' => Ascii.eqb x c || has_char c s'
  end.

(** The number of occurrences of the character [c] in a string. *)
Fixpoint count_char (c : ascii) (s : string) : nat :=
  match s with
  | EmptyString => 0%nat
  | String x s' => ((if Ascii.eqb x c then 1 else 0) + count_char c s')%nat
  end.

(** The request that [runCommand] builds for a command named
    [commandName] with the object [cooldowns]. *)
Definition usage_of (commandName : string) (cooldowns : CooldownUsage)
    (user_id : string) (guild_id : option string) : InternalCooldownConfig :=
  {| cooldownType := first_cooldownType cooldowns cooldownTypes "";
     userId := user_id;
     actionId := "command_" +:+ commandName;
     guildId := guild_id;
     duration :=
       CooldownUsage_get cooldowns (first_cooldownType cooldowns cooldownTypes "");
     errorMessage := cu_errorMessage cooldowns |}.

(** The object [{ perUser: d }]. *)
Definition perUser_only (d : duration_t) : CooldownUsage :=
  {| cu_perUser := Some d; cu_perUserPerGuild := None; cu_perGuild := None;
     cu_global := None; cu_errorMessage := None |}.

(** The object built with the default configuration, but for the bypass
    flag, for the bot owners [owners]. *)
Definition default_Cooldowns (owners : list string) (bypass : bool) : Cooldowns :=
  constructor owners
    {| cfg_errorMessage := None;
       cfg_botOwnersBypass := Some bypass;
       cfg_dbRequired := None |}.

(** A request without a message of its own. *)
Definition request (type user action : string) (guild : option string)
    (d : option duration_t) : InternalCooldownConfig :=
  {| cooldownType := type; userId := user; actionId := action;
     guildId := guild; duration := d; errorMessage := None |}.

(** The request of the end-to-end example of the specification, and
    the key it derives. *)
Definition ping : InternalCooldownConfig :=
  request "perUser" "u1" "command_ping" None (Some (DString "5 s")).

Definition ping_key : key := Some "u1-command_ping".

(** A state whose only window, in the cache and in the collection, is
    the one of [ping], expiring at [expires]. *)
Definition ping_window (expires : Z) : state :=
  State {[ ping_key := Some expires ]} {[ ping_key := Some expires ]}.

(** A host whose zone keeps one offset, and whose database resolves
    every operation, or none. *)
Definition fixed_zone (offset : Z) (reliable : bool) : host :=
  {| LocalTZA := fun _ _ => offset; resolves := fun _ => reliable |}.

(** Universal time and a database that answers. *)
Definition utc : host := fixed_zone 0 true.

(** Universal time and a database that is down. *)
Definition utc_store_down : host := fixed_zone 0 false.

(** The zone of New York in 2024.  On the 10th of March at 07:00:00 of
    universal time the offset goes from five hours behind to four, and
    the local clock from 02:00 to 03:00; on the 3rd of November at
    06:00:00 it goes back to five, and the local clock from 02:00 to
    01:00.  A local time of the hour that is skipped, or of the hour
    that comes twice, is read with the offset from before the change. *)
Definition spring_forward : Z := 1710054000000.
Definition fall_back : Z := 1730613600000.

Definition new_york : host :=
  {| LocalTZA := fun t isUTC =>
       if isUTC then
         if t <? spring_forward then -18000000
         else if t <? fall_back then -14400000
         else -18000000
       else
         if t <? spring_forward - 18000000 + 3600000 then -18000000
         else if t <? fall_back - 14400000 then -14400000
         else -18000000;
     resolves := fun _ => true |}.

(** The time at which a window of [n] seconds that starts at [now]
    expires: the local time of [now], [n] seconds later on the local
    clock, read back as a time value. *)
Definition expiry_of (h : host) (now n : Z) : Z :=
  UTC h (LocalTime h now + 1000 * n).

(** [seconds >= t] as the statements word it, for a threshold [t] that
    is finite: a finite value compares as a rational; of the values
    that are not finite, only the positive infinity reaches [t]. *)
Definition at_least (seconds : number) (t : Q) : Prop :=
  match seconds with
  | Finite q => (t <= q)%Q
  | Infinity negative => negative = false
  | NaN => False
  end.

(** The largest time value of a date. *)
Definition max_time : Z := 8640000000000000.

(** The least positive double. *)
Definition tiny : Q := 1 # Z.to_pos (2 ^ 1074).

(** * Properties *)

(** ** The string methods on samples *)

Example StringToNumber_samples :
  map StringToNumber ["10"; "0"; "-1.5"; ""; "abc"; "1e3"; "0x1F"; "Infinity"; ".5"; "5."; "."; "1e"; "12px"]
  = [num 10; num 0; Finite (-3 # 2); num 0; NaN; num 1000; num 31;
     Infinity false; Finite (1 # 2); num 5; NaN; NaN; NaN].
Proof. vm_compute. reflexivity. Qed.

Example split_samples :
  map (split " ") ["10 m"; "10"; ""; " m"; "1  d"]
  = [["10"; "m"]; ["10"]; [""]; [""; "m"]; ["1"; ""; "d"]].
Proof. reflexivity. Qed.

Example replace_samples :
  map (replace "{TIME}" "5s") ["wait {TIME}."; "no token"; "{TIME} {TIME}"]
  = ["wait 5s."; "no token"; "5s {TIME}"].
Proof. reflexivity. Qed.

(** ** Running the methods *)

Lemma canBypass_spec this u :
  canBypass this u = true <-> _botOwnersBypass this = true /\ u ∈ botOwners this.
Proof.
  unfold canBypass. rewrite andb_true_iff, bool_decide_eq_true. tauto.
Qed.

(** The steps of [canRunAction] once the user is known not to bypass and
    the key is derived. *)
Lemma canRunAction_run this now r st k :
  canBypass this (userId r) = false ->
  getKey (cooldownType r) (userId r) (actionId r) (Some (default "" (guildId r)))
    = Return k ->
  canRunAction this now r st =
    match _cooldowns st !! k with
    | None => (Return Allowed, st)
    | Some expires =>
        if Date_gt (Some now) expires
        then (Return Allowed, State (delete k (_cooldowns st)) (collection st))
        else (Return
                (Denied (replace "{TIME}" (remaining_time now expires)
                           (default (_errorMessage this) (errorMessage r)))),
              st)
    end.
Proof.
  intros Hb Hk. unfold canRunAction. rewrite Hb.
  unfold mbind, M_bind, lift, cooldowns_get. rewrite Hk.
  destruct (_cooldowns st !! k) as [expires|]; [|reflexivity].
  destruct (Date_gt (Some now) expires); reflexivity.
Qed.

Lemma canRunAction_throw this now r st e :
  canBypass this (userId r) = false ->
  getKey (cooldownType r) (userId r) (actionId r) (Some (default "" (guildId r)))
    = Throw e ->
  canRunAction this now r st = (Throw e, st).
Proof.
  intros Hb Hk. unfold canRunAction. rewrite Hb.
  unfold mbind, M_bind, lift. rewrite Hk. reflexivity.
Qed.

Lemma canRunAction_bypass this now r st :
  canBypass this (userId r) = true ->
  canRunAction this now r st = (Return Allowed, st).
Proof. intros Hb. unfold canRunAction. rewrite Hb. reflexivity. Qed.

Lemma start_bypass h this now r st :
  canBypass this (userId r) = true ->
  start h this now r st = (Return tt, st).
Proof. intros Hb. unfold start. rewrite Hb. reflexivity. Qed.

(** The steps of [start] for a user who does not bypass and a type of
    the list: the upsert comes before the cache, and a failure of the
    upsert leaves the method before it writes. *)
Lemma start_run h this now r st :
  canBypass this (userId r) = false ->
  cooldownType r ∈ cooldownTypes ->
  start h this now r st =
    match duration r with
    | None => (Throw TypeError, st)
    | Some d =>
        match verifyCooldown d with
        | Throw e => (Throw e, st)
        | Return seconds =>
            match getKey (cooldownType r) (userId r) (actionId r)
                    (Some (default "" (guildId r))) with
            | Throw e => (Throw e, st)
            | Return k =>
                let expires :=
                  setSeconds h (Some now)
                    (number_add (getSeconds h (Some now)) seconds) in
                if number_ge seconds (_dbRequired this)
                   && negb (resolves h FindOneAndUpdate)
                then (Throw StoreError, st)
                else
                  (Return tt,
                   State (<[k := expires]> (_cooldowns st))
                     (if number_ge seconds (_dbRequired this)
                      then <[k := expires]> (collection st)
                      else collection st))
            end
        end
    end.
Proof.
  intros Hb Ht. unfold start. rewrite Hb.
  rewrite (bool_decide_eq_true_2 _ Ht). cbn [negb].
  unfold mbind, M_bind, lift.
  destruct (duration r) as [d|]; [|reflexivity].
  destruct (verifyCooldown d) as [seconds|e]; [|reflexivity].
  destruct (getKey _ _ _ _) as [k|e]; [|reflexivity].
  unfold findOneAndUpdate_upsert, store.
  destruct (number_ge seconds (_dbRequired this)); [|reflexivity].
  destruct (resolves h FindOneAndUpdate); reflexivity.
Qed.

(** The steps of [cancelCooldown]: the cache comes before the deletion
    in the collection. *)
Lemma cancelCooldown_run h r st :
  cancelCooldown h r st =
    match getKeyFromCooldownUsage r with
    | Throw e => (Throw e, st)
    | Return k =>
        if resolves h DeleteOne
        then (Return tt, State (delete k (_cooldowns st)) (delete k (collection st)))
        else (Throw StoreError, State (delete k (_cooldowns st)) (collection st))
    end.
Proof.
  unfold cancelCooldown, mbind, M_bind, lift.
  destruct (getKeyFromCooldownUsage r); [|reflexivity].
  unfold deleteOne, store, cooldowns_delete.
  destruct (resolves h DeleteOne); reflexivity.
Qed.

(** The steps of [updateCooldown]: the cache comes before the upsert. *)
Lemma updateCooldown_run h this now r expires st :
  updateCooldown h this now r expires st =
    match getKeyFromCooldownUsage r with
    | Throw e => (Throw e, st)
    | Return k =>
        let beyond :=
          number_gt
            (number_div (number_sub (getTime expires) (getTime (Some now)))
               (num 1000))
            (_dbRequired this) in
        if beyond && negb (resolves h FindOneAndUpdate)
        then (Throw StoreError,
              State (<[k := expires]> (_cooldowns st)) (collection st))
        else
          (Return tt,
           State (<[k := expires]> (_cooldowns st))
             (if beyond then <[k := expires]> (collection st)
              else collection st))
    end.
Proof.
  unfold updateCooldown, mbind, M_bind, lift.
  destruct (getKeyFromCooldownUsage r) as [k|e]; [|reflexivity].
  unfold findOneAndUpdate_upsert, store, cooldowns_set. cbv zeta.
  destruct (number_gt _ _); [|reflexivity].
  destruct (resolves h FindOneAndUpdate); reflexivity.
Qed.

(** ** Rational arithmetic behind the numbers *)

Ltac Qnonzero := repeat split; intros E; unfold Qeq in E; simpl in E; lia.

Lemma Qzero_bool_inject_Z z : z <> 0 -> Qzero_bool (inject_Z z) = false.
Proof.
  intros Hz. unfold Qzero_bool.
  destruct (Qeq_bool (inject_Z z) 0) eqn:E; [|reflexivity].
  apply Qeq_bool_iff in E. unfold Qeq in E. simpl in E. lia.
Qed.

Lemma Qfloor_div_Z q x y :
  0 < y -> (q == inject_Z x / inject_Z y)%Q -> Qfloor q = x / y.
Proof.
  intros Hy Hq. rewrite (Qfloor_comp _ _ Hq).
  destruct y as [|p|p]; try lia.
  unfold Qdiv, Qinv, inject_Z, Qmult, Qfloor. simpl.
  rewrite Z.mul_1_r. reflexivity.
Qed.

Lemma Qneg_bool_false q : (0 <= q)%Q -> Qneg_bool q = false.
Proof.
  intros H. unfold Qneg_bool. apply Qle_bool_iff in H. rewrite H. reflexivity.
Qed.

Lemma Qtruncate_nonneg q : (0 <= q)%Q -> Qtruncate q = Qfloor q.
Proof. intros H. unfold Qtruncate. rewrite Qneg_bool_false; auto. Qed.

Lemma Qtruncate_bounds q : Qfloor q <= Qtruncate q <= Qceiling q.
Proof.
  pose proof (Qle_floor_ceiling q) as H. rewrite <- Zle_Qle in H.
  unfold Qtruncate. destruct (Qneg_bool q); lia.
Qed.

Lemma number_sub_num a b :
  exists q, number_sub (num a) (num b) = Finite q /\ (q == inject_Z (a - b))%Q.
Proof.
  eexists. split; [reflexivity|].
  rewrite Qred_correct. unfold Z.sub, Qminus.
  rewrite inject_Z_plus, inject_Z_opp. reflexivity.
Qed.

Lemma number_div_num p z :
  z <> 0 -> number_div (Finite p) (num z) = Finite (Qred (p / inject_Z z)).
Proof. intros Hz. unfold number_div, num. rewrite Qzero_bool_inject_Z; auto. Qed.

Lemma number_rem_num p z :
  z <> 0 ->
  number_rem (Finite p) (num z)
  = Finite (Qred (p - inject_Z z * inject_Z (Qtruncate (p / inject_Z z)))).
Proof. intros Hz. unfold number_rem, num. rewrite Qzero_bool_inject_Z; auto. Qed.

Lemma inject_Z_div_nonneg x y :
  0 <= x -> 0 < y -> (0 <= inject_Z x / inject_Z y)%Q.
Proof.
  intros Hx Hy. apply Qle_shift_div_l.
  - change 0%Q with (inject_Z 0). rewrite <- Zlt_Qlt. lia.
  - rewrite Qmult_0_l. change 0%Q with (inject_Z 0). rewrite <- Zle_Qle. lia.
Qed.

(** The remainder of [ms/1000] seconds by [a] seconds. *)
Lemma rem_seconds q ms a :
  0 <= ms -> 0 < a ->
  (q == inject_Z ms / inject_Z 1000)%Q ->
  exists r, number_rem (Finite q) (num a) = Finite r
            /\ (r == inject_Z (ms mod (1000 * a)) / inject_Z 1000)%Q.
Proof.
  intros Hms Ha Hq. rewrite number_rem_num by lia.
  eexists. split; [reflexivity|].
  rewrite Qred_correct.
  assert (Hqa : (q / inject_Z a == inject_Z ms / inject_Z (1000 * a))%Q).
  { rewrite Hq, inject_Z_mult. field; Qnonzero. }
  rewrite Qtruncate_nonneg.
  2:{ rewrite Hqa. apply inject_Z_div_nonneg; lia. }
  rewrite (Qfloor_div_Z _ ms (1000 * a)) by (lia || exact Hqa).
  rewrite Hq.
  rewrite (Z.mod_eq ms (1000 * a)) by lia.
  unfold Zminus. rewrite inject_Z_plus, inject_Z_opp, !inject_Z_mult.
  field; Qnonzero.
Qed.

Lemma floor_seconds_div q ms b :
  0 < b ->
  (q == inject_Z ms / inject_Z 1000)%Q ->
  Math_floor (number_div (Finite q) (num b)) = IInt (ms / (1000 * b)).
Proof.
  intros Hb Hq. rewrite number_div_num by lia. cbn [Math_floor]. f_equal.
  apply Qfloor_div_Z; [lia|].
  rewrite Qred_correct, Hq, inject_Z_mult. field; Qnonzero.
Qed.

Lemma integral_positive z :
  number_gt (number_of_integral (IInt z)) (num 0) = (0 <? z).
Proof.
  unfold number_gt, number_lt, number_of_integral, num.
  destruct (Qle_bool (inject_Z z) (inject_Z 0)) eqn:E.
  - apply Qle_bool_iff in E. rewrite <- Zle_Qle in E.
    symmetry. apply Z.ltb_ge. exact E.
  - symmetry. apply Z.ltb_lt. apply Z.nle_gt. intros H.
    rewrite Zle_Qle in H. apply Qle_bool_iff in H. congruence.
Qed.

Lemma Date_gt_valid a b : Date_gt (Some a) (Some b) = (b <? a).
Proof.
  unfold Date_gt, number_gt, number_lt, getTime, num.
  destruct (Qle_bool (inject_Z a) (inject_Z b)) eqn:E.
  - apply Qle_bool_iff in E. rewrite <- Zle_Qle in E.
    symmetry. apply Z.ltb_ge. exact E.
  - symmetry. apply Z.ltb_lt. apply Z.nle_gt. intros H.
    rewrite Zle_Qle in H. apply Qle_bool_iff in H. congruence.
Qed.

Lemma Date_gt_invalid a : Date_gt (Some a) None = false.
Proof. reflexivity. Qed.

(** ** Rounding to the nearest double *)

Lemma pow2_pos e : 0 < 2 ^ e \/ e < 0.
Proof. destruct (Z.lt_ge_cases e 0); [right; lia | left; apply Z.pow_pos_nonneg; lia]. Qed.

Lemma pow2_gt0 e : 0 <= e -> 0 < 2 ^ e.
Proof. intros. apply Z.pow_pos_nonneg; lia. Qed.

(** [2^L <= n / d] for [L = log2_floor n d]. *)
Lemma log2_floor_lower n d :
  let L := log2_floor n d in
  (0 <= L -> Zpos d * 2 ^ L <= Zpos n)
  /\ (L < 0 -> Zpos d <= Zpos n * 2 ^ (- L)).
Proof.
  unfold log2_floor.
  set (ln := Z.log2 (Zpos n)). set (ld := Z.log2 (Zpos d)).
  destruct (Z.log2_spec (Zpos n) eq_refl) as [Hn _].
  destruct (Z.log2_spec (Zpos d) eq_refl) as [_ Hd].
  fold ln in Hn. fold ld in Hd.
  assert (Hln : 0 <= ln) by apply Z.log2_nonneg.
  assert (Hld : 0 <= ld) by apply Z.log2_nonneg.
  set (l := ln - ld). assert (Hleq : l = ln - ld) by reflexivity.
  clearbody l ln ld.
  destruct (Z.leb_spec 0 l) as [Hl|Hl].
  - destruct (Z.leb_spec (Zpos d * 2 ^ l) (Zpos n)) as [Ht|Ht]; cbv zeta.
    + split; [intros _; exact Ht | lia].
    + split.
      * intros HL.
        assert (E : 2 ^ ln = 2 ^ (l - 1) * 2 ^ Z.succ ld)
          by (rewrite <- Z.pow_add_r by lia; f_equal; lia).
        pose proof (pow2_gt0 (l - 1) HL).
        assert (Zpos d * 2 ^ (l - 1) <= 2 ^ Z.succ ld * 2 ^ (l - 1))
          by (apply Z.mul_le_mono_nonneg_r; lia).
        lia.
      * intros HL. assert (l = 0) as -> by lia. cbn. 
        assert (E : 2 ^ Z.succ ld = 2 * 2 ^ ln).
        { replace ln with ld by lia. rewrite Z.pow_succ_r by lia. reflexivity. }
        lia.
  - destruct (Z.leb_spec (Zpos d) (Zpos n * 2 ^ (- l))) as [Ht|Ht]; cbv zeta.
    + split; [lia | intros _; exact Ht].
    + split; [lia|]. intros _.
      assert (E : 2 ^ Z.succ ld = 2 ^ ln * 2 ^ (- (l - 1)))
        by (rewrite <- Z.pow_add_r by lia; f_equal; lia).
      pose proof (pow2_gt0 (- (l - 1)) ltac:(lia)).
      assert (2 ^ ln * 2 ^ (- (l - 1)) <= Zpos n * 2 ^ (- (l - 1)))
        by (apply Z.mul_le_mono_nonneg_r; lia).
      lia.
Qed.

Lemma nearest_even_bounds p r k :
  (k * Zpos r <= p -> k <= nearest_even p r)
  /\ (p <= k * Zpos r -> nearest_even p r <= k).
Proof.
  unfold nearest_even.
  pose proof (Z.div_mod p (Zpos r) ltac:(lia)) as E.
  pose proof (Z.mod_pos_bound p (Zpos r) ltac:(lia)) as B.
  set (fl := p / Zpos r) in *. set (rm := p mod Zpos r) in *.
  split; intros H.
  - assert (k <= fl) by nia.
    destruct (2 * rm ?= Zpos r); [destruct (Z.even fl)|..]; lia.
  - destruct (Z.compare_spec (2 * rm) (Zpos r)) as [C|C|C].
    + assert (fl + 1 <= k) by nia. destruct (Z.even fl); lia.
    + nia.
    + assert (fl + 1 <= k) by nia. lia.
Qed.

Lemma to_pos_pow2 e : 0 <= e -> Zpos (Z.to_pos (2 ^ e)) = 2 ^ e.
Proof. intros H. apply Z2Pos.id. apply pow2_gt0, H. Qed.

(** The rounded magnitude [m * 2^e] of [n / d] against a whole number
    [z] up to [2^53]: rounding does not cross [z]. *)
Lemma round_magnitude_grid n d z :
  0 <= z <= 2 ^ 53 ->
  let '(m, e) := round_magnitude n d in
  (- 1074 <= e)
  /\ (z * Zpos d <= Zpos n ->
      if 0 <=? e then z <= m * 2 ^ e else z * 2 ^ (- e) <= m)
  /\ (Zpos n <= z * Zpos d ->
      if 0 <=? e then m * 2 ^ e <= z else m <= z * 2 ^ (- e)).
Proof.
  intros Hz. unfold round_magnitude.
  destruct (log2_floor_lower n d) as [HL0 HL1].
  set (L := log2_floor n d) in *. clearbody L.
  set (e := Z.max (L - 52) (-1074)).
  assert (He : e = Z.max (L - 52) (-1074)) by reflexivity. clearbody e.
  cbv beta iota zeta.
  split; [lia|].
  destruct (Z.leb_spec 0 e) as [He0|He0]; cbv iota.
  - assert (HeL : e = L - 52) by lia.
    pose proof (pow2_gt0 e He0) as Hp.
    assert (HdL : Zpos d * 2 ^ L = 2 ^ 52 * (Zpos d * 2 ^ e)).
    { rewrite (Z.mul_comm (2 ^ 52)), <- Z.mul_assoc, <- Z.pow_add_r by lia.
      do 2 f_equal. lia. }
    specialize (HL0 ltac:(lia)).
    set (m := nearest_even (Zpos n) (d * Z.to_pos (2 ^ e))).
    assert (Hm : forall k,
               (k * (Zpos d * 2 ^ e) <= Zpos n -> k <= m)
               /\ (Zpos n <= k * (Zpos d * 2 ^ e) -> m <= k)).
    { intros k. pose proof (nearest_even_bounds (Zpos n) (d * Z.to_pos (2 ^ e)) k) as B.
      rewrite Pos2Z.inj_mul, to_pos_pow2 in B by lia. exact B. }
    clearbody m.
    destruct (Z.eq_dec e 0) as [->|Hne].
    + change (2 ^ 0) with 1 in *. rewrite !Z.mul_1_r in *.
      split; intros H; apply (Hm z); lia.
    + assert (H52 : 2 ^ 52 <= m) by (apply (Hm (2 ^ 52)); lia).
      assert (H2e : 2 <= 2 ^ e).
      { change 2 with (2 ^ 1) at 1. apply Z.pow_le_mono_r; lia. }
      split; intros H.
      * assert (2 ^ 52 * 2 <= m * 2 ^ e) by nia. change (2 ^ 53) with (2 ^ 52 * 2) in Hz. lia.
      * (* n <= z d <= 2^53 d and d 2^L <= n force L = 53 *)
        assert (HLle : 2 ^ L <= 2 ^ 53) by nia.
        assert (L <= 53).
        { destruct (Z.le_gt_cases L 53) as [?|Hgt]; [assumption|].
          assert (2 ^ 54 <= 2 ^ L) by (apply Z.pow_le_mono_r; lia).
          change (2 ^ 54) with (2 * 2 ^ 53) in *. lia. }
        assert (e = 1) as -> by lia.
        change (2 ^ 1) with 2 in *.
        assert (m <= 2 ^ 52).
        { apply (Hm (2 ^ 52)). change (2 ^ 53) with (2 ^ 52 * 2) in Hz. nia. }
        assert (L = 53) as -> by lia.
        change (2 ^ 53) with (2 ^ 52 * 2) in *. nia.
  - pose proof (pow2_gt0 (- e) ltac:(lia)) as Hp.
    set (m := nearest_even (Zpos n * 2 ^ (- e)) d).
    pose proof (nearest_even_bounds (Zpos n * 2 ^ (- e)) d (z * 2 ^ (- e))) as [B1 B2].
    fold m in B1, B2. clearbody m.
    split; intros H; [apply B1 | apply B2]; nia.
Qed.

(** A quantity of at least [2^-1074] does not round to zero. *)
Lemma round_magnitude_positive n d :
  Zpos d <= Zpos n * 2 ^ 1074 ->
  1 <= fst (round_magnitude n d).
Proof.
  intros Hx. unfold round_magnitude. cbn [fst].
  destruct (log2_floor_lower n d) as [HL0 HL1].
  set (L := log2_floor n d) in *. clearbody L.
  set (e := Z.max (L - 52) (-1074)).
  assert (He : e = Z.max (L - 52) (-1074)) by reflexivity. clearbody e.
  destruct (Z.leb_spec 0 e) as [He0|He0]; cbv iota.
  - assert (HeL : e = L - 52) by lia.
    pose proof (pow2_gt0 e He0) as Hp.
    assert (HdL : Zpos d * 2 ^ L = 2 ^ 52 * (Zpos d * 2 ^ e)).
    { rewrite (Z.mul_comm (2 ^ 52)), <- Z.mul_assoc, <- Z.pow_add_r by lia.
      do 2 f_equal. lia. }
    specialize (HL0 ltac:(lia)).
    pose proof (nearest_even_bounds (Zpos n) (d * Z.to_pos (2 ^ e)) (2 ^ 52)) as [B _].
    rewrite Pos2Z.inj_mul, to_pos_pow2 in B by lia.
    specialize (B ltac:(lia)). 
    assert (1 <= 2 ^ 52) by (cbv; discriminate). lia.
  - pose proof (pow2_gt0 (- e) ltac:(lia)) as Hp.
    destruct (Z.eq_dec e (-1074)) as [->|Hne].
    + pose proof (nearest_even_bounds (Zpos n * 2 ^ (- -1074)) d 1) as [B _].
      apply B. change (- -1074) with 1074. lia.
    + assert (HeL : e = L - 52) by lia.
      pose proof (nearest_even_bounds (Zpos n * 2 ^ (- e)) d (2 ^ 52)) as [B _].
      assert (1 <= 2 ^ 52) by (cbv; discriminate).
      enough (2 ^ 52 * Zpos d <= Zpos n * 2 ^ (- e)) by (specialize (B ltac:(assumption)); lia).
      destruct (Z.le_gt_cases 0 L) as [HLp|HLn].
      * specialize (HL0 HLp).
        assert (E : 2 ^ 52 = 2 ^ L * 2 ^ (- e))
          by (rewrite <- Z.pow_add_r by lia; f_equal; lia).
        rewrite E. nia.
      * specialize (HL1 HLn).
        assert (E : 2 ^ (- e) = 2 ^ (- L) * 2 ^ 52)
          by (rewrite <- Z.pow_add_r by lia; f_equal; lia).
        rewrite E. pose proof (pow2_gt0 (- L) ltac:(lia)). nia.
Qed.

Lemma scale2_le_Z z m e :
  (inject_Z z <= scale2 m e)%Q
  <-> (if 0 <=? e then z <= m * 2 ^ e else z * 2 ^ (- e) <= m).
Proof.
  unfold scale2. destruct (Z.leb_spec 0 e) as [He|He].
  - rewrite <- Zle_Qle. tauto.
  - rewrite Qred_correct. unfold Qle. cbn [Qnum Qden inject_Z].
    rewrite to_pos_pow2 by lia. lia.
Qed.

Lemma scale2_ge_Z z m e :
  (scale2 m e <= inject_Z z)%Q
  <-> (if 0 <=? e then m * 2 ^ e <= z else m <= z * 2 ^ (- e)).
Proof.
  unfold scale2. destruct (Z.leb_spec 0 e) as [He|He].
  - rewrite <- Zle_Qle. tauto.
  - rewrite Qred_correct. unfold Qle. cbn [Qnum Qden inject_Z].
    rewrite to_pos_pow2 by lia. lia.
Qed.

Lemma Qred_parts x : (x == Qnum (Qred x) # Qden (Qred x))%Q.
Proof. rewrite <- (Qred_correct x) at 1. destruct (Qred x); reflexivity. Qed.

Lemma no_overflow m e z :
  (if 0 <=? e then m * 2 ^ e <= z else m <= z * 2 ^ (- e)) ->
  z <= 2 ^ 53 ->
  (0 <=? e) && (2 ^ 1024 <=? m * 2 ^ e) = false.
Proof.
  intros H Hz. destruct (Z.leb_spec 0 e); [|reflexivity].
  cbn [andb]. apply Z.leb_gt.
  assert (2 ^ 53 < 2 ^ 1024) by (apply Z.pow_lt_mono_r; lia). lia.
Qed.

(** Rounding does not cross a whole number up to [2^53] in magnitude. *)
Lemma round64_grid z x :
  Z.abs z <= 2 ^ 53 ->
  ((inject_Z z <= x)%Q -> number_le (num z) (round64 x) = true)
  /\ ((x <= inject_Z z)%Q -> number_le (round64 x) (num z) = true).
Proof.
  intros Hz. unfold round64. cbv zeta.
  pose proof (Qred_parts x) as Hx.
  destruct (Qred x) as [N D]. cbn [Qnum Qden] in *.
  assert (Hle : (inject_Z z <= x)%Q <-> z * Zpos D <= N).
  { rewrite Hx. unfold Qle. cbn [Qnum Qden inject_Z]. lia. }
  assert (Hge : (x <= inject_Z z)%Q <-> N <= z * Zpos D).
  { rewrite Hx. unfold Qle. cbn [Qnum Qden inject_Z]. lia. }
  rewrite Hle, Hge. clear Hle Hge Hx x.
  destruct N as [|n|n].
  - split; intros H; unfold number_le, num; apply Qle_bool_iff;
      change 0%Q with (inject_Z 0); rewrite <- Zle_Qle; nia.
  - pose proof (round_magnitude_grid n D (Z.max z 0) ltac:(lia)) as G.
    destruct (round_magnitude n D) as [m e]. destruct G as (He & G1 & G2).
    split; intros H.
    + specialize (G1 ltac:(nia)).
      destruct ((0 <=? e) && (2 ^ 1024 <=? m * 2 ^ e)); [reflexivity|].
      unfold number_le, num. apply Qle_bool_iff, scale2_le_Z.
      destruct (0 <=? e); [lia|].
      pose proof (pow2_gt0 (- e)). nia.
    + assert (0 <= z) by nia.
      specialize (G2 ltac:(nia)). rewrite Z.max_l in G2 by lia.
      rewrite (no_overflow m e z G2) by lia.
      unfold number_le, num. apply Qle_bool_iff, scale2_ge_Z. exact G2.
  - pose proof (round_magnitude_grid n D (Z.max (- z) 0) ltac:(lia)) as G.
    destruct (round_magnitude n D) as [m e]. destruct G as (He & G1 & G2).
    split; intros H.
    + assert (z <= 0) by nia.
      specialize (G2 ltac:(nia)). rewrite Z.max_l in G2 by lia.
      rewrite (no_overflow m e (- z) G2) by lia.
      unfold number_le, num. apply Qle_bool_iff, scale2_le_Z.
      destruct (0 <=? e); [lia|]. pose proof (pow2_gt0 (- e)). nia.
    + specialize (G1 ltac:(nia)).
      destruct ((0 <=? e) && (2 ^ 1024 <=? m * 2 ^ e)); [reflexivity|].
      unfold number_le, num. apply Qle_bool_iff, scale2_ge_Z.
      destruct (0 <=? e) eqn:E; [lia|].
      pose proof (pow2_gt0 (- e)). nia.
Qed.

Lemma Qred_inject_Z z : Qred (inject_Z z) = inject_Z z.
Proof. apply Qred_identity. cbn. apply Z.gcd_1_r. Qed.

Lemma scale2_canonical m e : Qred (scale2 m e) = scale2 m e.
Proof.
  unfold scale2. destruct (0 <=? e); [apply Qred_inject_Z | apply Qred_involutive].
Qed.

(** The finite results of [round64] are in reduced form. *)
Lemma round64_canonical x q : round64 x = Finite q -> Qred q = q.
Proof.
  unfold round64. cbv zeta. destruct (Qnum (Qred x)) as [|n|n].
  - intros [= <-]. reflexivity.
  - destruct (round_magnitude n _) as [m e].
    destruct (_ && _); [discriminate|]. intros [= <-]. apply scale2_canonical.
  - destruct (round_magnitude n _) as [m e].
    destruct (_ && _); [discriminate|]. intros [= <-]. apply scale2_canonical.
Qed.

(** Whole numbers up to [2^53] are doubles. *)
Lemma round64_integer x z :
  Z.abs z <= 2 ^ 53 -> (x == inject_Z z)%Q -> round64 x = num z.
Proof.
  intros Hz Hx. destruct (round64_grid z x Hz) as [Hlo Hhi].
  specialize (Hlo ltac:(rewrite Hx; apply Qle_refl)).
  specialize (Hhi ltac:(rewrite Hx; apply Qle_refl)).
  destruct (round64 x) as [|s|q] eqn:E; try discriminate.
  - destruct s; discriminate.
  - unfold number_le, num in Hlo, Hhi.
    apply Qle_bool_iff in Hlo, Hhi.
    assert (Hq : (q == inject_Z z)%Q) by (apply Qle_antisym; assumption).
    unfold num. f_equal.
    rewrite <- (round64_canonical x q E), <- (Qred_inject_Z z).
    apply Qred_complete, Hq.
Qed.

(** The least positive double, [2^-1074]. *)
Lemma scale2_tiny m e : 1 <= m -> - 1074 <= e -> (tiny <= scale2 m e)%Q.
Proof.
  intros Hm He. unfold scale2, tiny. destruct (Z.leb_spec 0 e) as [H|H].
  - unfold Qle. cbn [Qnum Qden inject_Z]. rewrite to_pos_pow2 by lia.
    pose proof (pow2_gt0 e H). pose proof (pow2_gt0 1074 ltac:(lia)). nia.
  - rewrite Qred_correct. unfold Qle. cbn [Qnum Qden].
    rewrite !to_pos_pow2 by lia.
    assert (2 ^ (- e) <= 2 ^ 1074) by (apply Z.pow_le_mono_r; lia).
    pose proof (pow2_gt0 (- e) ltac:(lia)). nia.
Qed.

(** A positive double is at least [tiny]; a quantity of at least [tiny]
    rounds to a positive double or to [Infinity]. *)
Lemma round64_positive x :
  (forall q, round64 x = Finite q -> (0 < q)%Q -> (tiny <= q)%Q)
  /\ ((tiny <= x)%Q ->
      round64 x = Infinity false
      \/ exists q, round64 x = Finite q /\ (tiny <= q)%Q).
Proof.
  unfold round64. cbv zeta.
  pose proof (Qred_parts x) as Hx.
  destruct (Qred x) as [N D]. cbn [Qnum Qden] in *.
  destruct N as [|n|n].
  - split.
    + intros q [= <-] H. exfalso. exact (Qlt_irrefl _ H).
    + intros H. exfalso. rewrite Hx in H. unfold tiny, Qle in H.
      cbn [Qnum Qden] in H. lia.
  - pose proof (round_magnitude_grid n D 0 ltac:(lia)) as G.
    pose proof (round_magnitude_positive n D) as P.
    destruct (round_magnitude n D) as [m e]. destruct G as (He & G1 & _).
    cbn [fst] in P. split.
    + destruct (_ && _); [discriminate|]. intros q [= <-] Hq.
      apply scale2_tiny; [|exact He].
      enough (0 < m) by lia.
      destruct (Z.lt_ge_cases 0 m) as [?|Hm]; [assumption|]. exfalso.
      apply (Qlt_not_le _ _ Hq). change 0%Q with (inject_Z 0).
      apply scale2_ge_Z. destruct (Z.leb_spec 0 e); [|lia].
      pose proof (pow2_gt0 e). nia.
    + intros H.
      assert (1 <= m).
      { apply P. rewrite Hx in H. unfold tiny, Qle in H.
        cbn [Qnum Qden] in H. rewrite to_pos_pow2 in H by lia. lia. }
      destruct (_ && _); [left; reflexivity|].
      right. eexists. split; [reflexivity|]. apply scale2_tiny; assumption.
  - pose proof (round_magnitude_grid n D 0 ltac:(lia)) as G.
    destruct (round_magnitude n D) as [m e]. destruct G as (He & G1 & _).
    specialize (G1 ltac:(lia)). split.
    + destruct (_ && _); [discriminate|]. intros q [= <-] Hq. exfalso.
      apply (Qlt_not_le _ _ Hq). change 0%Q with (inject_Z 0).
      apply scale2_ge_Z. destruct (Z.leb_spec 0 e); [|lia].
      pose proof (pow2_gt0 e). nia.
    + intros H. exfalso. rewrite Hx in H. unfold tiny, Qle in H.
      cbn [Qnum Qden] in H. lia.
Qed.

(** Sums and products of integers are exact up to [2^53]. *)
Lemma number_add_num a b :
  Z.abs (a + b) <= 2 ^ 53 -> number_add (num a) (num b) = num (a + b).
Proof.
  intros H. cbn [number_add num]. apply round64_integer; [exact H|].
  rewrite inject_Z_plus. reflexivity.
Qed.

Lemma number_mul_num a b :
  Z.abs (a * b) <= 2 ^ 53 -> number_mul (num a) (num b) = num (a * b).
Proof.
  intros H. cbn [number_mul num]. apply round64_integer; [exact H|].
  rewrite inject_Z_mult. reflexivity.
Qed.

(** ** Strings *)

Lemma append_nil_l (a : string) : "" +:+ a = a.
Proof. reflexivity. Qed.

Lemma append_cons (x : ascii) (a b : string) :
  String x a +:+ b = String x (a +:+ b).
Proof. reflexivity. Qed.

Lemma append_assoc (a b c : string) : (a +:+ b) +:+ c = a +:+ (b +:+ c).
Proof.
  induction a as [|x a IH]; [reflexivity|].
  rewrite !append_cons. f_equal. exact IH.
Qed.

(** Two strings joined by a dash come apart in one way when the first
    holds no dash. *)
Lemma dash_split u1 u2 a1 a2 :
  has_char "-" u1 = false -> has_char "-" u2 = false ->
  u1 +:+ "-" +:+ a1 = u2 +:+ "-" +:+ a2 -> u1 = u2 /\ a1 = a2.
Proof.
  revert u2. induction u1 as [|c u1 IH]; intros [|c' u2] H1 H2 E.
  - rewrite !append_nil_l in E. now inversion E.
  - rewrite append_nil_l, !append_cons in E. inversion E; subst.
    cbn in H2. discriminate.
  - rewrite append_nil_l, !append_cons in E. inversion E; subst.
    cbn in H1. discriminate.
  - rewrite !append_cons in E. inversion E; subst.
    cbn in H1, H2. apply orb_false_elim in H1 as [_ H1].
    apply orb_false_elim in H2 as [_ H2].
    destruct (IH u2 H1 H2 H3) as [-> ->]. auto.
Qed.

(** The token is replaced where it stands when no brace precedes it. *)
Lemma replace_token pre post time :
  has_char "{" pre = false ->
  replace "{TIME}" time (pre +:+ "{TIME}" +:+ post) = pre +:+ time +:+ post.
Proof.
  induction pre as [|c pre IH]; intros H.
  - reflexivity.
  - cbn in H. apply orb_false_elim in H as [Hc H].
    rewrite !append_cons. cbn [replace strip_prefix].
    rewrite Ascii.eqb_sym, Hc. f_equal. apply IH, H.
Qed.

(** ** The rendering of the remaining time *)

Lemma remaining_time_render now e :
  now <= e -> remaining_time now (Some e) = render_remaining (e - now).
Proof.
  intros Hle. unfold remaining_time. cbn [getTime].
  destruct (number_sub_num e now) as (q0 & -> & Hq0).
  rewrite number_div_num by lia.
  set (q := Qred (q0 / inject_Z 1000)).
  assert (Hq : (q == inject_Z (e - now) / inject_Z 1000)%Q).
  { unfold q. rewrite Qred_correct, Hq0. reflexivity. }
  clearbody q. clear q0 Hq0.
  set (ms := e - now) in *. assert (Hms : 0 <= ms) by (unfold ms; lia).
  clearbody ms.
  destruct (rem_seconds q ms (3600 * 24) Hms eq_refl Hq) as (r1 & -> & Hr1).
  destruct (rem_seconds q ms 3600 Hms eq_refl Hq) as (r2 & -> & Hr2).
  destruct (rem_seconds q ms 60 Hms eq_refl Hq) as (r3 & -> & Hr3).
  rewrite (floor_seconds_div q ms (3600 * 24)) by (lia || exact Hq).
  rewrite (floor_seconds_div r1 _ 3600 eq_refl Hr1).
  rewrite (floor_seconds_div r2 _ 60 eq_refl Hr2).
  assert (Hs : Math_floor (Finite r3) = IInt (ms mod (1000 * 60) / 1000)).
  { cbn [Math_floor]. f_equal. apply Qfloor_div_Z; [lia | exact Hr3]. }
  rewrite Hs. rewrite !integral_positive. cbn [integral_toString].
  unfold render_remaining.
  replace (ms / (1000 * (3600 * 24))) with (ms / 1000 / 86400)
    by (rewrite Z.div_div by lia; reflexivity).
  replace (ms mod (1000 * (3600 * 24)) / (1000 * 3600))
    with ((ms / 1000) mod 86400 / 3600)
    by (Z.div_mod_to_equations; lia).
  replace (ms mod (1000 * 3600) / (1000 * 60))
    with ((ms / 1000) mod 3600 / 60)
    by (Z.div_mod_to_equations; lia).
  replace (ms mod (1000 * 60) / 1000) with ((ms / 1000) mod 60)
    by (Z.div_mod_to_equations; lia).
  cbv zeta.
  destruct (0 <? ms / 1000 / 86400), (0 <? (ms / 1000) mod 86400 / 3600),
    (0 <? (ms / 1000) mod 3600 / 60);
    rewrite ?append_nil_l, ?append_assoc; reflexivity.
Qed.

(** An invalid expiry renders as [NaNs]. *)
Lemma remaining_time_invalid now : remaining_time now None = "NaNs".
Proof. reflexivity. Qed.

(** ** Key derivation *)

Lemma getKey_perUser u a g :
  getKey "perUser" u a g = Return (Some (u +:+ "-" +:+ a)).
Proof. reflexivity. Qed.

Lemma getKey_global u a g : getKey "global" u a g = Return (Some a).
Proof. reflexivity. Qed.

Lemma getKey_perUserPerGuild u a g :
  getKey "perUserPerGuild" u a g =
    if falsy g then Throw (UsedOutsideOfGuild "perUserPerGuild")
    else Return (Some (u +:+ "-" +:+ template_of g +:+ "-" +:+ a)).
Proof. reflexivity. Qed.

Lemma getKey_perGuild u a g :
  getKey "perGuild" u a g =
    if falsy g then Throw (UsedOutsideOfGuild "perGuild")
    else Return (Some (template_of g +:+ "-" +:+ a)).
Proof. reflexivity. Qed.

Lemma getKey_unknown t u a g :
  t ∉ cooldownTypes -> getKey t u a g = Return None.
Proof.
  intros Ht. unfold getKey.
  rewrite !bool_decide_eq_false_2; [reflexivity|..];
    intros E; apply Ht; apply list_elem_of_lookup; eauto.
Qed.

Lemma cooldownTypes_cases t :
  t ∈ cooldownTypes ->
  t = "perUser" \/ t = "perUserPerGuild" \/ t = "perGuild" \/ t = "global".
Proof. unfold cooldownTypes. rewrite !elem_of_cons, elem_of_nil. tauto. Qed.

(** [start] and [canRunAction] default an absent guild to the empty
    string, the other two methods pass it as it is: the key is the same. *)
Lemma getKey_default_guild t u a g :
  getKey t u a (Some (default "" g)) = getKey t u a g.
Proof.
  destruct g as [g|]; [reflexivity|]. cbn [default].
  destruct (decide (t ∈ cooldownTypes)) as [Ht|Ht].
  - apply cooldownTypes_cases in Ht as [->|[->|[->| ->]]]; reflexivity.
  - rewrite !getKey_unknown by exact Ht. reflexivity.
Qed.

(** ** Expiry of a window *)

(** C1 (as amended).  For a request of a user who does not bypass, with a
    window in the cache whose expiry is strictly before the current time,
    [canRunAction] returns [true] and deletes the entry of the cache; a
    later call with the same request, at any time and whatever the
    collection still holds, returns [true] again and changes nothing.
    When the clock equals the expiry the window is still active: the
    action is refused with a remaining time of [0s]. *)
Theorem C1_expired_window_is_purged this now r st k e :
  canBypass this (userId r) = false ->
  getKeyFromCooldownUsage r = Return k ->
  _cooldowns st !! k = Some (Some e) ->
  e < now ->
  canRunAction this now r st
    = (Return Allowed, State (delete k (_cooldowns st)) (collection st))
  /\ (forall now' records,
        canRunAction this now' r (State (delete k (_cooldowns st)) records)
        = (Return Allowed, State (delete k (_cooldowns st)) records))
  /\ canRunAction this e r st
     = (Return (Denied (replace "{TIME}" "0s"
                          (default (_errorMessage this) (errorMessage r)))),
        st).
Proof.
  intros Hb Hk Hw Hlt.
  unfold getKeyFromCooldownUsage in Hk. rewrite <- getKey_default_guild in Hk.
  split; [|split].
  - rewrite (canRunAction_run _ _ _ _ k Hb Hk), Hw, Date_gt_valid.
    apply Z.ltb_lt in Hlt. rewrite Hlt. reflexivity.
  - intros now' records.
    rewrite (canRunAction_run _ _ _ _ k Hb Hk). cbn [_cooldowns].
    rewrite lookup_delete_eq. reflexivity.
  - rewrite (canRunAction_run _ _ _ _ k Hb Hk), Hw, Date_gt_valid.
    rewrite Z.ltb_irrefl, remaining_time_render, Z.sub_diag by lia.
    reflexivity.
Qed.

Lemma C1_expired_window_is_purged_witness :
  (canBypass (default_Cooldowns [] false) (userId ping) = false
   /\ getKeyFromCooldownUsage ping = Return ping_key
   /\ _cooldowns (ping_window 5000) !! ping_key = Some (Some 5000)
   /\ 5000 < 6000)
  /\ canRunAction (default_Cooldowns [] false) 6000 ping (ping_window 5000)
     = (Return Allowed,
        State (delete ping_key (_cooldowns (ping_window 5000)))
          (collection (ping_window 5000))).
Proof.
  split.
  - repeat split; reflexivity.
  - apply (proj1 (C1_expired_window_is_purged (default_Cooldowns [] false)
                    6000 ping (ping_window 5000) ping_key 5000
                    eq_refl eq_refl eq_refl eq_refl)).
Defined.

(** C1, the claim as it stands, fails when the clock equals the expiry:
    the test is [now > expires], so the action is still refused, with a
    remaining time of [0s], and the window stays in the cache. *)
Lemma C1_counterexample_at_expiry :
  canRunAction (default_Cooldowns [] false) 5000 ping (ping_window 5000)
  = (Return (Denied "Please wait 0s before doing that again."), ping_window 5000).
Proof. vm_compute. reflexivity. Qed.

(** ** The message of a refusal *)

(** C3 (as amended).  When the window found is still active and the user
    does not bypass, [canRunAction] returns the template (the one of the
    request, or else the configured one) with the first [{TIME}] replaced
    by the remaining time: days, hours, minutes and seconds by floor
    division, each of days, hours and minutes written only when it is
    not zero, the seconds always.  For a template with one token and no
    brace before it the message is the text before, the time, and the
    text after. *)
Theorem C3_refusal_renders_nonzero_units this now r st k e :
  canBypass this (userId r) = false ->
  getKeyFromCooldownUsage r = Return k ->
  _cooldowns st !! k = Some (Some e) ->
  now <= e ->
  canRunAction this now r st
    = (Return (Denied (replace "{TIME}" (render_remaining (e - now))
                         (default (_errorMessage this) (errorMessage r)))),
       st)
  /\ forall pre post,
       default (_errorMessage this) (errorMessage r) = pre +:+ "{TIME}" +:+ post ->
       has_char "{" pre = false ->
       canRunAction this now r st
       = (Return (Denied (pre +:+ render_remaining (e - now) +:+ post)), st).
Proof.
  intros Hb Hk Hw Hle.
  unfold getKeyFromCooldownUsage in Hk. rewrite <- getKey_default_guild in Hk.
  assert (Hrun : canRunAction this now r st
    = (Return (Denied (replace "{TIME}" (render_remaining (e - now))
                         (default (_errorMessage this) (errorMessage r)))),
       st)).
  { rewrite (canRunAction_run _ _ _ _ k Hb Hk), Hw, Date_gt_valid.
    assert ((e <? now) = false) as -> by (apply Z.ltb_ge; lia).
    rewrite remaining_time_render by exact Hle. reflexivity. }
  split; [exact Hrun|].
  intros pre post Ht Hpre. rewrite Hrun, Ht, replace_token by exact Hpre.
  reflexivity.
Qed.

Lemma C3_refusal_renders_nonzero_units_witness :
  (canBypass (default_Cooldowns [] false) (userId ping) = false
   /\ getKeyFromCooldownUsage ping = Return ping_key
   /\ _cooldowns (ping_window 93784000) !! ping_key = Some (Some 93784000)
   /\ 0 <= 93784000)
  /\ canRunAction (default_Cooldowns [] false) 0 ping (ping_window 93784000)
     = (Return (Denied "Please wait 1d 2h 3m 4s before doing that again."),
        ping_window 93784000).
Proof.
  split.
  - repeat split; (reflexivity || lia).
  - apply (proj1 (C3_refusal_renders_nonzero_units (default_Cooldowns [] false)
                    0 ping (ping_window 93784000) ping_key 93784000
                    eq_refl eq_refl eq_refl ltac:(lia))).
Defined.

(** C3, the claim as it stands, fails on a remaining time of one day and
    thirty seconds: the hours and the minutes are zero and are left out,
    although a unit that is not zero comes before them. *)
Lemma C3_counterexample_inner_zero_units :
  (canRunAction (default_Cooldowns [] false) 0 ping (ping_window 86430000)).1
  = Return (Denied "Please wait 1d 30s before doing that again.")
  /\ (canRunAction (default_Cooldowns [] false) 0 ping (ping_window 86430000)).1
     <> Return (Denied "Please wait 1d 0h 0m 30s before doing that again.").
Proof.
  assert (H : (canRunAction (default_Cooldowns [] false) 0 ping
                 (ping_window 86430000)).1
              = Return (Denied "Please wait 1d 30s before doing that again."))
    by (vm_compute; reflexivity).
  split; [exact H|]. rewrite H. discriminate.
Qed.

(** ** Owners who bypass *)

(** C7.  For a user who bypasses (the flag is set and the user is among
    the bot owners), [canRunAction] returns [true] whatever the cache
    holds, and [start] returns without changing the cache or the
    collection, whatever the zone and the state of the database. *)
Theorem C7_owner_bypass h this now r st :
  _botOwnersBypass this = true ->
  userId r ∈ botOwners this ->
  canRunAction this now r st = (Return Allowed, st)
  /\ start h this now r st = (Return tt, st).
Proof.
  intros Hflag Howner.
  assert (Hb : canBypass this (userId r) = true)
    by (apply canBypass_spec; auto).
  split; [apply canRunAction_bypass | apply start_bypass]; exact Hb.
Qed.

Lemma C7_owner_bypass_witness :
  (_botOwnersBypass (default_Cooldowns ["u1"] true) = true
   /\ userId ping ∈ botOwners (default_Cooldowns ["u1"] true))
  /\ canRunAction (default_Cooldowns ["u1"] true) 0 ping (ping_window 5000)
     = (Return Allowed, ping_window 5000)
  /\ start utc_store_down (default_Cooldowns ["u1"] true) 0 ping (ping_window 5000)
     = (Return tt, ping_window 5000).
Proof.
  assert (Ho : userId ping ∈ botOwners (default_Cooldowns ["u1"] true))
    by (apply list_elem_of_here).
  split; [split; [reflexivity | exact Ho]|].
  apply (C7_owner_bypass utc_store_down (default_Cooldowns ["u1"] true) 0 ping
           (ping_window 5000) eq_refl Ho).
Defined.

(** ** The collection under [canRunAction] *)

(** C8.  [canRunAction] leaves the collection as it was, whatever it
    returns or throws; on the path of lazy expiry the entry of the cache
    is deleted and the collection, with any record of that key, stays. *)
Theorem C8_canRunAction_keeps_collection this now r st :
  collection (canRunAction this now r st).2 = collection st
  /\ forall k e,
       canBypass this (userId r) = false ->
       getKeyFromCooldownUsage r = Return k ->
       _cooldowns st !! k = Some (Some e) ->
       e < now ->
       _cooldowns (canRunAction this now r st).2 = delete k (_cooldowns st)
       /\ collection (canRunAction this now r st).2 !! k = collection st !! k.
Proof.
  assert (Hall : collection (canRunAction this now r st).2 = collection st).
  { destruct (canBypass this (userId r)) eqn:Hb.
    - rewrite canRunAction_bypass by exact Hb. reflexivity.
    - destruct (getKey (cooldownType r) (userId r) (actionId r)
                  (Some (default "" (guildId r)))) as [k|e] eqn:Hk.
      + rewrite (canRunAction_run _ _ _ _ k Hb Hk).
        destruct (_cooldowns st !! k) as [expires|]; [|reflexivity].
        destruct (Date_gt (Some now) expires); reflexivity.
      + rewrite (canRunAction_throw _ _ _ _ e Hb Hk). reflexivity. }
  split; [exact Hall|].
  intros k e Hb Hk Hw Hlt. rewrite Hall. split; [|reflexivity].
  unfold getKeyFromCooldownUsage in Hk. rewrite <- getKey_default_guild in Hk.
  rewrite (canRunAction_run _ _ _ _ k Hb Hk), Hw, Date_gt_valid.
  apply Z.ltb_lt in Hlt. rewrite Hlt. reflexivity.
Qed.

Lemma C8_canRunAction_keeps_collection_witness :
  (canBypass (default_Cooldowns [] false) (userId ping) = false
   /\ getKeyFromCooldownUsage ping = Return ping_key
   /\ _cooldowns (ping_window 5000) !! ping_key = Some (Some 5000)
   /\ 5000 < 6000)
  /\ _cooldowns (canRunAction (default_Cooldowns [] false) 6000 ping
                   (ping_window 5000)).2
     = delete ping_key (_cooldowns (ping_window 5000))
  /\ collection (canRunAction (default_Cooldowns [] false) 6000 ping
                   (ping_window 5000)).2 !! ping_key
     = collection (ping_window 5000) !! ping_key.
Proof.
  split.
  - repeat split; reflexivity.
  - apply (proj2 (C8_canRunAction_keeps_collection (default_Cooldowns [] false)
                    6000 ping (ping_window 5000)) ping_key 5000);
      reflexivity.
Defined.

(** ** Keys within a scope *)

(** C2 (as amended).  The key depends on nothing but the type, the user,
    the action and the guild of the request.  Within a type, two requests
    whose user and guild ids hold no dash and that derive the same key
    agree on the fields that the type uses: user and action for
    [perUser], user, guild and action for [perUserPerGuild], guild and
    action for [perGuild], the action alone for [global]. *)
Theorem C2_key_determines_fields_in_use :
  (forall r1 r2,
     cooldownType r1 = cooldownType r2 -> userId r1 = userId r2 ->
     actionId r1 = actionId r2 -> guildId r1 = guildId r2 ->
     getKeyFromCooldownUsage r1 = getKeyFromCooldownUsage r2)
  /\ forall t u1 a1 g1 u2 a2 g2 k,
       getKey t u1 a1 g1 = Return (Some k) ->
       getKey t u2 a2 g2 = Return (Some k) ->
       has_char "-" u1 = false -> has_char "-" u2 = false ->
       has_char "-" (default "" g1) = false ->
       has_char "-" (default "" g2) = false ->
       (t = "perUser" -> u1 = u2 /\ a1 = a2)
       /\ (t = "perUserPerGuild" -> u1 = u2 /\ g1 = g2 /\ a1 = a2)
       /\ (t = "perGuild" -> g1 = g2 /\ a1 = a2)
       /\ (t = "global" -> a1 = a2).
Proof.
  split.
  - intros r1 r2 Ht Hu Ha Hg. unfold getKeyFromCooldownUsage.
    rewrite Ht, Hu, Ha, Hg. reflexivity.
  - intros t u1 a1 g1 u2 a2 g2 k H1 H2 Hu1 Hu2 Hg1 Hg2.
    split; [|split; [|split]]; intros ->.
    + rewrite getKey_perUser in H1, H2.
      eapply dash_split; eauto. congruence.
    + rewrite getKey_perUserPerGuild in H1, H2.
      destruct g1 as [g1|], g2 as [g2|]; try discriminate.
      destruct (falsy (Some g1)), (falsy (Some g2));
        cbv iota in H1, H2; try discriminate.
      cbn [template_of default from_option id] in *.
      assert (E : u1 +:+ "-" +:+ g1 +:+ "-" +:+ a1
                  = u2 +:+ "-" +:+ g2 +:+ "-" +:+ a2) by congruence.
      apply dash_split in E as [-> E]; auto.
      apply dash_split in E as [-> ->]; auto.
    + rewrite getKey_perGuild in H1, H2.
      destruct g1 as [g1|], g2 as [g2|]; try discriminate.
      destruct (falsy (Some g1)), (falsy (Some g2));
        cbv iota in H1, H2; try discriminate.
      cbn [template_of default from_option id] in *.
      assert (E : g1 +:+ "-" +:+ a1 = g2 +:+ "-" +:+ a2) by congruence.
      apply dash_split in E as [-> ->]; auto.
    + rewrite getKey_global in H1, H2. congruence.
Qed.

Lemma C2_key_determines_fields_in_use_witness :
  (getKey "perUserPerGuild" "u1" "command_ping" (Some "g1")
     = Return (Some "u1-g1-command_ping")
   /\ has_char "-" "u1" = false /\ has_char "-" (default "" (Some "g1")) = false)
  /\ ("perUserPerGuild" = "perUserPerGuild" ->
      "u1" = "u1" /\ Some "g1" = Some "g1" /\ "command_ping" = "command_ping").
Proof.
  split.
  - repeat split; reflexivity.
  - apply (proj2 C2_key_determines_fields_in_use "perUserPerGuild"
             "u1" "command_ping" (Some "g1") "u1" "command_ping" (Some "g1")
             "u1-g1-command_ping" eq_refl eq_refl eq_refl eq_refl eq_refl eq_refl).
Defined.

(** C2, the claim as it stands, fails: with dashes in the ids two
    distinct pairs of user and action give one [perUser] key, and a
    [global] key is the same for every user. *)
Lemma C2_counterexample_same_key :
  (getKey "perUser" "a-b" "c" None = getKey "perUser" "a" "b-c" None
   /\ ("a-b", "c", @None string) <> ("a", "b-c", None))
  /\ (getKey "global" "u1" "a" None = getKey "global" "u2" "a" None
      /\ ("u1", "a", @None string) <> ("u2", "a", None)).
Proof. repeat split; (reflexivity || discriminate). Qed.

(** ** Parsing of a duration *)

Lemma verifyCooldown_samples :
  map verifyCooldown
    [DString "10 m"; DString "1 d"; DString "10 M"; DNumber (num 45)]
  = [Return (num 600); Return (num 86400); Return (num 600); Return (num 45)]
  /\ map (fun d => throws (verifyCooldown (DString d)) is_MalformedDurationError)
       ["0 s"; "10 x"; "10"; "-1.5 h"; "1  d"; ""]
     = [true; true; true; true; true; true].
Proof. split; vm_compute; reflexivity. Qed.

(** The four unit letters are read from the table. *)
Lemma cooldownDurations_units :
  map (get_property cooldownDurations) ["s"; "m"; "h"; "d"]
  = [VNumber (num 1); VNumber (num 60); VNumber (num 3600); VNumber (num 86400)].
Proof. reflexivity. Qed.

(** What the table accepts as a unit: its four own keys, and the names
    it inherits. *)
Lemma unit_accepted type :
  ToBoolean (get_property cooldownDurations type) = true
  <-> type ∈ ["s"; "m"; "h"; "d"] \/ type ∈ Object_prototype.
Proof.
  unfold get_property, cooldownDurations. cbn [own_property].
  rewrite !elem_of_cons, elem_of_nil.
  destruct (String.eqb_spec "s" type) as [<-|Hs]; [cbn; tauto|].
  destruct (String.eqb_spec "m" type) as [<-|Hm]; [cbn; tauto|].
  destruct (String.eqb_spec "h" type) as [<-|Hh]; [cbn; tauto|].
  destruct (String.eqb_spec "d" type) as [<-|Hd]; [cbn; tauto|].
  case_bool_decide as Hp; cbn [ToBoolean].
  - tauto.
  - split; [discriminate|]. intros [[E|[E|[E|[E|[]]]]]|E];
      congruence.
Qed.

(** A string parses as the code reads it: two tokens around one space, a
    unit that the table accepts (in lower case) and a quantity that is
    not [<= 0] give the product; anything else throws. *)
Lemma verifyCooldown_string s :
  verifyCooldown (DString s) =
    match split " " s with
    | [quantity; type] =>
        if negb (ToBoolean (get_property cooldownDurations (toLowerCase type)))
        then Throw (UnknownDurationType (toLowerCase type))
        else if number_le (StringToNumber quantity) (num 0)
        then Throw (InvalidQuantity (StringToNumber quantity))
        else Return (number_mul (StringToNumber quantity)
                       (ToNumber (get_property cooldownDurations (toLowerCase type))))
    | _ => Throw (InvalidDuration s)
    end.
Proof. reflexivity. Qed.

Lemma verifyCooldown_throws_malformed s e :
  verifyCooldown (DString s) = Throw e -> is_MalformedDurationError e = true.
Proof.
  rewrite verifyCooldown_string.
  destruct (split " " s) as [|q [|u [|]]]; try (intros [= <-]; reflexivity).
  destruct (negb _); [intros [= <-]; reflexivity|].
  destruct (number_le _ _); [intros [= <-]; reflexivity | discriminate].
Qed.

(** C4: the unit is looked up with [cooldownDurations[type]], which also
    finds the names that every object inherits; such a name is no unit,
    and yet the parse does not fail: it returns [NaN]. *)
Theorem C4_inherited_name_passes_as_unit :
  verifyCooldown (DString "10 constructor") = Return NaN
  /\ "constructor" ∉ map fst cooldownDurations.
Proof.
  split; [vm_compute; reflexivity|].
  unfold cooldownDurations. cbn [map fst].
  rewrite !not_elem_of_cons. repeat split; try discriminate.
  apply not_elem_of_nil.
Qed.

(** ** The date that [start] stores *)

Lemma MakeDate_seconds t s :
  MakeDate (Day t) (MakeTime (HourFromTime t) (MinFromTime t) s (msFromTime t))
  = t + 1000 * (s - SecFromTime t).
Proof.
  unfold MakeDate, MakeTime, Day, HourFromTime, MinFromTime, SecFromTime,
    msFromTime, msPerDay, msPerHour, msPerMinute, msPerSecond.
  Z.div_mod_to_equations. lia.
Qed.

Lemma SecFromTime_bounds t : 0 <= SecFromTime t < 60.
Proof. unfold SecFromTime. apply Z.mod_pos_bound. lia. Qed.

Lemma Qtruncate_integer q z : (q == inject_Z z)%Q -> Qtruncate q = z.
Proof.
  intros Hq. pose proof (Qtruncate_bounds q) as [Hlo Hhi].
  rewrite (Qfloor_comp _ _ Hq), Qfloor_Z in Hlo.
  rewrite (Qceiling_comp _ _ Hq), Qceiling_Z in Hhi. lia.
Qed.

Lemma TimeClip_valid t : Z.abs t <= max_time -> TimeClip t = Some t.
Proof.
  intros H. unfold TimeClip, max_time in *.
  assert ((8640000000000000 <? Z.abs t) = false) as -> by (apply Z.ltb_ge; exact H).
  reflexivity.
Qed.

(** [setSeconds] moves the local time by the seconds that are asked
    for, less the seconds that the local clock shows. *)
Lemma setSeconds_run h now q :
  setSeconds h (Some now) (Finite q)
  = TimeClip (UTC h (LocalTime h now
                     + 1000 * (Qtruncate q - SecFromTime (LocalTime h now)))).
Proof. cbn [setSeconds]. rewrite MakeDate_seconds. reflexivity. Qed.

(** A whole number of seconds moves the local clock by that many
    seconds. *)
Lemma setSeconds_whole h now n :
  Z.abs n <= 2 ^ 52 ->
  setSeconds h (Some now) (number_add (getSeconds h (Some now)) (num n))
  = TimeClip (expiry_of h now n).
Proof.
  intros Hn. cbn [getSeconds].
  pose proof (SecFromTime_bounds (LocalTime h now)) as Hsec.
  rewrite number_add_num by lia. unfold num. rewrite setSeconds_run.
  rewrite (Qtruncate_integer _ (SecFromTime (LocalTime h now) + n))
    by reflexivity.
  unfold expiry_of. do 2 f_equal. lia.
Qed.

(** Where the zone has the same offset at both ends, the window lasts
    as long as its duration. *)
Lemma expiry_of_regular h now n :
  LocalTZA h (LocalTime h now + 1000 * n) false = LocalTZA h now true ->
  expiry_of h now n = now + 1000 * n.
Proof. unfold expiry_of, UTC, LocalTime. intros ->. lia. Qed.

Lemma setSeconds_integer h now n :
  Z.abs n <= 2 ^ 52 ->
  LocalTZA h (LocalTime h now + 1000 * n) false = LocalTZA h now true ->
  Z.abs (now + 1000 * n) <= max_time ->
  setSeconds h (Some now) (number_add (getSeconds h (Some now)) (num n))
  = Some (now + 1000 * n).
Proof.
  intros Hn Hzone Hrange.
  rewrite setSeconds_whole, expiry_of_regular by assumption.
  apply TimeClip_valid. exact Hrange.
Qed.

(** Seconds that are not finite make the date invalid. *)
Lemma setSeconds_not_finite h now seconds :
  (forall q, seconds <> Finite q) ->
  setSeconds h (Some now) (number_add (getSeconds h (Some now)) seconds) = None.
Proof.
  intros Hs. destruct seconds as [|s|q]; [reflexivity|reflexivity|].
  destruct (Hs q eq_refl).
Qed.

(** The seconds field after a shift by a quantity that is not positive:
    the rounded sum stays between the whole seconds around it. *)
Lemma truncate_shift sec q :
  (q <= 0)%Q ->
  0 <= sec <= 2 ^ 53 ->
  - 2 ^ 53 <= sec + Qfloor q ->
  exists p,
    number_add (num sec) (Finite q) = Finite p
    /\ sec + Qfloor q <= Qtruncate p <= sec.
Proof.
  intros Hq Hsec Hlow.
  assert (Hfl : Qfloor q <= 0).
  { rewrite <- (Qfloor_Z 0). apply Qfloor_resp_le. exact Hq. }
  cbn [number_add num].
  pose proof (proj1 (round64_grid (sec + Qfloor q) (inject_Z sec + q)
                       ltac:(lia))) as Hlo.
  pose proof (proj2 (round64_grid sec (inject_Z sec + q) ltac:(lia))) as Hhi.
  assert (Hx1 : (inject_Z (sec + Qfloor q) <= inject_Z sec + q)%Q).
  { rewrite inject_Z_plus. apply Qplus_le_r. apply Qfloor_le. }
  assert (Hx2 : (inject_Z sec + q <= inject_Z sec)%Q).
  { rewrite <- (Qplus_0_r (inject_Z sec)) at 2. apply Qplus_le_r. exact Hq. }
  specialize (Hlo Hx1). specialize (Hhi Hx2).
  destruct (round64 (inject_Z sec + q)) as [|s|p].
  - discriminate.
  - destruct s; discriminate.
  - exists p. split; [reflexivity|].
    cbn [number_le num] in Hlo, Hhi.
    apply Qle_bool_iff in Hlo, Hhi.
    pose proof (Qtruncate_bounds p) as [Hl Hh]. split.
    + etransitivity; [|exact Hl].
      rewrite <- (Qfloor_Z (sec + Qfloor q)). apply Qfloor_resp_le. exact Hlo.
    + etransitivity; [exact Hh|].
      rewrite <- (Qceiling_Z sec). apply Qceiling_resp_le. exact Hhi.
Qed.

(** ** The two stores *)

Lemma number_ge_finite seconds t :
  number_ge seconds (Finite t) = true <-> at_least seconds t.
Proof.
  unfold number_ge, number_le, at_least. destruct seconds as [|s|q].
  - split; [discriminate | tauto].
  - destruct s; cbn [negb]; split; congruence.
  - apply Qle_bool_iff.
Qed.

(** The seconds from [now] to a date, compared with a threshold. *)
Lemma seconds_until_beyond e now t :
  number_gt
    (number_div (number_sub (getTime (Some e)) (getTime (Some now))) (num 1000))
    (Finite t) = true
  <-> (t < inject_Z (e - now) / 1000)%Q.
Proof.
  cbn [getTime].
  destruct (number_sub_num e now) as (p & -> & Hp).
  rewrite number_div_num by lia.
  unfold number_gt, number_lt. rewrite negb_true_iff.
  assert (Hx : (Qred (p / inject_Z 1000) == inject_Z (e - now) / 1000)%Q).
  { rewrite Qred_correct, Hp. reflexivity. }
  split.
  - intros Hf. apply Qnot_le_lt. intros Hle. rewrite <- Hx in Hle.
    apply Qle_bool_iff in Hle. congruence.
  - intros Hlt. destruct (Qle_bool _ t) eqn:E; [|reflexivity].
    apply Qle_bool_iff in E. rewrite Hx in E.
    exfalso. exact (Qlt_not_le _ _ Hlt E).
Qed.

(** A threshold of [ms] whole milliseconds is exceeded by a whole
    number of milliseconds that is greater. *)
Lemma whole_milliseconds t ms x :
  (t * 1000 == inject_Z ms)%Q -> ms < x -> (t < inject_Z x / 1000)%Q.
Proof.
  intros Hms Hlt. apply Qlt_shift_div_l; [reflexivity|].
  rewrite Hms. rewrite <- Zlt_Qlt. exact Hlt.
Qed.

(** C5 (as amended).  For a request that is valid (its type is known,
    its duration parses to [seconds], its key is [k]) and whose user
    does not bypass, and a threshold [_dbRequired] that is a finite
    [t], [start] makes the upsert exactly when [seconds] is at least
    [t]: below [t] it writes the expiry under [k] in the cache, over any
    former window, and leaves the collection; from [t] on, when the
    upsert resolves, it writes the same expiry in the collection and in
    the cache, and when the upsert fails it throws the error of the
    database and has written neither.  The expiry of [n] whole seconds
    is the date [n] seconds later on the local clock, and seconds that
    are not finite give the invalid date.  [updateCooldown] writes the
    given expiry in the cache in every case, first; it makes no upsert
    when the seconds from now to the expiry are no more than [t], nor
    for the invalid date; for a threshold of [ms] whole milliseconds it
    makes the upsert when the expiry is more than [ms] milliseconds
    from now, and throws when that upsert fails.  So a window started
    below the threshold enters the collection when an update extends it
    beyond the threshold.  The threshold is 300 by default. *)
Theorem C5_collection_by_threshold h this now r st k t :
  getKeyFromCooldownUsage r = Return k ->
  _dbRequired this = Finite t ->
  (forall d seconds,
     canBypass this (userId r) = false ->
     cooldownType r ∈ cooldownTypes ->
     duration r = Some d ->
     verifyCooldown d = Return seconds ->
     exists expires,
       (forall n, seconds = num n -> Z.abs n <= 2 ^ 52 ->
                  expires = TimeClip (expiry_of h now n))
       /\ ((forall q, seconds <> Finite q) -> expires = None)
       /\ (~ at_least seconds t ->
           start h this now r st
           = (Return tt, State (<[k := expires]> (_cooldowns st)) (collection st)))
       /\ (at_least seconds t -> resolves h FindOneAndUpdate = true ->
           start h this now r st
           = (Return tt,
              State (<[k := expires]> (_cooldowns st))
                (<[k := expires]> (collection st))))
       /\ (at_least seconds t -> resolves h FindOneAndUpdate = false ->
           start h this now r st = (Throw StoreError, st)))
  /\ (forall expires,
        _cooldowns (updateCooldown h this now r expires st).2
        = <[k := expires]> (_cooldowns st)
        /\ (expires = None \/
            (exists e, expires = Some e /\ (inject_Z (e - now) / 1000 <= t)%Q) ->
            updateCooldown h this now r expires st
            = (Return tt, State (<[k := expires]> (_cooldowns st)) (collection st)))
        /\ (forall e ms,
              expires = Some e -> (t * 1000 == inject_Z ms)%Q -> ms < e - now ->
              updateCooldown h this now r expires st
              = if resolves h FindOneAndUpdate
                then (Return tt,
                      State (<[k := expires]> (_cooldowns st))
                        (<[k := expires]> (collection st)))
                else (Throw StoreError,
                      State (<[k := expires]> (_cooldowns st)) (collection st))))
  /\ (forall d seconds later e ms,
        canBypass this (userId r) = false ->
        cooldownType r ∈ cooldownTypes ->
        duration r = Some d ->
        verifyCooldown d = Return seconds ->
        ~ at_least seconds t ->
        (t * 1000 == inject_Z ms)%Q -> ms < e - later ->
        resolves h FindOneAndUpdate = true ->
        collection (start h this now r st).2 = collection st
        /\ collection
             (updateCooldown h this later r (Some e) (start h this now r st).2).2
           = <[k := Some e]> (collection st))
  /\ forall owners bypass, _dbRequired (default_Cooldowns owners bypass) = num 300.
Proof.
  intros Hk Ht.
  assert (Hk' : getKey (cooldownType r) (userId r) (actionId r)
                  (Some (default "" (guildId r))) = Return k).
  { rewrite getKey_default_guild. exact Hk. }
  assert (Hbelow : forall d seconds,
     canBypass this (userId r) = false ->
     cooldownType r ∈ cooldownTypes ->
     duration r = Some d ->
     verifyCooldown d = Return seconds ->
     ~ at_least seconds t ->
     start h this now r st
     = (Return tt,
        State (<[k := setSeconds h (Some now)
                         (number_add (getSeconds h (Some now)) seconds)]>
                 (_cooldowns st))
          (collection st))).
  { intros d seconds Hb Hty Hd Hv Hlow.
    rewrite (start_run _ _ _ _ _ Hb Hty), Hd, Hv, Hk', Ht. cbv zeta.
    destruct (number_ge seconds (Finite t)) eqn:E; [|reflexivity].
    apply number_ge_finite in E. contradiction. }
  assert (Hupdate : forall later expires st',
     updateCooldown h this later r expires st'
     = if number_gt
            (number_div (number_sub (getTime expires) (getTime (Some later)))
               (num 1000))
            (Finite t)
       then if resolves h FindOneAndUpdate
            then (Return tt,
                  State (<[k := expires]> (_cooldowns st'))
                    (<[k := expires]> (collection st')))
            else (Throw StoreError,
                  State (<[k := expires]> (_cooldowns st')) (collection st'))
       else (Return tt,
             State (<[k := expires]> (_cooldowns st')) (collection st'))).
  { intros later expires st'. rewrite updateCooldown_run, Hk, Ht. cbv zeta.
    destruct (number_gt _ _); [|reflexivity].
    destruct (resolves h FindOneAndUpdate); reflexivity. }
  split; [|split; [|split; [|reflexivity]]].
  - intros d seconds Hb Hty Hd Hv.
    exists (setSeconds h (Some now) (number_add (getSeconds h (Some now)) seconds)).
    split; [intros n -> Hn; apply setSeconds_whole; exact Hn|].
    split; [apply setSeconds_not_finite|].
    split; [apply (Hbelow d); assumption|].
    split; intros Hge Hres; apply number_ge_finite in Hge;
      rewrite (start_run _ _ _ _ _ Hb Hty), Hd, Hv, Hk', Ht; cbv zeta;
      rewrite Hge, Hres; reflexivity.
  - intros expires. rewrite Hupdate. split; [|split].
    + destruct (number_gt _ _); [|reflexivity].
      destruct (resolves h FindOneAndUpdate); reflexivity.
    + intros [-> | (e & -> & Hle)]; [reflexivity|].
      destruct (number_gt _ _) eqn:E; [|reflexivity].
      apply seconds_until_beyond in E.
      exfalso. exact (Qlt_not_le _ _ E Hle).
    + intros e ms -> Hms Hlt.
      rewrite (proj2 (seconds_until_beyond e now t))
        by (apply (whole_milliseconds t ms); assumption).
      reflexivity.
  - intros d seconds later e ms Hb Hty Hd Hv Hlow Hms Hhigh Hres.
    rewrite (Hbelow d seconds Hb Hty Hd Hv Hlow), Hupdate.
    rewrite (proj2 (seconds_until_beyond e later t))
      by (apply (whole_milliseconds t ms); assumption).
    rewrite Hres. split; reflexivity.
Qed.

(** C5 at work with the default threshold: five minutes are 300
    seconds and are stored, 299 seconds are not; an extension to 300
    seconds from now is not stored, one to 300.001 seconds is. *)
Lemma C5_collection_by_threshold_witness :
  (getKeyFromCooldownUsage ping = Return ping_key
   /\ _dbRequired (default_Cooldowns [] false) = Finite (inject_Z 300))
  /\ start utc (default_Cooldowns [] false) 0
       (request "perUser" "u1" "command_ping" None (Some (DString "5 m")))
       (State ∅ ∅)
     = (Return tt,
        State {[ ping_key := Some 300000 ]} {[ ping_key := Some 300000 ]})
  /\ start utc (default_Cooldowns [] false) 0
       (request "perUser" "u1" "command_ping" None (Some (DString "299 s")))
       (State ∅ ∅)
     = (Return tt, State {[ ping_key := Some 299000 ]} ∅)
  /\ updateCooldown utc (default_Cooldowns [] false) 0 ping (Some 300000)
       (State ∅ ∅)
     = (Return tt, State {[ ping_key := Some 300000 ]} ∅)
  /\ updateCooldown utc (default_Cooldowns [] false) 0 ping (Some 300001)
       (State ∅ ∅)
     = (Return tt,
        State {[ ping_key := Some 300001 ]} {[ ping_key := Some 300001 ]}).
Proof.
  split; [split; reflexivity|].
  pose proof (fun r Hk =>
    C5_collection_by_threshold utc (default_Cooldowns [] false) 0 r (State ∅ ∅)
      ping_key (inject_Z 300) Hk eq_refl) as H.
  split; [|split; [|split]].
  - destruct (proj1 (H (request "perUser" "u1" "command_ping" None
                          (Some (DString "5 m"))) eq_refl)
                (DString "5 m") (num 300) eq_refl
                ltac:(apply list_elem_of_here) eq_refl eq_refl)
      as (expires & Hpin & _ & _ & Hstored & _).
    rewrite Hstored; [|cbn; discriminate|reflexivity].
    rewrite (Hpin 300 eq_refl) by (cbn; lia). reflexivity.
  - destruct (proj1 (H (request "perUser" "u1" "command_ping" None
                          (Some (DString "299 s"))) eq_refl)
                (DString "299 s") (num 299) eq_refl
                ltac:(apply list_elem_of_here) eq_refl eq_refl)
      as (expires & Hpin & _ & Hbelow & _).
    rewrite Hbelow by (cbn; intros Hle; apply Hle; reflexivity).
    rewrite (Hpin 299 eq_refl) by (cbn; lia). reflexivity.
  - apply (proj1 (proj2 (proj1 (proj2 (H ping eq_refl)) (Some 300000)))).
    right. exists 300000. split; [reflexivity|]. cbn. discriminate.
  - apply (proj2 (proj2 (proj1 (proj2 (H ping eq_refl)) (Some 300001)))
             300001 300000 eq_refl); reflexivity.
Defined.

(** C5, the claim as it stands, fails where the database is down:
    [start] awaits the upsert before it writes the cache, so with a
    duration at the threshold it throws and the cache holds no window;
    [updateCooldown], which writes the cache first, has written it when
    its upsert fails. *)
Lemma C5_counterexample_store_down :
  start utc_store_down (default_Cooldowns [] false) 0
    (request "perUser" "u1" "command_ping" None (Some (DString "5 m")))
    (State ∅ ∅)
  = (Throw StoreError, State ∅ ∅)
  /\ _cooldowns
       (start utc_store_down (default_Cooldowns [] false) 0
          (request "perUser" "u1" "command_ping" None (Some (DString "5 m")))
          (State ∅ ∅)).2 !! ping_key = None
  /\ updateCooldown utc_store_down (default_Cooldowns [] false) 0 ping
       (Some 300001) (State ∅ ∅)
     = (Throw StoreError, State {[ ping_key := Some 300001 ]} ∅).
Proof. repeat split; vm_compute; reflexivity. Qed.

(** The two thresholds at their boundary: a duration of exactly 300
    seconds is stored by [start], an extension to exactly 300 seconds
    from now is not stored by [updateCooldown]. *)
Lemma threshold_boundaries :
  collection (start utc (default_Cooldowns [] false) 0
                (request "perUser" "u1" "command_ping" None (Some (DString "5 m")))
                (State ∅ ∅)).2
  = {[ ping_key := Some 300000 ]}
  /\ collection (updateCooldown utc (default_Cooldowns [] false) 0 ping
                   (Some 300000) (State ∅ ∅)).2 = ∅
  /\ collection (updateCooldown utc (default_Cooldowns [] false) 0 ping
                   (Some 300001) (State ∅ ∅)).2 = {[ ping_key := Some 300001 ]}.
Proof. repeat split; vm_compute; reflexivity. Qed.


(** ** A guild type outside of a guild *)

Lemma getKey_outside_guild t u a g :
  t = "perUserPerGuild" \/ t = "perGuild" ->
  falsy g = true ->
  getKey t u a g = Throw (UsedOutsideOfGuild t).
Proof.
  intros [-> | ->] Hg.
  - rewrite getKey_perUserPerGuild, Hg. reflexivity.
  - rewrite getKey_perGuild, Hg. reflexivity.
Qed.

(** C6 (as amended).  For a request of type [perUserPerGuild] or
    [perGuild] without a guild (absent or empty) and a user who does not
    bypass, [canRunAction], [cancelCooldown] and [updateCooldown] throw
    the error of a guild type used outside of a guild, and [start]
    throws too; none of them changes the cache or the collection.  The
    error of [start] is that same error when the duration of the request
    parses. *)
Theorem C6_guild_type_without_guild h this now r st :
  canBypass this (userId r) = false ->
  cooldownType r = "perUserPerGuild" \/ cooldownType r = "perGuild" ->
  falsy (guildId r) = true ->
  is_InvalidScopeError (UsedOutsideOfGuild (cooldownType r)) = true
  /\ canRunAction this now r st = (Throw (UsedOutsideOfGuild (cooldownType r)), st)
  /\ cancelCooldown h r st = (Throw (UsedOutsideOfGuild (cooldownType r)), st)
  /\ (forall expires,
        updateCooldown h this now r expires st
        = (Throw (UsedOutsideOfGuild (cooldownType r)), st))
  /\ (exists e, start h this now r st = (Throw e, st))
  /\ (forall d seconds,
        duration r = Some d -> verifyCooldown d = Return seconds ->
        start h this now r st = (Throw (UsedOutsideOfGuild (cooldownType r)), st)).
Proof.
  intros Hb Ht Hg.
  pose proof (getKey_outside_guild _ (userId r) (actionId r) _ Ht Hg) as Hk.
  assert (Hk' : getKey (cooldownType r) (userId r) (actionId r)
                  (Some (default "" (guildId r)))
                = Throw (UsedOutsideOfGuild (cooldownType r))).
  { rewrite getKey_default_guild. exact Hk. }
  assert (Hin : cooldownType r ∈ cooldownTypes).
  { unfold cooldownTypes. destruct Ht as [-> | ->];
      rewrite !elem_of_cons; auto. }
  split; [reflexivity|].
  split; [apply canRunAction_throw; assumption|].
  split; [rewrite cancelCooldown_run; unfold getKeyFromCooldownUsage;
          rewrite Hk; reflexivity|].
  split; [intros expires; rewrite updateCooldown_run;
          unfold getKeyFromCooldownUsage; rewrite Hk; reflexivity|].
  rewrite (start_run _ _ _ _ _ Hb Hin), Hk'. split.
  - destruct (duration r) as [d|]; [|eauto].
    destruct (verifyCooldown d); eauto.
  - intros d seconds -> ->. reflexivity.
Qed.

Lemma C6_guild_type_without_guild_witness :
  (canBypass (default_Cooldowns [] false) "u1" = false
   /\ falsy None = true)
  /\ start utc (default_Cooldowns [] false) 0
       (request "perGuild" "u1" "command_ping" None (Some (DString "5 s")))
       (ping_window 5000)
     = (Throw (UsedOutsideOfGuild "perGuild"), ping_window 5000).
Proof.
  split.
  - split; reflexivity.
  - apply (proj2 (proj2 (proj2 (proj2 (proj2
             (C6_guild_type_without_guild utc (default_Cooldowns [] false) 0
                (request "perGuild" "u1" "command_ping" None (Some (DString "5 s")))
                (ping_window 5000) eq_refl (or_intror eq_refl) eq_refl)))))
             (DString "5 s") (num 5) eq_refl eq_refl).
Defined.

(** C6, the claim as it stands, fails for [start]: the duration is
    parsed before the key is derived, so a request that has no guild and
    a malformed duration fails with the error of the duration. *)
Lemma C6_counterexample_duration_first :
  start utc (default_Cooldowns [] false) 0
    (request "perGuild" "u1" "command_ping" None (Some (DString "10")))
    (State ∅ ∅)
  = (Throw (InvalidDuration "10"), State ∅ ∅)
  /\ is_InvalidScopeError (InvalidDuration "10") = false.
Proof. split; reflexivity. Qed.

(** ** Numbers as durations *)

(** C9 (as amended).  [verifyCooldown] returns every number as it is,
    without an error.  So [start], for a request that is otherwise valid
    and a user who does not bypass, succeeds on every numeric duration,
    of either sign, and installs a window, provided that the upsert it
    makes when the duration reaches the threshold resolves.  For a
    finite duration [q <= 0], when the time [q] seconds before now is
    within the range of dates and the zone keeps the offset it has now
    over the local times of these seconds, the window expires at or
    before the current time, and no earlier than the whole seconds of
    [q] before it. *)
Theorem C9_number_is_not_validated :
  (forall d, verifyCooldown (DNumber d) = Return d)
  /\ (forall h this now r st k d,
        canBypass this (userId r) = false ->
        cooldownType r ∈ cooldownTypes ->
        getKeyFromCooldownUsage r = Return k ->
        duration r = Some (DNumber d) ->
        (number_ge d (_dbRequired this) = true ->
         resolves h FindOneAndUpdate = true) ->
        exists expires,
          (start h this now r st).1 = Return tt
          /\ _cooldowns (start h this now r st).2
             = <[k := expires]> (_cooldowns st))
  /\ forall h this now r st k q,
       canBypass this (userId r) = false ->
       cooldownType r ∈ cooldownTypes ->
       getKeyFromCooldownUsage r = Return k ->
       duration r = Some (DNumber (Finite q)) ->
       (number_ge (Finite q) (_dbRequired this) = true ->
        resolves h FindOneAndUpdate = true) ->
       (q <= 0)%Q ->
       now <= max_time ->
       - max_time <= now + 1000 * Qfloor q ->
       (forall t,
          LocalTime h now + 1000 * Qfloor q <= t <= LocalTime h now ->
          LocalTZA h t false = LocalTZA h now true) ->
       exists e,
         now + 1000 * Qfloor q <= e <= now
         /\ (start h this now r st).1 = Return tt
         /\ _cooldowns (start h this now r st).2
            = <[k := Some e]> (_cooldowns st).
Proof.
  split; [reflexivity|].
  assert (Hrun : forall h this now r st k d,
     canBypass this (userId r) = false ->
     cooldownType r ∈ cooldownTypes ->
     getKeyFromCooldownUsage r = Return k ->
     duration r = Some (DNumber d) ->
     (number_ge d (_dbRequired this) = true ->
      resolves h FindOneAndUpdate = true) ->
     (start h this now r st).1 = Return tt
     /\ _cooldowns (start h this now r st).2
        = <[k := setSeconds h (Some now)
                    (number_add (getSeconds h (Some now)) d)]> (_cooldowns st)).
  { intros h this now r st k d Hb Ht Hk Hd Hres.
    unfold getKeyFromCooldownUsage in Hk. rewrite <- getKey_default_guild in Hk.
    rewrite (start_run _ _ _ _ _ Hb Ht), Hd, Hk.
    cbn [verifyCooldown]. cbv zeta.
    destruct (number_ge d (_dbRequired this)).
    - rewrite (Hres eq_refl). split; reflexivity.
    - split; reflexivity. }
  split.
  - intros h this now r st k d Hb Ht Hk Hd Hres.
    eexists. apply (Hrun h this now r st k d); assumption.
  - intros h this now r st k q Hb Ht Hk Hd Hres Hq Hmax Hmin Hzone.
    destruct (Hrun h this now r st k (Finite q) Hb Ht Hk Hd Hres) as [H1 H2].
    rewrite H1, H2. clear H1 H2. cbn [getSeconds].
    pose proof (SecFromTime_bounds (LocalTime h now)) as Hsec.
    assert (Hfl : Qfloor q <= 0).
    { rewrite <- (Qfloor_Z 0). apply Qfloor_resp_le. exact Hq. }
    unfold max_time in *.
    destruct (truncate_shift (SecFromTime (LocalTime h now)) q Hq)
      as (p & -> & Hlo & Hhi); [lia|lia|].
    rewrite setSeconds_run.
    set (s := Qtruncate p) in *.
    set (sec := SecFromTime (LocalTime h now)) in *.
    exists (now + 1000 * (s - sec)).
    split; [lia|]. split; [reflexivity|]. do 2 f_equal.
    unfold UTC. rewrite Hzone by lia. unfold LocalTime.
    replace (now + LocalTZA h now true + 1000 * (s - sec) - LocalTZA h now true)
      with (now + 1000 * (s - sec)) by lia.
    apply TimeClip_valid. unfold max_time. lia.
Qed.

Lemma C9_number_is_not_validated_witness :
  (canBypass (default_Cooldowns [] false) "u1" = false
   /\ (-3 # 2 <= 0)%Q
   /\ 34500 <= max_time
   /\ - max_time <= 34500 + 1000 * Qfloor (-3 # 2))
  /\ exists e,
       34500 + 1000 * Qfloor (-3 # 2) <= e <= 34500
       /\ (start utc (default_Cooldowns [] false) 34500
             (request "perUser" "u1" "command_ping" None
                (Some (DNumber (Finite (-3 # 2)))))
             (State ∅ ∅)).1 = Return tt
       /\ _cooldowns
            (start utc (default_Cooldowns [] false) 34500
               (request "perUser" "u1" "command_ping" None
                  (Some (DNumber (Finite (-3 # 2)))))
               (State ∅ ∅)).2
          = <[ping_key := Some e]> ∅.
Proof.
  split.
  - repeat split; (reflexivity || discriminate).
  - apply (proj2 (proj2 C9_number_is_not_validated) utc
             (default_Cooldowns [] false) 34500
             (request "perUser" "u1" "command_ping" None
                (Some (DNumber (Finite (-3 # 2)))))
             (State ∅ ∅) ping_key (-3 # 2) eq_refl
             ltac:(apply list_elem_of_here) eq_refl eq_refl);
      (discriminate || reflexivity).
Defined.

(** C9, the claim as it stands, fails on the number [-Infinity], which
    is not positive: [start] succeeds, but the date it stores is the
    invalid date, which is not at or before any time; no later check
    finds it expired, and the refusal reads [NaNs]. *)
Lemma C9_counterexample_minus_infinity :
  number_le (Infinity true) (num 0) = true
  /\ start utc (default_Cooldowns [] false) 0
       (request "perUser" "u1" "command_ping" None
          (Some (DNumber (Infinity true))))
       (State ∅ ∅)
     = (Return tt, State {[ ping_key := None ]} ∅)
  /\ Date_gt (Some 0) None = false
  /\ canRunAction (default_Cooldowns [] false) 1000000000 ping
       (State {[ ping_key := None ]} ∅)
     = (Return (Denied "Please wait NaNs before doing that again."),
        State {[ ping_key := None ]} ∅).
Proof. repeat split; vm_compute; reflexivity. Qed.

(** X23.  The seconds are set on the local clock.  In New York, five seconds
    after the clock has gone from 02:00 to 03:00, a duration of ten
    seconds before now names a local time of the hour that was skipped;
    it is read with the offset from before the change, and the window
    expires an hour less ten seconds after now.  Ten minutes asked for
    at five minutes to the change of the autumn last an hour and ten
    minutes. *)
Lemma clock_change :
  start new_york (default_Cooldowns [] false) (spring_forward + 5000)
    (request "perUser" "u1" "command_ping" None (Some (DNumber (num (-10)))))
    (State ∅ ∅)
  = (Return tt, State {[ ping_key := Some (spring_forward + 5000 + 3590000) ]} ∅)
  /\ start new_york (default_Cooldowns [] false) (fall_back - 300000)
       (request "perUser" "u1" "command_ping" None (Some (DString "10 m")))
       (State ∅ ∅)
     = (Return tt,
        State {[ ping_key := Some (fall_back - 300000 + 4200000) ]}
          {[ ping_key := Some (fall_back - 300000 + 4200000) ]}).
Proof. split; vm_compute; reflexivity. Qed.

(** ** Keys across scopes *)

(** C10.  A [global] request for the action ["u-a"] and a [perUser]
    request of the user ["u"] for the action ["a"] derive the same key
    ["u-a"], whoever the user of the first and whatever their guilds.
    Hence, for an object without bypass, [canRunAction] answers the two
    alike in every state, [cancelCooldown] with the one deletes the
    window of the other, and a window started by the [perUser] request
    refuses the [global] one. *)
Theorem C10_scopes_share_keys h offset reliable owners u g g' now st :
  let this := default_Cooldowns owners false in
  let rG := request "global" u "u-a" g None in
  let rP := request "perUser" "u" "a" g' (Some (DString "10 s")) in
  cooldownType rG <> cooldownType rP
  /\ getKeyFromCooldownUsage rG = Return (Some "u-a")
  /\ getKeyFromCooldownUsage rP = Return (Some "u-a")
  /\ canRunAction this now rG st = canRunAction this now rP st
  /\ cancelCooldown h rG st = cancelCooldown h rP st
  /\ _cooldowns (cancelCooldown h rG st).2 !! Some "u-a" = None
  /\ (canRunAction this 0 rG
        (start (fixed_zone offset reliable) this 0 rP st).2).1
     = Return (Denied "Please wait 10s before doing that again.").
Proof.
  intros this rG rP.
  assert (Hb : forall x, canBypass this x = false) by reflexivity.
  split; [discriminate|]. split; [reflexivity|]. split; [reflexivity|].
  split.
  { rewrite (canRunAction_run this now rG st (Some "u-a") (Hb _) eq_refl).
    rewrite (canRunAction_run this now rP st (Some "u-a") (Hb _) eq_refl).
    reflexivity. }
  split; [reflexivity|].
  split.
  { rewrite cancelCooldown_run. cbn.
    destruct (resolves h DeleteOne); apply lookup_delete_eq. }
  assert (Hin : cooldownType rP ∈ cooldownTypes) by apply list_elem_of_here.
  rewrite (start_run _ this 0 rP st (Hb _) Hin).
  assert (Hv : verifyCooldown (DString "10 s") = Return (num 10))
    by (vm_compute; reflexivity).
  cbn [duration rP request]. rewrite Hv.
  change (getKey (cooldownType rP) (userId rP) (actionId rP)
            (Some (default "" (guildId rP))))
    with (Return (Some "u-a") : completion key).
  cbv zeta.
  rewrite (setSeconds_integer (fixed_zone offset reliable) 0 10)
    by (reflexivity || (cbn; lia) || (unfold max_time; cbn; lia)).
  change (number_ge (num 10) (_dbRequired this)) with false.
  cbn [andb].
  rewrite (canRunAction_run this 0 rG _ (Some "u-a") (Hb _) eq_refl).
  cbn [_cooldowns fst snd]. rewrite lookup_insert_eq.
  vm_compute. reflexivity.
Qed.

(** * Further properties of the class *)

(** ** A window in the cache *)

(** What [canRunAction] does on a window with a valid date. *)
Lemma canRunAction_window this now r st k e :
  canBypass this (userId r) = false ->
  getKeyFromCooldownUsage r = Return k ->
  _cooldowns st !! k = Some (Some e) ->
  canRunAction this now r st =
    if e <? now
    then (Return Allowed, State (delete k (_cooldowns st)) (collection st))
    else (Return
            (Denied (replace "{TIME}" (render_remaining (e - now))
                       (default (_errorMessage this) (errorMessage r)))),
          st).
Proof.
  intros Hb Hk Hw.
  unfold getKeyFromCooldownUsage in Hk. rewrite <- getKey_default_guild in Hk.
  rewrite (canRunAction_run _ _ _ _ k Hb Hk), Hw, Date_gt_valid.
  destruct (Z.ltb_spec e now); [reflexivity|].
  rewrite remaining_time_render by lia. reflexivity.
Qed.

Lemma canRunAction_no_window this now r st k :
  canBypass this (userId r) = false ->
  getKeyFromCooldownUsage r = Return k ->
  _cooldowns st !! k = None ->
  canRunAction this now r st = (Return Allowed, st).
Proof.
  intros Hb Hk Hw.
  unfold getKeyFromCooldownUsage in Hk. rewrite <- getKey_default_guild in Hk.
  rewrite (canRunAction_run _ _ _ _ k Hb Hk), Hw. reflexivity.
Qed.

(** ** A window lasts as long as its duration *)

(** What [start] does with a duration of [n] whole seconds. *)
Lemma start_whole h this now r st k d n :
  canBypass this (userId r) = false ->
  cooldownType r ∈ cooldownTypes ->
  getKeyFromCooldownUsage r = Return k ->
  duration r = Some d ->
  verifyCooldown d = Return (num n) ->
  Z.abs n <= 2 ^ 52 ->
  Z.abs (expiry_of h now n) <= max_time ->
  (number_ge (num n) (_dbRequired this) = true ->
   resolves h FindOneAndUpdate = true) ->
  start h this now r st
  = (Return tt,
     State (<[k := Some (expiry_of h now n)]> (_cooldowns st))
       (if number_ge (num n) (_dbRequired this)
        then <[k := Some (expiry_of h now n)]> (collection st)
        else collection st)).
Proof.
  intros Hb Ht Hk Hd Hv Hn Hrange Hres.
  assert (Hk' : getKey (cooldownType r) (userId r) (actionId r)
                  (Some (default "" (guildId r))) = Return k).
  { rewrite getKey_default_guild. exact Hk. }
  rewrite (start_run _ _ _ _ _ Hb Ht), Hd, Hv, Hk'. cbv zeta.
  rewrite (setSeconds_whole h now n Hn), (TimeClip_valid _ Hrange).
  destruct (number_ge (num n) (_dbRequired this)); [|reflexivity].
  rewrite (Hres eq_refl). reflexivity.
Qed.

(** X1.  After [start] with a duration that parses to [n] whole
    seconds, the window expires when the local clock has advanced by
    [n] seconds: that is [n] seconds after the start, plus what the
    offset of the zone loses between now and then; the same request is
    refused at every time up to that expiry, with the time that is left,
    and allowed (its window deleted) at every later time.  The expiry is
    within the range of dates, and the upsert, if [start] makes one,
    resolves. *)
Theorem start_window_lasts_its_duration h this now r st k d n now' :
  canBypass this (userId r) = false ->
  cooldownType r ∈ cooldownTypes ->
  getKeyFromCooldownUsage r = Return k ->
  duration r = Some d ->
  verifyCooldown d = Return (num n) ->
  Z.abs n <= 2 ^ 52 ->
  Z.abs (expiry_of h now n) <= max_time ->
  (number_ge (num n) (_dbRequired this) = true ->
   resolves h FindOneAndUpdate = true) ->
  (start h this now r st).1 = Return tt
  /\ _cooldowns (start h this now r st).2 !! k = Some (Some (expiry_of h now n))
  /\ expiry_of h now n
     = now + 1000 * n
       + (LocalTZA h now true - LocalTZA h (LocalTime h now + 1000 * n) false)
  /\ (now' <= expiry_of h now n ->
      canRunAction this now' r (start h this now r st).2
      = (Return
           (Denied (replace "{TIME}" (render_remaining (expiry_of h now n - now'))
                      (default (_errorMessage this) (errorMessage r)))),
         (start h this now r st).2))
  /\ (expiry_of h now n < now' ->
      (canRunAction this now' r (start h this now r st).2).1 = Return Allowed
      /\ _cooldowns (canRunAction this now' r (start h this now r st).2).2 !! k
         = None).
Proof.
  intros Hb Ht Hk Hd Hv Hn Hrange Hres.
  rewrite (start_whole h this now r st k d n Hb Ht Hk Hd Hv Hn Hrange Hres).
  cbn [fst snd]. set (st1 := State _ _).
  assert (Hw : _cooldowns st1 !! k = Some (Some (expiry_of h now n)))
    by apply lookup_insert_eq.
  split; [reflexivity|]. split; [exact Hw|].
  split; [unfold expiry_of, UTC, LocalTime; lia|].
  rewrite (canRunAction_window _ _ _ _ k (expiry_of h now n) Hb Hk Hw). split.
  - intros Hle.
    assert ((expiry_of h now n <? now') = false) as -> by (apply Z.ltb_ge; lia).
    reflexivity.
  - intros Hlt. apply Z.ltb_lt in Hlt. rewrite Hlt. cbn [fst snd _cooldowns].
    split; [reflexivity | apply lookup_delete_eq].
Qed.

Lemma start_window_lasts_its_duration_witness :
  (start utc (default_Cooldowns [] false) 1000 ping (State ∅ ∅)).1 = Return tt
  /\ (canRunAction (default_Cooldowns [] false) 6000 ping
        (start utc (default_Cooldowns [] false) 1000 ping (State ∅ ∅)).2).1
     = Return (Denied "Please wait 0s before doing that again.")
  /\ (canRunAction (default_Cooldowns [] false) 6001 ping
        (start utc (default_Cooldowns [] false) 1000 ping (State ∅ ∅)).2).1
     = Return Allowed
  /\ _cooldowns
       (start new_york (default_Cooldowns [] false) (fall_back - 300000)
          (request "perUser" "u1" "command_ping" None (Some (DString "10 m")))
          (State ∅ ∅)).2 !! ping_key
     = Some (Some (fall_back - 300000 + 4200000)).
Proof.
  pose proof (start_window_lasts_its_duration utc (default_Cooldowns [] false)
                1000 ping (State ∅ ∅) ping_key (DString "5 s") 5) as H.
  split; [|split; [|split]].
  - apply (H 0 eq_refl ltac:(apply list_elem_of_here) eq_refl eq_refl eq_refl
             ltac:(discriminate) ltac:(discriminate) ltac:(discriminate)).
  - destruct (H 6000 eq_refl ltac:(apply list_elem_of_here) eq_refl eq_refl
                eq_refl ltac:(discriminate) ltac:(discriminate)
                ltac:(discriminate)) as (_ & _ & _ & Hd & _).
    rewrite Hd by discriminate. reflexivity.
  - apply (H 6001 eq_refl ltac:(apply list_elem_of_here) eq_refl eq_refl eq_refl
             ltac:(discriminate) ltac:(discriminate) ltac:(discriminate)).
    reflexivity.
  - apply (start_window_lasts_its_duration new_york (default_Cooldowns [] false)
             (fall_back - 300000)
             (request "perUser" "u1" "command_ping" None (Some (DString "10 m")))
             (State ∅ ∅) ping_key (DString "10 m") 600 0 eq_refl
             ltac:(apply list_elem_of_here) eq_refl eq_refl eq_refl
             ltac:(discriminate) ltac:(discriminate) ltac:(reflexivity)).
Defined.

(** ** Cancelling and extending *)

(** X2.  [cancelCooldown] leaves no entry for the key of the request in
    the cache, and none in the collection once the deletion there has
    resolved; it leaves every other key as it was, changes nothing when
    repeated, and the request is allowed right after it. *)
Theorem cancelCooldown_clears_both_stores h this now r st k :
  getKeyFromCooldownUsage r = Return k ->
  (resolves h DeleteOne = true -> (cancelCooldown h r st).1 = Return tt)
  /\ _cooldowns (cancelCooldown h r st).2 !! k = None
  /\ (resolves h DeleteOne = true ->
      collection (cancelCooldown h r st).2 !! k = None)
  /\ (forall k', k' <> k ->
        _cooldowns (cancelCooldown h r st).2 !! k' = _cooldowns st !! k'
        /\ collection (cancelCooldown h r st).2 !! k' = collection st !! k')
  /\ cancelCooldown h r (cancelCooldown h r st).2
     = ((cancelCooldown h r st).1, (cancelCooldown h r st).2)
  /\ (canBypass this (userId r) = false ->
      canRunAction this now r (cancelCooldown h r st).2
      = (Return Allowed, (cancelCooldown h r st).2)).
Proof.
  intros Hk. rewrite !cancelCooldown_run, Hk.
  destruct (resolves h DeleteOne); cbn [fst snd _cooldowns collection].
  - split; [reflexivity|].
    split; [apply lookup_delete_eq|]. split; [intros _; apply lookup_delete_eq|].
    split; [intros k' Hne; split; apply lookup_delete_ne; congruence|].
    split.
    + rewrite !delete_delete_eq. reflexivity.
    + intros Hb. apply (canRunAction_no_window _ _ _ _ k Hb Hk).
      apply lookup_delete_eq.
  - split; [discriminate|].
    split; [apply lookup_delete_eq|]. split; [discriminate|].
    split; [intros k' Hne; split; [apply lookup_delete_ne; congruence
                                  | reflexivity]|].
    split.
    + rewrite !delete_delete_eq. reflexivity.
    + intros Hb. apply (canRunAction_no_window _ _ _ _ k Hb Hk).
      apply lookup_delete_eq.
Qed.

Lemma cancelCooldown_clears_both_stores_witness :
  getKeyFromCooldownUsage ping = Return ping_key
  /\ cancelCooldown utc ping (ping_window 5000) = (Return tt, State ∅ ∅).
Proof.
  split; [reflexivity|].
  destruct (cancelCooldown_clears_both_stores utc (default_Cooldowns [] false) 0
              ping (ping_window 5000) ping_key eq_refl) as (_ & _ & _ & _ & H & _).
  vm_compute in H. vm_compute. exact H.
Defined.

(** X3.  [updateCooldown] returns when its upsert, if it makes one,
    resolves; after it, with a valid date, the request is refused up to
    that date, with the time that is left, and allowed after it; so an
    update to a date in the past ends the window. *)
Theorem updateCooldown_moves_the_expiry h this now r st k e now' :
  canBypass this (userId r) = false ->
  getKeyFromCooldownUsage r = Return k ->
  (resolves h FindOneAndUpdate = true ->
   (updateCooldown h this now r (Some e) st).1 = Return tt)
  /\ canRunAction this now' r (updateCooldown h this now r (Some e) st).2
     = if e <? now'
       then (Return Allowed,
             State (delete k (_cooldowns st))
               (collection (updateCooldown h this now r (Some e) st).2))
       else (Return
               (Denied (replace "{TIME}" (render_remaining (e - now'))
                          (default (_errorMessage this) (errorMessage r)))),
             (updateCooldown h this now r (Some e) st).2).
Proof.
  intros Hb Hk. rewrite !updateCooldown_run, Hk. cbv zeta.
  destruct (number_gt _ _), (resolves h FindOneAndUpdate);
    cbn [andb negb fst snd];
    (split; [try reflexivity; discriminate|]);
    (rewrite (canRunAction_window _ _ _ _ k e Hb Hk)
       by (cbn [_cooldowns]; apply lookup_insert_eq));
    cbn [_cooldowns collection]; rewrite delete_insert_eq; reflexivity.
Qed.

Lemma updateCooldown_moves_the_expiry_witness :
  canRunAction (default_Cooldowns [] false) 2000 ping
    (updateCooldown utc (default_Cooldowns [] false) 0 ping (Some 1000)
       (ping_window 5000)).2
  = (Return Allowed, State ∅ {[ ping_key := Some 5000 ]}).
Proof.
  destruct (updateCooldown_moves_the_expiry utc (default_Cooldowns [] false) 0
              ping (ping_window 5000) ping_key 1000 2000 eq_refl eq_refl)
    as [_ H].
  rewrite H. vm_compute. reflexivity.
Defined.

(** ** What a throw leaves behind *)

(** X4.  When [start] or [canRunAction] throws, the cache and the
    collection are as they were before the call: [start] awaits its
    upsert before it writes the cache.  When [cancelCooldown] or
    [updateCooldown] throws, either the key could not be derived and
    nothing has changed, or the operation of the database has failed
    and the cache is already written: the entry of the key is deleted,
    or set to the new date, and the collection is as it was. *)
Theorem state_after_a_throw h this now r expires st e st' :
  (start h this now r st = (Throw e, st') -> st' = st)
  /\ (canRunAction this now r st = (Throw e, st') -> st' = st)
  /\ (cancelCooldown h r st = (Throw e, st') ->
      (getKeyFromCooldownUsage r = Throw e /\ st' = st)
      \/ exists k,
           getKeyFromCooldownUsage r = Return k
           /\ resolves h DeleteOne = false /\ e = StoreError
           /\ st' = State (delete k (_cooldowns st)) (collection st))
  /\ (updateCooldown h this now r expires st = (Throw e, st') ->
      (getKeyFromCooldownUsage r = Throw e /\ st' = st)
      \/ exists k,
           getKeyFromCooldownUsage r = Return k
           /\ resolves h FindOneAndUpdate = false /\ e = StoreError
           /\ st' = State (<[k := expires]> (_cooldowns st)) (collection st)).
Proof.
  split; [|split; [|split]].
  - destruct (canBypass this (userId r)) eqn:Hb.
    { rewrite start_bypass by exact Hb. discriminate. }
    destruct (decide (cooldownType r ∈ cooldownTypes)) as [Ht|Ht].
    + rewrite (start_run _ _ _ _ _ Hb Ht).
      destruct (duration r) as [d|]; [|congruence].
      destruct (verifyCooldown d); [|congruence].
      destruct (getKey _ _ _ _); [|congruence].
      cbv zeta. destruct (_ && _); [congruence | discriminate].
    + unfold start. rewrite Hb, (bool_decide_eq_false_2 _ Ht).
      unfold throw, lift. cbn [negb]. congruence.
  - destruct (canBypass this (userId r)) eqn:Hb.
    { rewrite canRunAction_bypass by exact Hb. discriminate. }
    destruct (getKey (cooldownType r) (userId r) (actionId r)
                (Some (default "" (guildId r)))) as [k|e0] eqn:Hk.
    + rewrite (canRunAction_run _ _ _ _ k Hb Hk).
      destruct (_cooldowns st !! k) as [x|]; [|discriminate].
      destruct (Date_gt (Some now) x); discriminate.
    + rewrite (canRunAction_throw _ _ _ _ e0 Hb Hk). congruence.
  - rewrite cancelCooldown_run.
    destruct (getKeyFromCooldownUsage r) as [k|e0].
    + destruct (resolves h DeleteOne) eqn:Hres; [discriminate|].
      intros [= <- <-]. right. exists k. auto.
    + intros [= <- <-]. left. auto.
  - rewrite updateCooldown_run.
    destruct (getKeyFromCooldownUsage r) as [k|e0].
    + cbv zeta. destruct (number_gt _ _); [|discriminate].
      destruct (resolves h FindOneAndUpdate) eqn:Hres; [discriminate|].
      intros [= <- <-]. right. exists k. auto.
    + intros [= <- <-]. left. auto.
Qed.

Lemma state_after_a_throw_witness :
  start utc_store_down (default_Cooldowns [] false) 0
    (request "perUser" "u1" "command_ping" None (Some (DString "5 m")))
    (ping_window 5000)
  = (Throw StoreError, ping_window 5000)
  /\ ping_window 5000 = ping_window 5000.
Proof.
  assert (H : start utc_store_down (default_Cooldowns [] false) 0
                (request "perUser" "u1" "command_ping" None (Some (DString "5 m")))
                (ping_window 5000)
              = (Throw StoreError, ping_window 5000))
    by (vm_compute; reflexivity).
  split; [exact H|].
  apply (proj1 (state_after_a_throw utc_store_down (default_Cooldowns [] false) 0
                  (request "perUser" "u1" "command_ping" None (Some (DString "5 m")))
                  None (ping_window 5000) StoreError (ping_window 5000)) H).
Defined.

(** X5.  [start] tests the type before it looks at the duration or the
    guild: for a user who does not bypass and a type outside the four,
    it throws the error of an invalid type and writes nothing, whatever
    the rest of the request; with a type of the four and no duration at
    all it throws a [TypeError]. *)
Theorem start_rejects_unknown_type_first h this now r st :
  canBypass this (userId r) = false ->
  (cooldownType r ∉ cooldownTypes ->
   start h this now r st = (Throw (InvalidCooldownType (cooldownType r)), st))
  /\ (cooldownType r ∈ cooldownTypes -> duration r = None ->
      start h this now r st = (Throw TypeError, st)).
Proof.
  intros Hb. split.
  - intros Ht. unfold start. rewrite Hb, (bool_decide_eq_false_2 _ Ht).
    reflexivity.
  - intros Ht Hd. rewrite (start_run _ _ _ _ _ Hb Ht), Hd. reflexivity.
Qed.

Lemma start_rejects_unknown_type_first_witness :
  canBypass (default_Cooldowns [] false) "u1" = false
  /\ start utc (default_Cooldowns [] false) 0
       (request "PerUser" "u1" "command_ping" None (Some (DString "10")))
       (State ∅ ∅)
     = (Throw (InvalidCooldownType "PerUser"), State ∅ ∅).
Proof.
  split; [reflexivity|].
  apply (proj1 (start_rejects_unknown_type_first utc (default_Cooldowns [] false) 0
                  (request "PerUser" "u1" "command_ping" None (Some (DString "10")))
                  (State ∅ ∅) eq_refl)).
  unfold cooldownTypes. cbn [cooldownType request].
  rewrite !not_elem_of_cons. repeat split; try discriminate.
  apply not_elem_of_nil.
Defined.

(** ** Only the key of the request is touched *)

(** X6.  Each of the four methods leaves the entries of every key but
    the one of the request as they were, in the cache and in the
    collection. *)
Theorem methods_touch_one_key h this now r expires st k k' :
  getKeyFromCooldownUsage r = Return k ->
  k' <> k ->
  (_cooldowns (start h this now r st).2 !! k' = _cooldowns st !! k'
   /\ collection (start h this now r st).2 !! k' = collection st !! k')
  /\ (_cooldowns (canRunAction this now r st).2 !! k' = _cooldowns st !! k'
      /\ collection (canRunAction this now r st).2 !! k' = collection st !! k')
  /\ (_cooldowns (cancelCooldown h r st).2 !! k' = _cooldowns st !! k'
      /\ collection (cancelCooldown h r st).2 !! k' = collection st !! k')
  /\ (_cooldowns (updateCooldown h this now r expires st).2 !! k'
      = _cooldowns st !! k'
      /\ collection (updateCooldown h this now r expires st).2 !! k'
         = collection st !! k').
Proof.
  intros Hk Hne.
  assert (Hk' : getKey (cooldownType r) (userId r) (actionId r)
                  (Some (default "" (guildId r))) = Return k).
  { rewrite getKey_default_guild. exact Hk. }
  assert (Hne' : k <> k') by congruence.
  split; [|split; [|split]].
  - destruct (canBypass this (userId r)) eqn:Hb.
    { rewrite start_bypass by exact Hb. split; reflexivity. }
    destruct (decide (cooldownType r ∈ cooldownTypes)) as [Ht|Ht].
    + rewrite (start_run _ _ _ _ _ Hb Ht), Hk'.
      destruct (duration r) as [d|]; [|split; reflexivity].
      destruct (verifyCooldown d) as [seconds|]; [|split; reflexivity].
      cbv zeta. destruct (_ && _); [split; reflexivity|].
      cbn [fst snd _cooldowns collection]. split.
      * apply lookup_insert_ne, Hne'.
      * destruct (number_ge _ _); [apply lookup_insert_ne, Hne' | reflexivity].
    + unfold start. rewrite Hb, (bool_decide_eq_false_2 _ Ht).
      split; reflexivity.
  - destruct (canBypass this (userId r)) eqn:Hb.
    { rewrite canRunAction_bypass by exact Hb. split; reflexivity. }
    rewrite (canRunAction_run _ _ _ _ k Hb Hk').
    destruct (_cooldowns st !! k) as [x|]; [|split; reflexivity].
    destruct (Date_gt (Some now) x); [|split; reflexivity].
    cbn [fst snd _cooldowns collection].
    split; [apply lookup_delete_ne, Hne' | reflexivity].
  - rewrite cancelCooldown_run, Hk.
    destruct (resolves h DeleteOne); cbn [fst snd _cooldowns collection].
    + split; apply lookup_delete_ne, Hne'.
    + split; [apply lookup_delete_ne, Hne' | reflexivity].
  - rewrite updateCooldown_run, Hk. cbv zeta.
    destruct (_ && _); cbn [fst snd _cooldowns collection];
      (split; [apply lookup_insert_ne, Hne'|]); [reflexivity|].
    destruct (number_gt _ _); [apply lookup_insert_ne, Hne' | reflexivity].
Qed.

Lemma methods_touch_one_key_witness :
  (getKeyFromCooldownUsage
     (request "global" "u2" "command_pong" None (Some (DString "10 m")))
   = Return (Some "command_pong")
   /\ ping_key <> Some "command_pong")
  /\ _cooldowns
       (start utc (default_Cooldowns [] false) 0
          (request "global" "u2" "command_pong" None (Some (DString "10 m")))
          (ping_window 5000)).2 !! ping_key
     = Some (Some 5000).
Proof.
  split; [split; [reflexivity | discriminate]|].
  apply (proj1 (proj1 (methods_touch_one_key utc (default_Cooldowns [] false) 0
                  (request "global" "u2" "command_pong" None (Some (DString "10 m")))
                  None (ping_window 5000) (Some "command_pong") ping_key
                  eq_refl ltac:(discriminate)))).
Defined.

(** ** The check is idempotent *)

(** X7.  A second [canRunAction] at the same time returns what the first
    returned and leaves the state as the first left it. *)
Theorem canRunAction_twice this now r st :
  canRunAction this now r (canRunAction this now r st).2
  = canRunAction this now r st.
Proof.
  destruct (canBypass this (userId r)) eqn:Hb.
  { rewrite !canRunAction_bypass by exact Hb. reflexivity. }
  destruct (getKey (cooldownType r) (userId r) (actionId r)
              (Some (default "" (guildId r)))) as [k|e] eqn:Hk.
  - rewrite !(canRunAction_run _ _ _ _ k Hb Hk).
    destruct (_cooldowns st !! k) as [x|] eqn:Hw.
    + destruct (Date_gt (Some now) x) eqn:Hgt; cbn [fst snd _cooldowns].
      * rewrite lookup_delete_eq. reflexivity.
      * rewrite Hw, Hgt. reflexivity.
    + cbn [snd]. rewrite Hw. reflexivity.
  - rewrite !(canRunAction_throw _ _ _ _ e Hb Hk). reflexivity.
Qed.

Lemma canRunAction_twice_witness :
  canRunAction (default_Cooldowns [] false) 6000 ping
    (canRunAction (default_Cooldowns [] false) 6000 ping (ping_window 5000)).2
  = (Return Allowed, State ∅ {[ ping_key := Some 5000 ]}).
Proof.
  rewrite (canRunAction_twice (default_Cooldowns [] false) 6000 ping
             (ping_window 5000)).
  vm_compute. reflexivity.
Defined.

(** ** Loading the cache when the object is built *)

Lemma cooldowns_set_all l st :
  foldl (fun (loop : M unit) result => loop ;; cooldowns_set result.1 result.2)
    (mret tt) l st
  = (Return tt,
     State (foldl (fun m (r : key * Date) => <[r.1 := r.2]> m) (_cooldowns st) l)
       (collection st)).
Proof.
  induction l as [|x l IH] using rev_ind.
  - destruct st. reflexivity.
  - rewrite !foldl_snoc. unfold mbind at 1, M_bind at 1. rewrite IH.
    reflexivity.
Qed.

Lemma foldl_insert_other (l : list (key * Date)) (c : gmap key Date) k :
  k ∉ l.*1 ->
  foldl (fun m (r : key * Date) => <[r.1 := r.2]> m) c l !! k = c !! k.
Proof.
  revert c. induction l as [|[k0 d0] l IH]; intros c Hk; [reflexivity|].
  cbn in Hk. apply not_elem_of_cons in Hk as [Hne Hk].
  cbn [foldl]. rewrite IH by exact Hk. cbn [fst snd].
  apply lookup_insert_ne. congruence.
Qed.

Lemma foldl_insert_member (l : list (key * Date)) (c : gmap key Date) k d :
  NoDup l.*1 -> (k, d) ∈ l ->
  foldl (fun m (r : key * Date) => <[r.1 := r.2]> m) c l !! k = Some d.
Proof.
  revert c. induction l as [|[k0 d0] l IH]; intros c Hnd Hin.
  - apply elem_of_nil in Hin as [].
  - cbn in Hnd. apply NoDup_cons in Hnd as [Hfresh Hnd].
    apply elem_of_cons in Hin as [[= -> ->]|Hin]; cbn [foldl fst snd].
    + rewrite foldl_insert_other by exact Hfresh. apply lookup_insert_eq.
    + apply IH; assumption.
Qed.

Lemma loadCooldowns_run h now st :
  resolves h DeleteMany = true ->
  resolves h Find = true ->
  loadCooldowns h now st
  = (Return tt,
     State
       (foldl (fun m (r : key * Date) => <[r.1 := r.2]> m) (_cooldowns st)
          (map_to_list
             (filter (fun r : key * Date => Date_gt (Some now) r.2 = false)
                (collection st))))
       (filter (fun r : key * Date => Date_gt (Some now) r.2 = false)
          (collection st))).
Proof.
  intros Hdel Hfind.
  unfold loadCooldowns, mbind, M_bind, deleteMany_expired, find_all, store.
  rewrite Hdel, Hfind. cbn [_cooldowns collection].
  rewrite cooldowns_set_all. reflexivity.
Qed.

(** When the database is down, [loadCooldowns] throws and the cache is
    as it was. *)
Lemma loadCooldowns_fails h now st :
  (resolves h DeleteMany = false ->
   loadCooldowns h now st = (Throw StoreError, st))
  /\ (resolves h DeleteMany = true -> resolves h Find = false ->
      (loadCooldowns h now st).1 = Throw StoreError
      /\ _cooldowns (loadCooldowns h now st).2 = _cooldowns st).
Proof.
  unfold loadCooldowns, mbind, M_bind, deleteMany_expired, find_all, store.
  split.
  - intros ->. reflexivity.
  - intros -> ->. split; reflexivity.
Qed.

Lemma loadCooldowns_spec h now st :
  resolves h DeleteMany = true ->
  resolves h Find = true ->
  (loadCooldowns h now st).1 = Return tt
  /\ (forall k d,
        collection (loadCooldowns h now st).2 !! k = Some d
        <-> collection st !! k = Some d /\ Date_gt (Some now) d = false)
  /\ (forall k d,
        collection (loadCooldowns h now st).2 !! k = Some d ->
        _cooldowns (loadCooldowns h now st).2 !! k = Some d)
  /\ (forall k,
        collection (loadCooldowns h now st).2 !! k = None ->
        _cooldowns (loadCooldowns h now st).2 !! k = _cooldowns st !! k).
Proof.
  intros Hdel Hfind.
  rewrite (loadCooldowns_run h now st Hdel Hfind).
  cbn [fst snd _cooldowns collection].
  split; [reflexivity|]. split; [|split].
  - intros k d. apply (map_lookup_filter_Some
      (fun r : key * Date => Date_gt (Some now) r.2 = false)).
  - intros k d Hd. apply foldl_insert_member.
    + apply NoDup_fst_map_to_list.
    + apply elem_of_map_to_list. exact Hd.
  - intros k Hk. apply foldl_insert_other.
    intros Hin. apply list_elem_of_fmap in Hin as ([k0 d] & -> & Hin).
    apply elem_of_map_to_list in Hin. cbn [fst] in Hk. congruence.
Qed.

(** X8.  When the two operations of the database resolve,
    [loadCooldowns] deletes from the collection the records that
    [now > expires] holds for and keeps the others; afterwards the cache
    holds every record of the collection with its date, and is as it was
    on the keys that the collection does not hold. *)
Theorem loadCooldowns_rehydrates h now st :
  resolves h DeleteMany = true ->
  resolves h Find = true ->
  (loadCooldowns h now st).1 = Return tt
  /\ (forall k d,
        collection (loadCooldowns h now st).2 !! k = Some d
        <-> collection st !! k = Some d /\ Date_gt (Some now) d = false)
  /\ (forall k d,
        collection (loadCooldowns h now st).2 !! k = Some d ->
        _cooldowns (loadCooldowns h now st).2 !! k = Some d)
  /\ (forall k,
        collection (loadCooldowns h now st).2 !! k = None ->
        _cooldowns (loadCooldowns h now st).2 !! k = _cooldowns st !! k).
Proof. apply loadCooldowns_spec. Qed.

Lemma loadCooldowns_rehydrates_witness :
  (loadCooldowns utc 6000 (State ∅ {[ ping_key := Some 5000 ]})).1 = Return tt
  /\ _cooldowns (loadCooldowns utc 5000 (State ∅ {[ ping_key := Some 5000 ]})).2
       !! ping_key
     = Some (Some 5000).
Proof.
  split.
  - apply (loadCooldowns_rehydrates utc 6000 (State ∅ {[ ping_key := Some 5000 ]})
             eq_refl eq_refl).
  - destruct (loadCooldowns_rehydrates utc 5000
                (State ∅ {[ ping_key := Some 5000 ]}) eq_refl eq_refl)
      as (_ & Hkeep & Hcache & _).
    apply Hcache, Hkeep. split; reflexivity.
Defined.

(** X22.  When the deletion of the expired records fails,
    [loadCooldowns] throws and changes nothing; when the deletion
    resolves and the reading fails, it throws and the cache is as it
    was. *)
Theorem loadCooldowns_with_the_database_down h now st :
  (resolves h DeleteMany = false ->
   loadCooldowns h now st = (Throw StoreError, st))
  /\ (resolves h DeleteMany = true -> resolves h Find = false ->
      (loadCooldowns h now st).1 = Throw StoreError
      /\ _cooldowns (loadCooldowns h now st).2 = _cooldowns st).
Proof. apply loadCooldowns_fails. Qed.

Lemma loadCooldowns_with_the_database_down_witness :
  loadCooldowns utc_store_down 6000 (ping_window 5000)
  = (Throw StoreError, ping_window 5000).
Proof.
  apply (proj1 (loadCooldowns_with_the_database_down utc_store_down 6000
                  (ping_window 5000)) eq_refl).
Defined.

(** X9.  Only the long windows outlive the process.  A window started
    with [n] whole seconds is in the collection exactly when
    [n >= _dbRequired] (its upsert resolving); when a new process, with
    an empty cache, loads the collection before the window expires, the
    request is refused as before if the window was stored, and allowed
    if it was not (and the collection held no older record of that
    key).  The window expires when the local clock of the first process
    has advanced by [n] seconds. *)
Theorem long_windows_outlive_the_process h h' this now r st k d n t1 t2 :
  canBypass this (userId r) = false ->
  cooldownType r ∈ cooldownTypes ->
  getKeyFromCooldownUsage r = Return k ->
  duration r = Some d ->
  verifyCooldown d = Return (num n) ->
  Z.abs n <= 2 ^ 52 ->
  Z.abs (expiry_of h now n) <= max_time ->
  (number_ge (num n) (_dbRequired this) = true ->
   resolves h FindOneAndUpdate = true) ->
  resolves h' DeleteMany = true ->
  resolves h' Find = true ->
  t1 <= expiry_of h now n ->
  t2 <= expiry_of h now n ->
  (number_ge (num n) (_dbRequired this) = true ->
   (canRunAction this t2 r
      (loadCooldowns h' t1 (State ∅ (collection (start h this now r st).2))).2).1
   = Return
       (Denied (replace "{TIME}" (render_remaining (expiry_of h now n - t2))
                  (default (_errorMessage this) (errorMessage r)))))
  /\ (number_ge (num n) (_dbRequired this) = false ->
      collection st !! k = None ->
      (canRunAction this t2 r
         (loadCooldowns h' t1 (State ∅ (collection (start h this now r st).2))).2).1
      = Return Allowed).
Proof.
  intros Hb Ht Hk Hd Hv Hn Hrange Hres Hdel Hfind Ht1 Ht2.
  rewrite (start_whole h this now r st k d n Hb Ht Hk Hd Hv Hn Hrange Hres).
  cbn [snd collection].
  set (e := expiry_of h now n) in *.
  split.
  - intros Hge. rewrite Hge.
    destruct (loadCooldowns_spec h' t1
                (State ∅ (<[k := Some e]> (collection st))) Hdel Hfind)
      as (_ & Hkeep & Hcache & _).
    assert (Hw : _cooldowns
                   (loadCooldowns h' t1
                      (State ∅ (<[k := Some e]> (collection st)))).2
                 !! k = Some (Some e)).
    { apply Hcache, Hkeep. cbn [collection]. split; [apply lookup_insert_eq|].
      rewrite Date_gt_valid. apply Z.ltb_ge. lia. }
    rewrite (canRunAction_window _ _ _ _ k _ Hb Hk Hw).
    assert ((e <? t2) = false) as -> by (apply Z.ltb_ge; lia).
    reflexivity.
  - intros Hlow Hnone. rewrite Hlow.
    destruct (loadCooldowns_spec h' t1 (State ∅ (collection st)) Hdel Hfind)
      as (_ & Hkeep & _ & Hcache).
    assert (Hgone : collection (loadCooldowns h' t1 (State ∅ (collection st))).2
                      !! k = None).
    { destruct (collection (loadCooldowns h' t1 (State ∅ (collection st))).2 !! k)
        as [x|] eqn:E; [|reflexivity].
      apply Hkeep in E as [E _]. cbn [collection] in E. congruence. }
    rewrite (canRunAction_no_window _ _ _ _ k Hb Hk); [reflexivity|].
    rewrite (Hcache k Hgone). apply lookup_empty.
Qed.

Lemma long_windows_outlive_the_process_witness :
  (canRunAction (default_Cooldowns [] false) 1000
     (request "perUser" "u1" "command_ping" None (Some (DString "5 m")))
     (loadCooldowns utc 500
        (State ∅
           (collection
              (start utc (default_Cooldowns [] false) 0
                 (request "perUser" "u1" "command_ping" None (Some (DString "5 m")))
                 (State ∅ ∅)).2))).2).1
  = Return (Denied "Please wait 4m 59s before doing that again.").
Proof.
  rewrite (proj1 (long_windows_outlive_the_process utc utc
                    (default_Cooldowns [] false) 0
                    (request "perUser" "u1" "command_ping" None
                       (Some (DString "5 m")))
                    (State ∅ ∅) ping_key (DString "5 m") 300 500 1000
                    eq_refl ltac:(apply list_elem_of_here) eq_refl eq_refl eq_refl
                    ltac:(discriminate) ltac:(discriminate) ltac:(reflexivity)
                    eq_refl eq_refl
                    ltac:(discriminate) ltac:(discriminate))
             eq_refl).
  vm_compute. reflexivity.
Defined.

(** ** The outcomes of [getKey] *)

(** X10.  [getKey] returns [undefined] exactly on the types outside the
    four, throws exactly on [perUserPerGuild] and [perGuild] without a
    guild (absent or empty), and then the error of a type used outside
    of a guild; in every other case it returns a string. *)
Theorem getKey_outcomes t u a g :
  (getKey t u a g = Return None <-> t ∉ cooldownTypes)
  /\ ((exists e, getKey t u a g = Throw e)
      <-> (t = "perUserPerGuild" \/ t = "perGuild") /\ falsy g = true)
  /\ (forall e, getKey t u a g = Throw e -> e = UsedOutsideOfGuild t).
Proof.
  assert (Hsome : forall k,
            t ∈ cooldownTypes -> getKey t u a g = Return (Some k) ->
            ~ ((t = "perUserPerGuild" \/ t = "perGuild") /\ falsy g = true) ->
            (getKey t u a g = Return None <-> t ∉ cooldownTypes)
            /\ ((exists e, getKey t u a g = Throw e)
                <-> (t = "perUserPerGuild" \/ t = "perGuild") /\ falsy g = true)
            /\ (forall e, getKey t u a g = Throw e -> e = UsedOutsideOfGuild t)).
  { intros k Hin -> Hno. split; [|split].
    - split; [discriminate | intros H; contradiction].
    - split; [intros [e H]; discriminate | intros H; contradiction].
    - discriminate. }
  assert (Hthrow :
            t ∈ cooldownTypes -> getKey t u a g = Throw (UsedOutsideOfGuild t) ->
            (t = "perUserPerGuild" \/ t = "perGuild") /\ falsy g = true ->
            (getKey t u a g = Return None <-> t ∉ cooldownTypes)
            /\ ((exists e, getKey t u a g = Throw e)
                <-> (t = "perUserPerGuild" \/ t = "perGuild") /\ falsy g = true)
            /\ (forall e, getKey t u a g = Throw e -> e = UsedOutsideOfGuild t)).
  { intros Hin -> Hyes. split; [|split].
    - split; [discriminate | intros H; contradiction].
    - split; [intros _; exact Hyes | eauto].
    - congruence. }
  destruct (decide (t ∈ cooldownTypes)) as [Ht|Ht].
  - pose proof Ht as Hin.
    apply cooldownTypes_cases in Ht as [->|[->|[->| ->]]].
    + eapply Hsome; [exact Hin | apply getKey_perUser|].
      intros [[H|H] _]; discriminate.
    + destruct (falsy g) eqn:Hg.
      * apply Hthrow; [exact Hin | | auto].
        rewrite getKey_perUserPerGuild, Hg. reflexivity.
      * eapply Hsome; [exact Hin | |].
        -- rewrite getKey_perUserPerGuild, Hg. reflexivity.
        -- intros [_ H]. congruence.
    + destruct (falsy g) eqn:Hg.
      * apply Hthrow; [exact Hin | | auto].
        rewrite getKey_perGuild, Hg. reflexivity.
      * eapply Hsome; [exact Hin | |].
        -- rewrite getKey_perGuild, Hg. reflexivity.
        -- intros [_ H]. congruence.
    + eapply Hsome; [exact Hin | apply getKey_global|].
      intros [[H|H] _]; discriminate.
  - rewrite getKey_unknown by exact Ht. split; [|split].
    + tauto.
    + split; [intros [e H]; discriminate|].
      intros [[-> | ->] _]; exfalso; apply Ht; unfold cooldownTypes;
        rewrite !elem_of_cons; auto.
    + discriminate.
Qed.

(** X11.  [canRunAction] and [updateCooldown] do not test the type, and
    every type outside the four derives the key [undefined]: a window
    that [updateCooldown] sets for a request of such a type refuses
    every request of any such type, whoever its user and whatever its
    action. *)
Theorem unknown_types_share_one_window h this now r1 r2 st e now' :
  cooldownType r1 ∉ cooldownTypes ->
  cooldownType r2 ∉ cooldownTypes ->
  canBypass this (userId r2) = false ->
  now' <= e ->
  (canRunAction this now' r2 (updateCooldown h this now r1 (Some e) st).2).1
  = Return (Denied (replace "{TIME}" (render_remaining (e - now'))
                      (default (_errorMessage this) (errorMessage r2)))).
Proof.
  intros H1 H2 Hb Hle.
  assert (K1 : getKeyFromCooldownUsage r1 = Return None)
    by (apply getKey_unknown, H1).
  assert (K2 : getKeyFromCooldownUsage r2 = Return None)
    by (apply getKey_unknown, H2).
  rewrite updateCooldown_run, K1. cbv zeta.
  rewrite (canRunAction_window _ _ _ _ None e Hb K2)
    by (destruct (_ && _); cbn [snd _cooldowns]; apply lookup_insert_eq).
  assert ((e <? now') = false) as -> by (apply Z.ltb_ge; lia).
  reflexivity.
Qed.

Lemma unknown_types_share_one_window_witness :
  (canRunAction (default_Cooldowns [] false) 0
     (request "PerGuild" "u2" "command_pong" None None)
     (updateCooldown utc_store_down (default_Cooldowns [] false) 0
        (request "peruser" "u1" "command_ping" None None) (Some 7000)
        (State ∅ ∅)).2).1
  = Return (Denied "Please wait 7s before doing that again.").
Proof.
  assert (Hn : forall t, t <> "perUser" -> t <> "perUserPerGuild" ->
                         t <> "perGuild" -> t <> "global" -> t ∉ cooldownTypes).
  { intros t ? ? ? ?. unfold cooldownTypes. rewrite !not_elem_of_cons.
    repeat split; try assumption. apply not_elem_of_nil. }
  rewrite (unknown_types_share_one_window utc_store_down
             (default_Cooldowns [] false) 0
             (request "peruser" "u1" "command_ping" None None)
             (request "PerGuild" "u2" "command_pong" None None)
             (State ∅ ∅) 7000 0).
  - vm_compute. reflexivity.
  - apply Hn; discriminate.
  - apply Hn; discriminate.
  - reflexivity.
  - discriminate.
Defined.

(** ** The grammar of a duration *)

Lemma split_not_nil c s : split c s <> [].
Proof.
  destruct s as [|x s]; cbn [split]; [discriminate|].
  destruct (Ascii.eqb x c); [discriminate|].
  destruct (split c s); discriminate.
Qed.

Lemma length_split c s : length (split c s) = S (count_char c s).
Proof.
  induction s as [|x s IH]; [reflexivity|].
  cbn [split count_char]. destruct (Ascii.eqb x c).
  - cbn [length]. rewrite IH. reflexivity.
  - pose proof (split_not_nil c s) as Hne.
    destruct (split c s) as [|hd tl]; [contradiction|].
    cbn [length] in *. rewrite IH. reflexivity.
Qed.

(** X12.  A string is refused as an invalid duration exactly when it
    does not hold exactly one space. *)
Theorem verifyCooldown_wants_one_space s :
  verifyCooldown (DString s) = Throw (InvalidDuration s)
  <-> count_char " " s <> 1%nat.
Proof.
  rewrite verifyCooldown_string.
  pose proof (length_split " " s) as Hlen.
  destruct (split " " s) as [|q [|u [|x l]]]; cbn [length] in Hlen.
  - split; [lia | reflexivity].
  - split; [lia | reflexivity].
  - split; [|lia].
    destruct (negb _); [discriminate|].
    destruct (number_le _ _); discriminate.
  - split; [lia | reflexivity].
Qed.

Lemma digit_value_nonneg c : 0 <= default 0 (digit_value c).
Proof.
  unfold digit_value.
  destruct (Z.leb_spec 48 (code c)), (Z.leb_spec (code c) 57);
    cbn [andb default from_option id]; try lia;
    destruct (Z.leb_spec 97 (code c)), (Z.leb_spec (code c) 102);
    cbn [andb default from_option id]; try lia;
    destruct (Z.leb_spec 65 (code c)), (Z.leb_spec (code c) 70);
    cbn [andb default from_option id]; lia.
Qed.

Lemma digits_value_nonneg base l : 0 <= base -> 0 <= digits_value base l.
Proof.
  intros Hb. unfold digits_value.
  assert (H : forall acc, 0 <= acc ->
            0 <= fold_left (fun acc c => base * acc + default 0 (digit_value c))
                   l acc).
  { induction l as [|c l IH]; intros acc Hacc; [exact Hacc|].
    cbn [fold_left]. apply IH.
    pose proof (digit_value_nonneg c). nia. }
  apply H. lia.
Qed.

Lemma scale10_nonneg m e : 0 <= m -> (0 <= scale10 m e)%Q.
Proof.
  intros Hm. unfold scale10. destruct (0 <=? e).
  - change 0%Q with (inject_Z 0). rewrite <- Zle_Qle.
    apply Z.mul_nonneg_nonneg; [exact Hm|]. apply Z.pow_nonneg. lia.
  - rewrite Qred_correct. unfold Qle. cbn. lia.
Qed.

(** What an unsigned literal is worth: nothing, the infinity, or the
    double nearest to a rational that is not negative. *)
Lemma StrUnsignedDecimalLiteral_cases l :
  StrUnsignedDecimalLiteral l = NaN
  \/ StrUnsignedDecimalLiteral l = Infinity false
  \/ exists x, (0 <= x)%Q /\ StrUnsignedDecimalLiteral l = round64 x.
Proof.
  unfold StrUnsignedDecimalLiteral.
  destruct (String.eqb _ _); [auto|].
  destruct (span (is_digit 10) l) as [ip r1].
  destruct (match r1 with
            | [] => ([], r1)
            | c :: r => if Ascii.eqb c "." then span (is_digit 10) r else ([], r1)
            end) as [fp r2].
  destruct (ip ++ fp)%list as [|c ds]; [auto|].
  destruct (ExponentPart r2) as [e|]; [|auto].
  right. right. eexists. split; [|reflexivity].
  apply scale10_nonneg, digits_value_nonneg. lia.
Qed.

Lemma NonDecimalIntegerLiteral_cases l n :
  NonDecimalIntegerLiteral l = Some n -> exists x, n = round64 x.
Proof.
  unfold NonDecimalIntegerLiteral.
  destruct l as [|z [|x [|c ds]]]; try discriminate.
  destruct (_ && _); [|discriminate].
  intros [= <-]. eauto.
Qed.

Lemma round64_nonneg x q : (0 <= x)%Q -> round64 x = Finite q -> (0 <= q)%Q.
Proof.
  intros Hx Hq.
  pose proof (proj1 (round64_grid 0 x ltac:(cbn; lia)) Hx) as H.
  rewrite Hq in H. cbn [number_le num] in H. apply Qle_bool_iff in H. exact H.
Qed.

(** A string that converts to a positive number converts to a positive
    double: one that is at least [tiny]. *)
Lemma StringToNumber_positive s q :
  StringToNumber s = Finite q -> (0 < q)%Q -> (tiny <= q)%Q.
Proof.
  unfold StringToNumber.
  destruct (trim (list_ascii_of_string s)) as [|c l'].
  { intros [= <-] H. discriminate. }
  destruct (NonDecimalIntegerLiteral (c :: l')) as [n|] eqn:En.
  { apply NonDecimalIntegerLiteral_cases in En as [x ->].
    apply (proj1 (round64_positive x)). }
  assert (Hpos : forall l, StrUnsignedDecimalLiteral l = Finite q ->
                           (0 < q)%Q -> (tiny <= q)%Q).
  { intros l Hl.
    destruct (StrUnsignedDecimalLiteral_cases l) as [E|[E|(x & _ & E)]];
      rewrite E in Hl; try discriminate.
    apply (proj1 (round64_positive x)). exact Hl. }
  destruct (Ascii.eqb c "-"); [|destruct (Ascii.eqb c "+"); apply Hpos].
  destruct (StrUnsignedDecimalLiteral_cases l') as [E|[E|(x & Hx & E)]];
    rewrite E; try discriminate.
  destruct (round64 x) as [| |p] eqn:Ep; try discriminate.
  cbn [number_neg]. intros [= <-] Hq. exfalso.
  pose proof (round64_nonneg x p Hx Ep) as Hp.
  rewrite Qred_correct in Hq.
  apply (Qlt_not_le _ _ Hq).
  rewrite <- (Qopp_involutive 0). apply Qopp_le_compat. exact Hp.
Qed.

Lemma Qle_bool_false_pos q : Qle_bool q 0 = false -> (0 < q)%Q.
Proof.
  intros H. apply Qnot_le_lt. intros Hle.
  apply Qle_bool_iff in Hle. congruence.
Qed.

Lemma tiny_positive : (0 < tiny)%Q.
Proof. reflexivity. Qed.

(** The product of a positive double and a whole number of seconds is
    positive: it is rounded, but not to zero. *)
Lemma number_mul_positive q z :
  0 < z ->
  (forall p, q = Finite p -> (0 < p)%Q -> (tiny <= p)%Q) ->
  number_le q (num 0) = false ->
  number_le (number_mul q (num z)) (num 0) = false.
Proof.
  intros Hz Hdouble Hq.
  assert (Hzq : (1 <= inject_Z z)%Q)
    by (change 1%Q with (inject_Z 1); rewrite <- Zle_Qle; lia).
  destruct q as [|s|p]; cbn [number_mul num]; [reflexivity|..].
  - rewrite Qzero_bool_inject_Z by lia.
    rewrite Qneg_bool_false
      by (apply Qle_trans with 1%Q; [discriminate | exact Hzq]).
    cbn in Hq. subst s. reflexivity.
  - cbn [number_le num] in Hq. apply Qle_bool_false_pos in Hq.
    pose proof (Hdouble p eq_refl Hq) as Htiny.
    assert (Hprod : (tiny <= p * inject_Z z)%Q).
    { apply Qle_trans with (p * 1)%Q.
      - rewrite Qmult_1_r. exact Htiny.
      - apply Qmult_le_l; assumption. }
    destruct (proj2 (round64_positive (p * inject_Z z)) Hprod)
      as [-> | (q' & -> & Hq')]; [reflexivity|].
    cbn [number_le num].
    destruct (Qle_bool q' (inject_Z 0)) eqn:E; [|reflexivity].
    apply Qle_bool_iff in E. exfalso.
    apply (Qlt_not_le _ _ tiny_positive).
    apply Qle_trans with q'; assumption.
Qed.

(** X13.  A string never parses to a number that is [<= 0]: either the
    parse throws one of the three errors of a malformed duration, or it
    returns a number for which [n <= 0] is false. *)
Theorem verifyCooldown_string_never_nonpositive s :
  match verifyCooldown (DString s) with
  | Return n => number_le n (num 0) = false
  | Throw e => is_MalformedDurationError e = true
  end.
Proof.
  destruct (verifyCooldown (DString s)) as [n|e] eqn:Hv;
    [|exact (verifyCooldown_throws_malformed s e Hv)].
  rewrite verifyCooldown_string in Hv.
  destruct (split " " s) as [|q [|u [|x l]]]; try discriminate.
  destruct (negb _) eqn:Hunit; [discriminate|].
  destruct (number_le _ _) eqn:Hq; [discriminate|].
  injection Hv as <-.
  unfold get_property, cooldownDurations in *. cbn [own_property] in *.
  repeat match goal with
         | |- context [String.eqb ?k (toLowerCase u)] =>
             destruct (String.eqb k (toLowerCase u));
             [cbn [ToNumber]; apply number_mul_positive;
              [reflexivity | apply StringToNumber_positive | exact Hq]|]
         end.
  case_bool_decide; cbn [ToNumber]; destruct (StringToNumber q); reflexivity.
Qed.

(** ** The caller [runCommand] *)

Lemma first_cooldownType_cases cooldowns :
  first_cooldownType cooldowns cooldownTypes "" = ""
  \/ (first_cooldownType cooldowns cooldownTypes "" ∈ cooldownTypes
      /\ duration_truthy
           (CooldownUsage_get cooldowns
              (first_cooldownType cooldowns cooldownTypes "")) = true).
Proof.
  unfold cooldownTypes. cbn [first_cooldownType].
  repeat match goal with
         | |- context [duration_truthy (CooldownUsage_get cooldowns ?t)] =>
             destruct (duration_truthy (CooldownUsage_get cooldowns t)) eqn:?;
             [right; split; [rewrite !elem_of_cons; auto | assumption]|]
         end.
  left. reflexivity.
Qed.

(** The cooldown block once a type is found. *)
Lemma runCommand_run {A} h this name c user guild now_check now_start
    (callback : option InternalCooldownConfig -> M A) st :
  first_cooldownType c cooldownTypes "" <> "" ->
  runCommand h this true name (Some c) user guild now_check now_start callback st
  = match canRunAction this now_check (usage_of name c user guild) st with
    | (Throw e, st') => (Raised e, st')
    | (Return (Denied result), st') => (Refused result, st')
    | (Return Allowed, st') =>
        match start h this now_start (usage_of name c user guild) st' with
        | (Throw e, st'') => (Raised e, st'')
        | (Return _, st'') =>
            run_callback (callback (Some (usage_of name c user guild))) st''
        end
    end.
Proof.
  intros Ht. unfold runCommand. cbn [negb].
  apply String.eqb_neq in Ht. rewrite Ht. reflexivity.
Qed.

Lemma runCommand_refused {A} h this name c user guild
    now_check now_start (callback : option InternalCooldownConfig -> M A)
    st k e :
  first_cooldownType c cooldownTypes "" <> "" ->
  canBypass this user = false ->
  getKeyFromCooldownUsage (usage_of name c user guild) = Return k ->
  _cooldowns st !! k = Some (Some e) ->
  now_check <= e ->
  runCommand h this true name (Some c) user guild now_check now_start callback st
  = (Refused (replace "{TIME}" (render_remaining (e - now_check))
                (default (_errorMessage this) (cu_errorMessage c))),
     st).
Proof.
  intros Ht Hb Hk Hw Hle. rewrite (runCommand_run _ _ _ _ _ _ _ _ _ _ Ht).
  rewrite (canRunAction_window this now_check (usage_of name c user guild)
             st k e Hb Hk Hw).
  assert ((e <? now_check) = false) as -> by (apply Z.ltb_ge; lia).
  reflexivity.
Qed.

(** X14.  A command whose window is still active is refused: the
    callback is not run, the message of [canRunAction] is returned, and
    neither the cache nor the collection changes, so a refused call does
    not extend the window. *)
Theorem runCommand_refuses_inside_window {A} h this name c user guild
    now_check now_start (callback : option InternalCooldownConfig -> M A)
    st k e :
  first_cooldownType c cooldownTypes "" <> "" ->
  canBypass this user = false ->
  getKeyFromCooldownUsage (usage_of name c user guild) = Return k ->
  _cooldowns st !! k = Some (Some e) ->
  now_check <= e ->
  runCommand h this true name (Some c) user guild now_check now_start callback st
  = (Refused (replace "{TIME}" (render_remaining (e - now_check))
                (default (_errorMessage this) (cu_errorMessage c))),
     st).
Proof. apply runCommand_refused. Qed.

Lemma runCommand_refuses_inside_window_witness :
  runCommand utc (default_Cooldowns [] false) true "ping"
    (Some (perUser_only (DString "5 s"))) "u1" None 2000 2000
    (fun _ => mret tt) (ping_window 5000)
  = (Refused "Please wait 3s before doing that again.", ping_window 5000).
Proof.
  rewrite (runCommand_refuses_inside_window utc (default_Cooldowns [] false) "ping"
             (perUser_only (DString "5 s")) "u1" None 2000 2000
             (fun _ => mret tt) (ping_window 5000) ping_key 5000);
    [vm_compute; reflexivity | discriminate | reflexivity | reflexivity
    | reflexivity | discriminate].
Defined.

(** X15.  The window is charged before the command runs: when no window
    is in the way and the duration parses to [n] whole seconds, the
    callback runs in a state whose cache already holds the window, which
    expires when the local clock has advanced by [n] seconds from the
    time [start] read it.  If the callback leaves that entry alone, the
    next call of the command, up to the expiry, is refused and its
    callback not run.  The expiry is within the range of dates, and the
    upsert, if [start] makes one, resolves. *)
Theorem runCommand_charges_before_the_callback {A} h this name c user guild
    now_check now_start (callback : option InternalCooldownConfig -> M A)
    st k d n :
  first_cooldownType c cooldownTypes "" <> "" ->
  canBypass this user = false ->
  getKeyFromCooldownUsage (usage_of name c user guild) = Return k ->
  _cooldowns st !! k = None ->
  CooldownUsage_get c (first_cooldownType c cooldownTypes "") = Some d ->
  verifyCooldown d = Return (num n) ->
  Z.abs n <= 2 ^ 52 ->
  Z.abs (expiry_of h now_start n) <= max_time ->
  (number_ge (num n) (_dbRequired this) = true ->
   resolves h FindOneAndUpdate = true) ->
  exists st1,
    _cooldowns st1 !! k = Some (Some (expiry_of h now_start n))
    /\ runCommand h this true name (Some c) user guild now_check now_start
         callback st
       = run_callback (callback (Some (usage_of name c user guild))) st1
    /\ forall later later' (callback' : option InternalCooldownConfig -> M A),
         _cooldowns (callback (Some (usage_of name c user guild)) st1).2 !! k
         = _cooldowns st1 !! k ->
         later <= expiry_of h now_start n ->
         (runCommand h this true name (Some c) user guild later later' callback'
            (runCommand h this true name (Some c) user guild now_check now_start
               callback st).2).1
         = Refused (replace "{TIME}"
                      (render_remaining (expiry_of h now_start n - later))
                      (default (_errorMessage this) (cu_errorMessage c))).
Proof.
  intros Ht Hb Hk Hw Hd Hv Hn Hrange Hres.
  assert (Hin : cooldownType (usage_of name c user guild) ∈ cooldownTypes).
  { destruct (first_cooldownType_cases c) as [E|[Hin _]]; [contradiction|].
    exact Hin. }
  pose proof (start_whole h this now_start (usage_of name c user guild) st k d n
                Hb Hin Hk Hd Hv Hn Hrange Hres) as Hstart.
  set (st1 := State (<[k := Some (expiry_of h now_start n)]> (_cooldowns st))
                (if number_ge (num n) (_dbRequired this)
                 then <[k := Some (expiry_of h now_start n)]> (collection st)
                 else collection st)) in *.
  assert (Hcache : _cooldowns st1 !! k = Some (Some (expiry_of h now_start n)))
    by apply lookup_insert_eq.
  exists st1. split; [exact Hcache|].
  assert (Hrun : runCommand h this true name (Some c) user guild now_check
                   now_start callback st
                 = run_callback (callback (Some (usage_of name c user guild)))
                     st1).
  { rewrite (runCommand_run _ _ _ _ _ _ _ _ _ _ Ht).
    rewrite (canRunAction_no_window this now_check
               (usage_of name c user guild) st k Hb Hk Hw).
    rewrite Hstart. reflexivity. }
  split; [exact Hrun|].
  intros later later' callback' Hkeep Hle. rewrite Hrun.
  assert (Hw' : _cooldowns
                  (run_callback (callback (Some (usage_of name c user guild)))
                     st1).2
                !! k = Some (Some (expiry_of h now_start n))).
  { unfold run_callback. rewrite <- Hcache, <- Hkeep.
    destruct (callback _ _) as [[a|e] s2]; reflexivity. }
  rewrite (runCommand_refused h this name c user guild later later'
             callback' _ k (expiry_of h now_start n) Ht Hb Hk Hw' Hle).
  reflexivity.
Qed.

Lemma runCommand_charges_before_the_callback_witness :
  (runCommand utc (default_Cooldowns [] false) true "ping"
     (Some (perUser_only (DString "5 s"))) "u1" None 4000 4001
     (fun _ => mret tt)
     (runCommand utc (default_Cooldowns [] false) true "ping"
        (Some (perUser_only (DString "5 s"))) "u1" None 1000 1001
        (fun _ => mret tt) (State ∅ ∅)).2).1
  = Refused "Please wait 2s before doing that again.".
Proof.
  destruct (runCommand_charges_before_the_callback utc
              (default_Cooldowns [] false)
              "ping" (perUser_only (DString "5 s")) "u1" None 1000 1001
              (fun _ => mret tt) (State ∅ ∅) ping_key (DString "5 s") 5
              ltac:(discriminate) eq_refl eq_refl eq_refl eq_refl eq_refl
              ltac:(discriminate) ltac:(discriminate) ltac:(discriminate))
    as (st1 & _ & Hrun & Hnext).
  rewrite (Hnext 4000 4001 (fun _ => mret tt) eq_refl ltac:(discriminate)).
  vm_compute. reflexivity.
Defined.

(** X16.  A duration that is falsy ([0], [NaN], the empty string) does
    not count as a cooldown: when the object [cooldowns] of a command
    holds no truthy duration under any of the four types, [runCommand]
    throws its error of an unknown type, with the empty name, and
    neither runs the callback nor touches the stores. *)
Theorem runCommand_needs_a_truthy_duration {A} h this name c user guild
    now_check now_start (callback : option InternalCooldownConfig -> M A) st :
  duration_truthy (cu_perUser c) = false ->
  duration_truthy (cu_perUserPerGuild c) = false ->
  duration_truthy (cu_perGuild c) = false ->
  duration_truthy (cu_global c) = false ->
  runCommand h this true name (Some c) user guild now_check now_start callback st
  = (UnknownCooldownType "", st).
Proof.
  intros H1 H2 H3 H4.
  assert (E : first_cooldownType c cooldownTypes "" = "").
  { unfold cooldownTypes. cbn [first_cooldownType]. unfold CooldownUsage_get.
    cbn. rewrite H1, H2, H3, H4. reflexivity. }
  unfold runCommand. cbn [negb]. rewrite E. reflexivity.
Qed.

Lemma runCommand_needs_a_truthy_duration_witness :
  runCommand utc (default_Cooldowns [] false) true "ping"
    (Some (perUser_only (DNumber (num 0)))) "u1" None 0 0
    (fun _ => mret tt) (State ∅ ∅)
  = (UnknownCooldownType "", State ∅ ∅).
Proof.
  apply (runCommand_needs_a_truthy_duration utc (default_Cooldowns [] false) "ping"
           (perUser_only (DNumber (num 0))) "u1" None 0 0 (fun _ => mret tt)
           (State ∅ ∅)); reflexivity.
Defined.

(** X17.  A bot owner who bypasses is neither refused nor charged: the
    callback runs in the state of the call, whatever window the cache
    holds, and no window is written. *)
Theorem runCommand_owner_runs_uncharged {A} h this name c user guild
    now_check now_start (callback : option InternalCooldownConfig -> M A) st :
  first_cooldownType c cooldownTypes "" <> "" ->
  _botOwnersBypass this = true ->
  user ∈ botOwners this ->
  runCommand h this true name (Some c) user guild now_check now_start callback st
  = run_callback (callback (Some (usage_of name c user guild))) st.
Proof.
  intros Ht Hflag Howner.
  assert (Hb : canBypass this (userId (usage_of name c user guild)) = true)
    by (apply canBypass_spec; auto).
  rewrite (runCommand_run _ _ _ _ _ _ _ _ _ _ Ht).
  rewrite (canRunAction_bypass this now_check _ st Hb).
  rewrite (start_bypass h this now_start _ st Hb).
  reflexivity.
Qed.

Lemma runCommand_owner_runs_uncharged_witness :
  runCommand utc (default_Cooldowns ["u1"] true) true "ping"
    (Some (perUser_only (DString "5 s"))) "u1" None 2000 2000
    (fun _ => mret tt) (ping_window 5000)
  = (Called tt, ping_window 5000).
Proof.
  rewrite (runCommand_owner_runs_uncharged utc (default_Cooldowns ["u1"] true) "ping"
             (perUser_only (DString "5 s")) "u1" None 2000 2000
             (fun _ => mret tt) (ping_window 5000));
    [reflexivity | discriminate | reflexivity | apply list_elem_of_here].
Defined.

(** X18.  A command whose cooldown is of a guild type, called outside of
    a guild by a user who does not bypass, raises the error of
    [getKey]; its callback is not run and nothing is written. *)
Theorem runCommand_guild_type_outside_guild {A} h this name c user guild
    now_check now_start (callback : option InternalCooldownConfig -> M A) st :
  first_cooldownType c cooldownTypes "" = "perUserPerGuild"
  \/ first_cooldownType c cooldownTypes "" = "perGuild" ->
  canBypass this user = false ->
  falsy guild = true ->
  runCommand h this true name (Some c) user guild now_check now_start callback st
  = (Raised (UsedOutsideOfGuild (first_cooldownType c cooldownTypes "")), st).
Proof.
  intros Ht Hb Hg.
  assert (Hne : first_cooldownType c cooldownTypes "" <> "")
    by (destruct Ht as [-> | ->]; discriminate).
  rewrite (runCommand_run _ _ _ _ _ _ _ _ _ _ Hne).
  rewrite (canRunAction_throw this now_check (usage_of name c user guild) st
             (UsedOutsideOfGuild (first_cooldownType c cooldownTypes "")) Hb).
  - reflexivity.
  - rewrite getKey_default_guild.
    apply (getKey_outside_guild _ user ("command_" +:+ name) guild Ht Hg).
Qed.

Lemma runCommand_guild_type_outside_guild_witness :
  runCommand utc (default_Cooldowns [] false) true "ping"
    (Some {| cu_perUser := None; cu_perUserPerGuild := None;
             cu_perGuild := Some (DString "5 s"); cu_global := None;
             cu_errorMessage := None |})
    "u1" None 0 0 (fun _ => mret tt) (State ∅ ∅)
  = (Raised (UsedOutsideOfGuild "perGuild"), State ∅ ∅).
Proof.
  apply (runCommand_guild_type_outside_guild utc (default_Cooldowns [] false) "ping"
           {| cu_perUser := None; cu_perUserPerGuild := None;
              cu_perGuild := Some (DString "5 s"); cu_global := None;
              cu_errorMessage := None |}
           "u1" None 0 0 (fun _ => mret tt) (State ∅ ∅)
           (or_intror eq_refl) eq_refl eq_refl).
Defined.

(** ** Whole quantities *)

Lemma pretty_N_char_digit d :
  (d < 10)%N ->
  digit_value (pretty_N_char d) = Some (Z.of_N d)
  /\ is_digit 10 (pretty_N_char d) = true
  /\ is_space (pretty_N_char d) = false.
Proof.
  intros Hd.
  assert (d = 0 \/ d = 1 \/ d = 2 \/ d = 3 \/ d = 4 \/ d = 5 \/ d = 6
          \/ d = 7 \/ d = 8 \/ d = 9)%N as H by lia.
  repeat (destruct H as [->|H]; [repeat split; reflexivity|]).
  subst d. repeat split; reflexivity.
Qed.

Lemma pretty_N_go_digits x s :
  exists ds,
    list_ascii_of_string (pretty_N_go x s) = (ds ++ list_ascii_of_string s)%list
    /\ Forall (fun c => is_digit 10 c = true) ds
    /\ (forall acc,
          fold_left (fun acc c => 10 * acc + default 0 (digit_value c)) ds acc
          = acc * 10 ^ Z.of_nat (length ds) + Z.of_N x)
    /\ ((0 < x)%N -> ds <> []).
Proof.
  revert s. induction (N.lt_wf_0 x) as [x _ IH]. intros s.
  destruct (N.eq_dec x 0%N) as [->|Hx].
  - exists []. rewrite pretty_N_go_0.
    split; [reflexivity|]. split; [constructor|].
    split; [intros acc; cbn; lia | lia].
  - assert (Hpos : (0 < x)%N) by lia.
    rewrite pretty_N_go_step by exact Hpos.
    destruct (IH (x `div` 10)%N (N.div_lt x 10 Hpos eq_refl)
                (String (pretty_N_char (x `mod` 10)) s))
      as (ds & Hl & Hd & Hv & _).
    assert (Hm : (x `mod` 10 < 10)%N) by (apply N.mod_lt; lia).
    destruct (pretty_N_char_digit _ Hm) as (Hval & Hdig & _).
    exists (ds ++ [pretty_N_char (x `mod` 10)])%list.
    split; [|split; [|split]].
    + rewrite Hl. cbn [list_ascii_of_string]. rewrite <- app_assoc. reflexivity.
    + apply Forall_app. split; [exact Hd|]. constructor; [exact Hdig | constructor].
    + intros acc. rewrite fold_left_app, Hv. cbn [fold_left].
      rewrite Hval. cbn [default from_option id].
      rewrite length_app. cbn [length]. rewrite Nat2Z.inj_add.
      rewrite Z.pow_add_r by lia. change (10 ^ Z.of_nat 1) with 10.
      rewrite (N.div_mod x 10) at 3 by lia.
      rewrite N2Z.inj_add, N2Z.inj_mul. change (Z.of_N 10) with 10. lia.
    + intros _. destruct ds; discriminate.
Qed.

Lemma digit_is_no_sign c :
  is_digit 10 c = true ->
  (is_space c = false /\ Ascii.eqb c " " = false)
  /\ Ascii.eqb c "-" = false /\ Ascii.eqb c "+" = false
  /\ Ascii.eqb c "I" = false
  /\ Ascii.eqb c "x" = false /\ Ascii.eqb c "X" = false
  /\ Ascii.eqb c "o" = false /\ Ascii.eqb c "O" = false
  /\ Ascii.eqb c "b" = false /\ Ascii.eqb c "B" = false.
Proof.
  destruct c as [[] [] [] [] [] [] [] []]; vm_compute; intros H;
    try discriminate H; repeat split; reflexivity.
Qed.

Lemma span_all (p : ascii -> bool) l :
  Forall (fun c => p c = true) l -> span p l = (l, []).
Proof.
  induction 1 as [|c l Hc _ IH]; [reflexivity|].
  cbn [span]. rewrite Hc, IH. reflexivity.
Qed.

Lemma span_none (p : ascii -> bool) c l :
  p c = false -> span p (c :: l) = ([], c :: l).
Proof. intros H. cbn [span]. rewrite H. reflexivity. Qed.

Lemma trim_digits ds :
  Forall (fun c => is_digit 10 c = true) ds -> trim ds = ds.
Proof.
  intros Hd. unfold trim.
  assert (Hs : forall l, Forall (fun c => is_digit 10 c = true) l ->
                         snd (span is_space l) = l).
  { intros [|c l] Hl; [reflexivity|].
    apply Forall_cons in Hl as [Hc _].
    rewrite span_none by (apply digit_is_no_sign, Hc). reflexivity. }
  rewrite (Hs ds Hd), Hs by (apply Forall_rev, Hd).
  apply rev_involutive.
Qed.

Lemma StringToNumber_digits s ds :
  list_ascii_of_string s = ds ->
  ds <> [] ->
  Forall (fun c => is_digit 10 c = true) ds ->
  StringToNumber s = round64 (inject_Z (digits_value 10 ds)).
Proof.
  intros Hs Hne Hd. unfold StringToNumber. rewrite Hs, (trim_digits ds Hd).
  destruct ds as [|c l]; [contradiction|].
  pose proof Hd as Hd'. apply Forall_cons in Hd' as [Hc Hl].
  destruct (digit_is_no_sign c Hc) as (_ & Hm & Hp & HI & _).
  assert (Hnd : NonDecimalIntegerLiteral (c :: l) = None).
  { destruct l as [|x [|y l']]; [reflexivity..|].
    apply Forall_cons in Hl as [Hx _].
    destruct (digit_is_no_sign x Hx) as (_ & _ & _ & _ & E1 & E2 & E3 & E4 & E5 & E6).
    cbn [NonDecimalIntegerLiteral]. rewrite E1, E2, E3, E4, E5, E6.
    destruct (negb (Ascii.eqb c "0")); reflexivity. }
  rewrite Hnd, Hm, Hp.
  unfold StrUnsignedDecimalLiteral.
  assert (HInf : String.eqb (string_of_list_ascii (c :: l)) "Infinity" = false).
  { cbn [string_of_list_ascii String.eqb]. rewrite HI. reflexivity. }
  rewrite HInf, (span_all _ _ Hd). cbn [app].
  rewrite app_nil_r. cbn [ExponentPart length]. unfold scale10.
  cbn [Z.of_nat Z.sub Z.opp Z.add Z.leb Z.compare Z.pow Z.pow_pos].
  rewrite Z.mul_1_r. reflexivity.
Qed.

(** The numeral of a whole number converts to the double nearest to
    the number, which is the number itself up to [2^53]. *)
Lemma StringToNumber_pretty n :
  0 < n -> StringToNumber (pretty n) = round64 (inject_Z n).
Proof.
  intros Hn. destruct n as [|p|p]; try lia.
  change (pretty (Z.pos p)) with (pretty_N_go (N.pos p) "").
  destruct (pretty_N_go_digits (N.pos p) "") as (ds & Hl & Hd & Hv & Hne).
  cbn [list_ascii_of_string] in Hl. rewrite app_nil_r in Hl.
  rewrite (StringToNumber_digits _ ds Hl (Hne eq_refl) Hd).
  unfold digits_value. rewrite Hv. reflexivity.
Qed.

Lemma StringToNumber_pretty_exact n :
  0 < n <= 2 ^ 53 -> StringToNumber (pretty n) = num n.
Proof.
  intros Hn. rewrite StringToNumber_pretty by lia.
  apply round64_integer; [lia | reflexivity].
Qed.

Lemma digits_hold_no_space s :
  Forall (fun c => is_digit 10 c = true) (list_ascii_of_string s) ->
  has_char " " s = false.
Proof.
  induction s as [|c s IH]; intros Hd; [reflexivity|].
  cbn [list_ascii_of_string] in Hd. apply Forall_cons in Hd as [Hc Hd].
  cbn [has_char]. destruct (digit_is_no_sign c Hc) as ((_ & ->) & _).
  apply IH, Hd.
Qed.

Lemma split_first_token c a b :
  has_char c a = false -> split c (a +:+ String c b) = a :: split c b.
Proof.
  induction a as [|x a IH]; intros Ha.
  - rewrite append_nil_l. cbn [split]. rewrite Ascii.eqb_refl. reflexivity.
  - cbn [has_char] in Ha. apply orb_false_elim in Ha as [Hx Ha].
    rewrite append_cons. cbn [split]. rewrite Hx, (IH Ha). reflexivity.
Qed.

(** X19.  For every whole number [n > 0] and each of the unit letters,
    in either case, the string of the decimal numeral of [n], a space
    and the letter parses to [n] times the seconds of the unit, as long
    as that product is no more than [2^53]; beyond, the numeral and the
    product are rounded. *)
Theorem verifyCooldown_whole_quantity n unit seconds :
  0 < n ->
  n * seconds <= 2 ^ 53 ->
  (unit, seconds) ∈ [("s", 1); ("S", 1); ("m", 60); ("M", 60);
                     ("h", 3600); ("H", 3600); ("d", 86400); ("D", 86400)] ->
  verifyCooldown (DString (pretty n +:+ " " +:+ unit)) = Return (num (n * seconds)).
Proof.
  intros Hn Hmax Hu.
  assert (Hsp : has_char " " (pretty n) = false).
  { destruct n as [|p|p]; try lia.
    change (pretty (Z.pos p)) with (pretty_N_go (N.pos p) "").
    destruct (pretty_N_go_digits (N.pos p) "") as (ds & Hl & Hd & _).
    cbn [list_ascii_of_string] in Hl. rewrite app_nil_r in Hl.
    apply digits_hold_no_space. rewrite Hl. exact Hd. }
  assert (Hle : number_le (num n) (num 0) = false).
  { unfold number_le, num. destruct (Qle_bool _ _) eqn:E; [|reflexivity].
    apply Qle_bool_iff in E. rewrite <- Zle_Qle in E. lia. }
  rewrite verifyCooldown_string.
  change (pretty n +:+ " " +:+ unit) with (pretty n +:+ String " " unit).
  rewrite (split_first_token " " _ _ Hsp).
  rewrite !elem_of_cons, elem_of_nil in Hu.
  repeat (destruct Hu as [[= -> ->]|Hu];
          [cbn [split Ascii.eqb Bool.eqb];
           rewrite (StringToNumber_pretty_exact n) by lia; rewrite Hle;
           apply (f_equal Return), number_mul_num; lia|]).
  contradiction.
Qed.

Lemma verifyCooldown_whole_quantity_witness :
  verifyCooldown (DString (pretty 10 +:+ " " +:+ "M")) = Return (num (10 * 60))
  /\ verifyCooldown (DString "9007199254740993 s") = Return (num 9007199254740992).
Proof.
  split.
  - apply (verifyCooldown_whole_quantity 10 "M" 60);
      [reflexivity | discriminate|].
    rewrite !elem_of_cons. auto.
  - vm_compute. reflexivity.
Defined.

(** ** The text of a refusal *)

Lemma replace_without_brace time s :
  has_char "{" s = false -> replace "{TIME}" time s = s.
Proof.
  induction s as [|c s IH]; intros H; [reflexivity|].
  cbn [has_char] in H. apply orb_false_elim in H as [Hc H].
  cbn [replace strip_prefix]. rewrite Ascii.eqb_sym, Hc, (IH H). reflexivity.
Qed.

(** X20.  With the message of the default configuration and none in the
    request, a refusal reads [Please wait], the remaining time, and
    [before doing that again.]; a template that holds no brace, hence no
    token, is returned as it is, without the time. *)
Theorem refusal_text this now r st k e :
  canBypass this (userId r) = false ->
  getKeyFromCooldownUsage r = Return k ->
  _cooldowns st !! k = Some (Some e) ->
  now <= e ->
  (forall owners cfg,
     this = constructor owners cfg -> cfg_errorMessage cfg = None ->
     errorMessage r = None ->
     (canRunAction this now r st).1
     = Return (Denied ("Please wait " +:+ render_remaining (e - now)
                       +:+ " before doing that again.")))
  /\ (has_char "{" (default (_errorMessage this) (errorMessage r)) = false ->
      (canRunAction this now r st).1
      = Return (Denied (default (_errorMessage this) (errorMessage r)))).
Proof.
  intros Hb Hk Hw Hle.
  rewrite (canRunAction_window _ _ _ _ k e Hb Hk Hw).
  assert ((e <? now) = false) as -> by (apply Z.ltb_ge; lia).
  cbn [fst]. split.
  - intros owners cfg -> Hcfg Hr. rewrite Hr.
    unfold constructor. cbn [_errorMessage]. rewrite Hcfg.
    cbn [default from_option id].
    change "Please wait {TIME} before doing that again."
      with ("Please wait " +:+ "{TIME}" +:+ " before doing that again.").
    rewrite replace_token by reflexivity. reflexivity.
  - intros Hno. rewrite replace_without_brace by exact Hno. reflexivity.
Qed.

Lemma refusal_text_witness :
  (canRunAction
     (constructor []
        {| cfg_errorMessage := Some "Slow down!"; cfg_botOwnersBypass := None;
           cfg_dbRequired := None |})
     0 ping (ping_window 5000)).1
  = Return (Denied "Slow down!").
Proof.
  apply (proj2 (refusal_text
                  (constructor []
                     {| cfg_errorMessage := Some "Slow down!";
                        cfg_botOwnersBypass := None; cfg_dbRequired := None |})
                  0 ping (ping_window 5000) ping_key 5000
                  eq_refl eq_refl eq_refl ltac:(discriminate))).
  reflexivity.
Defined.

(** ** A shortened window and the collection *)

(** X21.  [updateCooldown] writes the collection only for a date beyond
    the threshold.  So when a stored window (of [n >= _dbRequired] whole
    seconds, its upsert resolved) is moved to a nearer date [e], no more
    than the threshold [t] away, the collection keeps the former date: in
    the running process the request is allowed once [e] has passed, but
    a new process that loads the collection refuses it until the former
    expiry, the time at which the local clock of the first process has
    advanced by [n] seconds. *)
Theorem shortened_window_returns_after_restart
    h h' this now r st k d n t later e t1 t2 :
  canBypass this (userId r) = false ->
  cooldownType r ∈ cooldownTypes ->
  getKeyFromCooldownUsage r = Return k ->
  duration r = Some d ->
  verifyCooldown d = Return (num n) ->
  Z.abs n <= 2 ^ 52 ->
  Z.abs (expiry_of h now n) <= max_time ->
  number_ge (num n) (_dbRequired this) = true ->
  resolves h FindOneAndUpdate = true ->
  resolves h' DeleteMany = true ->
  resolves h' Find = true ->
  _dbRequired this = Finite t ->
  (inject_Z (e - later) / 1000 <= t)%Q ->
  e < t2 <= expiry_of h now n ->
  t1 <= expiry_of h now n ->
  (canRunAction this t2 r
     (updateCooldown h this later r (Some e) (start h this now r st).2).2).1
  = Return Allowed
  /\ (canRunAction this t2 r
        (loadCooldowns h' t1
           (State ∅
              (collection
                 (updateCooldown h this later r (Some e)
                    (start h this now r st).2).2))).2).1
     = Return (Denied (replace "{TIME}"
                         (render_remaining (expiry_of h now n - t2))
                         (default (_errorMessage this) (errorMessage r)))).
Proof.
  intros Hb Ht Hk Hd Hv Hn Hrange Hge Hres Hdel Hfind Hthr Hnear' [Hlt Hle] Ht1.
  assert (Hnear : number_gt
                    (number_div (number_sub (getTime (Some e)) (getTime (Some later)))
                       (num 1000))
                    (_dbRequired this) = false).
  { rewrite Hthr. destruct (number_gt _ _) eqn:E; [|reflexivity].
    apply seconds_until_beyond in E.
    exfalso. exact (Qlt_not_le _ _ E Hnear'). }
  rewrite (start_whole h this now r st k d n Hb Ht Hk Hd Hv Hn Hrange
             (fun _ => Hres)), Hge.
  cbn [snd].
  set (x := expiry_of h now n) in *.
  rewrite updateCooldown_run, Hk. cbv zeta.
  rewrite Hnear.
  cbn [andb snd _cooldowns collection]. split.
  - rewrite (canRunAction_window _ _ _ _ k e Hb Hk)
      by (cbn [_cooldowns]; apply lookup_insert_eq).
    apply Z.ltb_lt in Hlt. rewrite Hlt. reflexivity.
  - destruct (loadCooldowns_spec h' t1
                (State ∅ (<[k := Some x]> (collection st))) Hdel Hfind)
      as (_ & Hkeep & Hcache & _).
    assert (Hw : _cooldowns
                   (loadCooldowns h' t1
                      (State ∅ (<[k := Some x]> (collection st)))).2
                 !! k = Some (Some x)).
    { apply Hcache, Hkeep. cbn [collection]. split; [apply lookup_insert_eq|].
      rewrite Date_gt_valid. apply Z.ltb_ge. lia. }
    rewrite (canRunAction_window _ _ _ _ k _ Hb Hk Hw).
    assert ((x <? t2) = false) as -> by (apply Z.ltb_ge; lia).
    reflexivity.
Qed.

Lemma shortened_window_returns_after_restart_witness :
  (canRunAction (default_Cooldowns [] false) 20000
     (request "perUser" "u1" "command_ping" None (Some (DString "10 m")))
     (loadCooldowns utc 15000
        (State ∅
           (collection
              (updateCooldown utc (default_Cooldowns [] false) 5000
                 (request "perUser" "u1" "command_ping" None
                    (Some (DString "10 m")))
                 (Some 10000)
                 (start utc (default_Cooldowns [] false) 0
                    (request "perUser" "u1" "command_ping" None
                       (Some (DString "10 m")))
                    (State ∅ ∅)).2).2))).2).1
  = Return (Denied "Please wait 9m 40s before doing that again.").
Proof.
  rewrite (proj2 (shortened_window_returns_after_restart utc utc
                    (default_Cooldowns [] false) 0
                    (request "perUser" "u1" "command_ping" None
                       (Some (DString "10 m")))
                    (State ∅ ∅) ping_key (DString "10 m") 600 (inject_Z 300)
                    5000 10000 15000 20000
                    eq_refl ltac:(apply list_elem_of_here) eq_refl eq_refl eq_refl
                    ltac:(discriminate) ltac:(discriminate)
                    eq_refl eq_refl eq_refl eq_refl eq_refl ltac:(discriminate)
                    ltac:(split; [reflexivity | discriminate])
                    ltac:(discriminate))).
  vm_compute. reflexivity.
Defined.
